(** * mcp-read-only-grafana: session handling, registry and dispatch

    A shallow embedding of [src/config.py], [src/grafana_connector.py] and
    [src/server.py], and the properties of the specification proved (or
    refuted) on it.

    Text is modelled by [string]: a character is a code point below 256.
    The [str] methods used by the program ([strip], [split], [splitlines],
    [isalnum], [upper], [startswith], [in]) are written out for that range.
    Library code the repository calls but does not own is taken as a
    parameter of the development: [urllib.parse.unquote], python-dotenv's
    [load_dotenv] and the HTTP exchange performed by [httpx]. *)

From Stdlib Require Import String Ascii List Bool ZArith NArith QArith Lia.
From Stdlib Require Import DecimalString.
Import ListNotations.
Close Scope Q_scope.
Open Scope string_scope.

(** ** Python strings *)

Module Str.

Definition code (c : ascii) : N := N_of_ascii c.

Definition in_range (lo hi : N) (c : ascii) : bool :=
  (N.leb lo (code c) && N.leb (code c) hi)%bool.

Definition is_ascii_digit (c : ascii) : bool := in_range 48 57 c.
Definition is_ascii_upper (c : ascii) : bool := in_range 65 90 c.
Definition is_ascii_lower (c : ascii) : bool := in_range 97 122 c.

Definition is_ascii_alnum (c : ascii) : bool :=
  is_ascii_digit c || is_ascii_upper c || is_ascii_lower c.

(** [str.isalnum] on one character: ASCII letters and digits, and the
    letters and numeric characters of the range U+0080..U+00FF. *)
Definition isalnum_char (c : ascii) : bool :=
  is_ascii_alnum c
  || N.eqb (code c) 170 || N.eqb (code c) 178 || N.eqb (code c) 179
  || N.eqb (code c) 181 || N.eqb (code c) 185 || N.eqb (code c) 186
  || in_range 188 190 c || in_range 192 214 c
  || in_range 216 246 c || in_range 248 255 c.

Fixpoint all_chars (p : ascii -> bool) (s : string) : bool :=
  match s with
  | EmptyString => true
  | String c r => p c && all_chars p r
  end.

(** [s.isalnum()]: every character is alphanumeric and there is at least
    one character. *)
Definition isalnum (s : string) : bool :=
  match s with
  | EmptyString => false
  | _ => all_chars isalnum_char s
  end.

(** [str.isspace] on one character. *)
Definition isspace (c : ascii) : bool :=
  in_range 9 13 c || in_range 28 32 c
  || N.eqb (code c) 133 || N.eqb (code c) 160.

(** [s.replace(c, '')] for a one-character pattern. *)
Fixpoint remove_char (c : ascii) (s : string) : string :=
  match s with
  | EmptyString => EmptyString
  | String d r =>
      if Ascii.eqb d c then remove_char c r else String d (remove_char c r)
  end.

(** [s.replace(c, d)] for one-character pattern and replacement. *)
Fixpoint replace_char (c d : ascii) (s : string) : string :=
  match s with
  | EmptyString => EmptyString
  | String e r =>
      String (if Ascii.eqb e c then d else e) (replace_char c d r)
  end.

(** [str.upper] on one character.  The sharp s becomes "SS"; the two
    characters of the range whose capital lies beyond U+00FF (micro sign,
    y with diaeresis) are left as they are. *)
Definition upper_char (c : ascii) : string :=
  if is_ascii_lower c then String (ascii_of_N (code c - 32)) EmptyString
  else if N.eqb (code c) 223 then "SS"
  else if (in_range 224 254 c && negb (N.eqb (code c) 247))%bool
       then String (ascii_of_N (code c - 32)) EmptyString
  else String c EmptyString.

Fixpoint upper (s : string) : string :=
  match s with
  | EmptyString => EmptyString
  | String c r => upper_char c ++ upper r
  end.

(** [s.startswith(p)] *)
Definition startswith (s p : string) : bool := String.prefix p s.

(** [needle in hay] *)
Fixpoint contains (needle hay : string) : bool :=
  String.prefix needle hay ||
  match hay with
  | EmptyString => false
  | String _ r => contains needle r
  end.

(** [s.split(sep)] for a one-character separator. *)
Fixpoint split (sep : ascii) (s : string) : list string :=
  match s with
  | EmptyString => [EmptyString]
  | String c r =>
      if Ascii.eqb c sep then EmptyString :: split sep r
      else match split sep r with
           | [] => [String c EmptyString]
           | l :: ls => String c l :: ls
           end
  end.

(** [s.split(sep, 1)]: the text before the first separator and, when there
    is one, the text after it. *)
Fixpoint split1 (sep : ascii) (s : string) : string * option string :=
  match s with
  | EmptyString => (EmptyString, None)
  | String c r =>
      if Ascii.eqb c sep then (EmptyString, Some r)
      else let '(a, b) := split1 sep r in (String c a, b)
  end.

Fixpoint lstrip (s : string) : string :=
  match s with
  | EmptyString => EmptyString
  | String c r => if isspace c then lstrip r else s
  end.

Fixpoint rstrip (s : string) : string :=
  match s with
  | EmptyString => EmptyString
  | String c r =>
      match rstrip r with
      | EmptyString => if isspace c then EmptyString else String c EmptyString
      | r' => String c r'
      end
  end.

(** [s.strip()] *)
Definition strip (s : string) : string := rstrip (lstrip s).

(** [s.rstrip(c)] for a one-character set. *)
Fixpoint rstrip_char (c : ascii) (s : string) : string :=
  match s with
  | EmptyString => EmptyString
  | String d r =>
      match rstrip_char c r with
      | EmptyString => if Ascii.eqb d c then EmptyString else String d EmptyString
      | r' => String d r'
      end
  end.

(** Line boundaries of [str.splitlines] below U+0100. *)
Definition is_linebreak (c : ascii) : bool :=
  in_range 10 13 c || in_range 28 30 c || N.eqb (code c) 133.

(** [s.splitlines()]: a carriage return followed by a line feed is one
    boundary; no empty last line is produced after a final boundary. *)
Fixpoint splitlines (s : string) : list string :=
  match s with
  | EmptyString => []
  | String c r =>
      if is_linebreak c then
        match r with
        | String d r' =>
            if (N.eqb (code c) 13 && N.eqb (code d) 10)%bool
            then EmptyString :: splitlines r'
            else EmptyString :: splitlines r
        | EmptyString => [EmptyString]
        end
      else match splitlines r with
           | [] => [String c EmptyString]
           | l :: ls => String c l :: ls
           end
  end.

(** [sep.join(parts)] *)
Definition join (sep : string) (parts : list string) : string :=
  String.concat sep parts.

Definition hex_digit (c : ascii) : option N :=
  if is_ascii_digit c then Some (code c - 48)%N
  else if in_range 65 70 c then Some (code c - 55)%N
  else if in_range 97 102 c then Some (code c - 87)%N
  else None.

(** A percent-decoder: every [%XY] with two hexadecimal digits becomes the
    character with that code, anything else is kept.  It agrees with
    [urllib.parse.unquote] on text whose escapes are all below [%80], and is
    the decoder used where an example needs a concrete one. *)
Fixpoint percent_decode (s : string) : string :=
  match s with
  | EmptyString => EmptyString
  | String c r =>
      if Ascii.eqb c "%" then
        match r with
        | String a (String b r') =>
            match hex_digit a, hex_digit b with
            | Some x, Some y => String (ascii_of_N (16 * x + y)) (percent_decode r')
            | _, _ => String c (percent_decode r)
            end
        | _ => String c (percent_decode r)
        end
      else String c (percent_decode r)
  end.

End Str.

(** ** Exceptions and results *)

(** The exception classes the program raises or catches.  All of them are
    subclasses of [Exception].  [HTTPStatusError] carries the status code
    and the text of the response it was raised for; [LibraryError] stands
    for any other exception coming out of a library call. *)
Inductive exn : Type :=
| ValueError (msg : string)
| Exception (msg : string)
| TypeError (msg : string)
| AttributeError (msg : string)
| IndexError (msg : string)
| HTTPStatusError (status : Z) (text : string) (msg : string)
| TimeoutException (msg : string)
| LibraryError (msg : string).

(** [str(e)] *)
Definition exn_str (e : exn) : string :=
  match e with
  | ValueError m | Exception m | TypeError m | AttributeError m
  | IndexError m | HTTPStatusError _ _ m | TimeoutException m
  | LibraryError m => m
  end.

Inductive Result (A : Type) : Type :=
| Ok (a : A)
| Raise (e : exn).
Arguments Ok {A} a.
Arguments Raise {A} e.

(** ** [src/config.py]: the connection record *)

Record GrafanaConnection : Type := mkConnection {
  connection_name : string;
  url : string;
  description : string;
  timeout : Z;
  verify_ssl : bool;
  session_token : option string
}.

Definition set_session_token (c : GrafanaConnection) (t : option string)
  : GrafanaConnection :=
  mkConnection (connection_name c) (url c) (description c) (timeout c)
               (verify_ssl c) t.

(** [validate_connection_name]: the field validator of [connection_name]. *)
Definition validate_connection_name (v : string) : Result string :=
  if negb (Str.isalnum (Str.remove_char "-" (Str.remove_char "_" v)))
  then Raise (ValueError
    "Connection name must contain only letters, numbers, underscores, and hyphens")
  else Ok v.

(** [remove_trailing_slash]: the field validator of [url]. *)
Definition remove_trailing_slash (v : string) : string :=
  Str.rstrip_char "/" v.

(** Construction of a [GrafanaConnection] from keyword arguments, with the
    field defaults of the model class.  [url] is text that already passed
    the URL type check of the validation library. *)
Definition GrafanaConnection_new
    (name : string) (u : string) (descr : option string)
    (tmo : option Z) (verify : option bool) (token : option string)
  : Result GrafanaConnection :=
  match validate_connection_name name with
  | Raise e => Raise e
  | Ok n =>
      Ok (mkConnection n (remove_trailing_slash u)
            (match descr with Some d => d | None => "" end)
            (match tmo with Some t => t | None => 30%Z end)
            (match verify with Some b => b | None => true end)
            token)
  end.

(** [get_env_var_name] *)
Definition get_env_var_name (c : GrafanaConnection) : string :=
  "GRAFANA_SESSION_" ++ Str.replace_char "-" "_" (Str.upper (connection_name c)).

(** ** JSON values and the Python operations applied to them *)

#[local] Set Warnings "-register-all".


Inductive json : Type :=
| JNull
| JBool (b : bool)
| JInt (z : Z)
| JFloat (q : Q)
| JStr (s : string)
| JList (l : list json)
| JDict (d : list (string * json)).

(** A [dict] is an association list in insertion order, one entry per key. *)
Fixpoint dict_get {A : Type} (k : string) (d : list (string * A)) : option A :=
  match d with
  | [] => None
  | (k', v) :: r => if String.eqb k k' then Some v else dict_get k r
  end.

(** [d[k] = v]: an existing key keeps its place, a new one goes last. *)
Fixpoint dict_set {A : Type} (k : string) (v : A) (d : list (string * A))
  : list (string * A) :=
  match d with
  | [] => [(k, v)]
  | (k', v') :: r =>
      if String.eqb k k' then (k', v) :: r else (k', v') :: dict_set k v r
  end.

Definition dict_keys {A : Type} (d : list (string * A)) : list string :=
  map fst d.

(** [k in d] *)
Definition dict_mem {A : Type} (k : string) (d : list (string * A)) : bool :=
  match dict_get k d with Some _ => true | None => false end.

Module Py.

Definition type_name (o : json) : string :=
  match o with
  | JNull => "NoneType"
  | JBool _ => "bool"
  | JInt _ => "int"
  | JFloat _ => "float"
  | JStr _ => "str"
  | JList _ => "list"
  | JDict _ => "dict"
  end.

(** Truth value of an object, as tested by [if o:]. *)
Definition truthy (o : json) : bool :=
  match o with
  | JNull => false
  | JBool b => b
  | JInt z => negb (Z.eqb z 0)
  | JFloat q => negb (Z.eqb (Qnum q) 0)
  | JStr s => negb (String.eqb s "")
  | JList l => match l with [] => false | _ => true end
  | JDict d => match d with [] => false | _ => true end
  end.

(** [o.get(k, default)] *)
Definition get (o : json) (k : string) (default : json) : Result json :=
  match o with
  | JDict d => Ok (match dict_get k d with Some v => v | None => default end)
  | _ => Raise (AttributeError
           ("'" ++ type_name o ++ "' object has no attribute 'get'"))
  end.

(** [o.items()] *)
Definition items (o : json) : Result (list (string * json)) :=
  match o with
  | JDict d => Ok d
  | _ => Raise (AttributeError
           ("'" ++ type_name o ++ "' object has no attribute 'items'"))
  end.

Fixpoint chars (s : string) : list json :=
  match s with
  | EmptyString => []
  | String c r => JStr (String c EmptyString) :: chars r
  end.

(** The elements visited by [for x in o:]. *)
Definition iter (o : json) : Result (list json) :=
  match o with
  | JList l => Ok l
  | JDict d => Ok (map JStr (dict_keys d))
  | JStr s => Ok (chars s)
  | _ => Raise (TypeError ("'" ++ type_name o ++ "' object is not iterable"))
  end.

(** [o[k] = v] for a string key. *)
Definition setitem (o : json) (k : string) (v : json) : Result json :=
  match o with
  | JDict d => Ok (JDict (dict_set k v d))
  | _ => Raise (TypeError
           ("'" ++ type_name o ++ "' object does not support item assignment"))
  end.

Fixpoint take (n : nat) (s : string) : string :=
  match n, s with
  | S n', String c r => String c (take n' r)
  | _, _ => EmptyString
  end.

(** [o[:n]] *)
Definition slice_to (n : nat) (o : json) : Result json :=
  match o with
  | JStr s => Ok (JStr (take n s))
  | JList l => Ok (JList (firstn n l))
  | _ => Raise (TypeError
           ("'" ++ type_name o ++ "' object is not subscriptable"))
  end.

(** [o == n] for an integer [n]. *)
Definition eq_int (o : json) (n : Z) : bool :=
  match o with
  | JInt z => Z.eqb z n
  | JBool b => Z.eqb (if b then 1 else 0) n
  | JFloat q => Qeq_bool q (inject_Z n)
  | _ => false
  end.

(** [str(n)] for an integer. *)
Definition str_int (n : Z) : string := NilZero.string_of_int (Z.to_int n).

End Py.

(** ** The world outside the process *)

Definition Env : Type := list (string * string).

(** [os.getenv] *)
Definition getenv (e : Env) (k : string) : option string := dict_get k e.

Inductive Method : Type := GET | POST.

Record Request : Type := mkRequest {
  req_method : Method;
  req_path : string;
  req_params : list (string * json);
  req_body : option json;
  req_cookie : option string
}.

Record Response : Type := mkResponse {
  status_code : Z;
  headers : list (string * string);
  text : string;
  parsed : Result json
}.

(** What [httpx] hands back for one request. *)
Inductive Outcome : Type :=
| TimedOut (msg : string)
| Failed (msg : string)
| Responded (r : Response).

(** The [.env] file of the working directory (its text as [read_text]
    returns it, when the file exists), the process environment, and the
    requests sent so far, oldest first. *)
Record World : Type := mkWorld {
  env_file : option string;
  environ : Env;
  sent : list Request
}.

Definition set_env_file (w : World) (f : option string) : World :=
  mkWorld f (environ w) (sent w).
Definition set_environ (w : World) (e : Env) : World :=
  mkWorld (env_file w) e (sent w).
Definition log_request (w : World) (r : Request) : World :=
  mkWorld (env_file w) (environ w) (sent w ++ [r]).

(** ** [src/grafana_connector.py]: the connector and its state *)

(** A connector owns its connection record and an HTTP client; of the
    client the model keeps the settings fixed at construction and the value
    the program gives to its [grafana_session] cookie.  What the client
    library stores by itself from the [Set-Cookie] headers it receives is
    not part of the model. *)
Record GrafanaConnector : Type := mkConnector {
  connection : GrafanaConnection;
  client_base_url : string;
  client_timeout : Z;
  client_verify : bool;
  client_cookie : option string
}.

(** [GrafanaConnector.__init__] *)
Definition GrafanaConnector_new (c : GrafanaConnection) : GrafanaConnector :=
  mkConnector c (url c) (timeout c) (verify_ssl c) (session_token c).

Definition set_connection (k : GrafanaConnector) (c : GrafanaConnection)
  : GrafanaConnector :=
  mkConnector c (client_base_url k) (client_timeout k) (client_verify k)
              (client_cookie k).
Definition set_client_cookie (k : GrafanaConnector) (t : option string)
  : GrafanaConnector :=
  mkConnector (connection k) (client_base_url k) (client_timeout k)
              (client_verify k) t.

(** A method of a connector: it reads and changes the connector and the
    world, and returns or raises.  A raise keeps the changes made so far. *)
Definition St : Type := (GrafanaConnector * World)%type.
Definition M (A : Type) : Type := St -> St * Result A.

Definition ret {A : Type} (a : A) : M A := fun st => (st, Ok a).
Definition raise {A : Type} (e : exn) : M A := fun st => (st, Raise e).
Definition bind {A B : Type} (m : M A) (f : A -> M B) : M B :=
  fun st =>
    match m st with
    | (st', Ok a) => f a st'
    | (st', Raise e) => (st', Raise e)
    end.
Definition lift {A : Type} (r : Result A) : M A := fun st => (st, r).

(** [try: m  except Exception as e: h e] *)
Definition try_except {A : Type} (m : M A) (h : exn -> M A) : M A :=
  fun st =>
    match m st with
    | (st', Ok a) => (st', Ok a)
    | (st', Raise e) => h e st'
    end.

Declare Scope py_scope.
Delimit Scope py_scope with py.
Notation "x <- m ;; k" := (bind m (fun x => k))
  (at level 61, m at next level, right associativity) : py_scope.
Notation "m ;; k" := (bind m (fun _ => k))
  (at level 61, right associativity) : py_scope.
Open Scope py_scope.

Fixpoint mapM {A B : Type} (f : A -> M B) (l : list A) : M (list B) :=
  match l with
  | [] => ret []
  | a :: r => b <- f a ;; bs <- mapM f r ;; ret (b :: bs)
  end.

Definition LF : string := String (ascii_of_N 10) EmptyString.

(** The loop of [_persist_token_to_env]: the first line that starts with
    [prefix] is replaced and the scan stops; [None] when no line matched
    ([updated] stays false). *)
Fixpoint rewrite_line (prefix line' : string) (lines : list string)
  : option (list string) :=
  match lines with
  | [] => None
  | l :: ls =>
      if Str.startswith l prefix then Some (line' :: ls)
      else match rewrite_line prefix line' ls with
           | Some ls' => Some (l :: ls')
           | None => None
           end
  end.

(** Header names are compared without regard to ASCII case. *)
Definition lower_char (c : ascii) : ascii :=
  if Str.is_ascii_upper c then ascii_of_N (Str.code c + 32) else c.

Fixpoint lower (s : string) : string :=
  match s with
  | EmptyString => EmptyString
  | String c r => String (lower_char c) (lower r)
  end.

(** [response.headers.get_list(key)] *)
Definition get_list (key : string) (hs : list (string * string)) : list string :=
  map snd (filter (fun h => String.eqb (lower (fst h)) (lower key)) hs).

(** Sequencing of computations that only return or raise. *)
Definition rbind {A B : Type} (r : Result A) (f : A -> Result B) : Result B :=
  match r with
  | Ok a => f a
  | Raise e => Raise e
  end.

Notation "'let?' x := r 'in' k" := (rbind r (fun x => k))
  (at level 10, x name, r at level 100, k at level 200).

Fixpoint mapR {A B : Type} (f : A -> Result B) (l : list A) : Result (list B) :=
  match l with
  | [] => Ok []
  | a :: r => let? b := f a in let? bs := mapR f r in Ok (b :: bs)
  end.

(** The entries [out: o.get(key, default)] of a dict display, all read from
    the same object [o]. *)
Definition pick (o : json) (fields : list (string * string * json))
  : Result (list (string * json)) :=
  mapR (fun f => let '(out, key, default) := f in
                 let? v := Py.get o key default in Ok (out, v)) fields.

Definition opt_truthy (o : option string) : bool :=
  match o with
  | Some s => negb (String.eqb s "")
  | None => false
  end.

(** [params[k] = v] when the optional string [v] is given and not empty. *)
Definition opt_param (k : string) (v : option string) : list (string * json) :=
  match v with
  | Some s => if String.eqb s "" then [] else [(k, JStr s)]
  | None => []
  end.

Section Connector.

(** [urllib.parse.unquote] *)
Variable unquote : string -> string.

(** [load_dotenv(override=True)]: the environment it leaves, from the text
    of the [.env] file (when there is one) and the environment before. *)
Variable load_dotenv : option string -> Env -> Env.

(** The Grafana side: the outcome of a request, given the requests sent
    before it. *)
Variable net : list Request -> Request -> Outcome.

(** *** Methods of [GrafanaConnection], on the connection of a connector *)

Definition missing_token_message (c : GrafanaConnection) : string :=
  "Missing session token for connection '" ++ connection_name c ++ "'. "
  ++ "Please set environment variable: " ++ get_env_var_name c.

(** [reload_session_token] *)
Definition reload_session_token : M string :=
  fun '(k, w) =>
    let w := set_environ w (load_dotenv (env_file w) (environ w)) in
    let env_var_name := get_env_var_name (connection k) in
    match getenv (environ w) env_var_name with
    | Some tok =>
        if String.eqb tok "" then
          ((k, w), Raise (ValueError (missing_token_message (connection k))))
        else
          ((set_connection k (set_session_token (connection k) (Some tok)), w),
           Ok tok)
    | None =>
        ((k, w), Raise (ValueError (missing_token_message (connection k))))
    end.

(** [_persist_token_to_env] *)
Definition _persist_token_to_env (new_token : string) : M unit :=
  fun '(k, w) =>
    let env_var_name := get_env_var_name (connection k) in
    match env_file w with
    | None => ((k, w), Ok tt)
    | Some content =>
        let lines := Str.splitlines content in
        match rewrite_line (env_var_name ++ "=")
                           (env_var_name ++ "=" ++ new_token) lines with
        | Some lines' =>
            ((k, set_env_file w (Some (Str.join LF lines' ++ LF))), Ok tt)
        | None => ((k, w), Ok tt)
        end
    end.

(** [update_session_token] *)
Definition update_session_token (new_token : string) (persist : bool) : M unit :=
  (fun '(k, w) =>
     ((set_connection k (set_session_token (connection k) (Some new_token)), w),
      Ok tt)) ;;
  if persist then _persist_token_to_env new_token else ret tt.

(** *** The request primitive and the session cookie *)

(** [self.client.cookies.set("grafana_session", token)] *)
Definition cookies_set (token : string) : M unit :=
  fun '(k, w) => ((set_client_cookie k (Some token), w), Ok tt).

(** [if new_token != self.connection.session_token:] and its body.  The
    log line is built before the update and slices the current token, which
    fails when there is none. *)
Definition rotate_if_changed (new_token : string) : M unit :=
  fun st =>
    match session_token (connection (fst st)) with
    | Some cur =>
        if negb (String.eqb new_token cur) then
          (update_session_token new_token true ;;
           cookies_set new_token) st
        else (st, Ok tt)
    | None =>
        (st, Raise (TypeError "'NoneType' object is not subscriptable"))
    end.

(** The body of [if part.startswith("grafana_session="):]. *)
Definition apply_session_part (part : string) : M unit :=
  match snd (Str.split1 "=" part) with
  | None => raise (IndexError "list index out of range")
  | Some raw => rotate_if_changed (unquote raw)
  end.

(** [for part in parts:], left at the first part that names the cookie. *)
Fixpoint scan_parts (parts : list string) : M unit :=
  match parts with
  | [] => ret tt
  | p :: ps =>
      let part := Str.strip p in
      if Str.startswith part "grafana_session=" then apply_session_part part
      else scan_parts ps
  end.

(** [for cookie_header in set_cookie_headers:] *)
Fixpoint scan_headers (hs : list string) : M unit :=
  match hs with
  | [] => ret tt
  | cookie_header :: r =>
      (if Str.contains "grafana_session=" cookie_header
       then scan_parts (Str.split ";" cookie_header)
       else ret tt) ;;
      scan_headers r
  end.

(** [_check_and_update_session_cookie] *)
Definition _check_and_update_session_cookie (response : Response) : M unit :=
  scan_headers (get_list "set-cookie" (headers response)).

(** [await self.client.get(path, params=params)] and its POST sibling: the
    request is sent with the client's cookie and recorded. *)
Definition client_send (m : Method) (path : string)
    (params : list (string * json)) (body : option json) : M Response :=
  fun '(k, w) =>
    let req := mkRequest m path params body (client_cookie k) in
    let st := (k, log_request w req) in
    match net (sent w) req with
    | TimedOut msg => (st, Raise (TimeoutException msg))
    | Failed msg => (st, Raise (LibraryError msg))
    | Responded r => (st, Ok r)
    end.

(** [response.raise_for_status()]: any status outside 200..299 raises. *)
Definition raise_for_status (r : Response) : M unit :=
  if (Z.leb 200 (status_code r) && Z.ltb (status_code r) 300)%bool then ret tt
  else raise (HTTPStatusError (status_code r) (text r) "HTTP status error").

(** The [except] clauses of [_get]. *)
Definition translate_error {A : Type} (e : exn) : M A :=
  fun '(k, w) =>
    let c := connection k in
    match e with
    | HTTPStatusError status body _ =>
        if Z.eqb status 401 then
          ((k, w), Raise (Exception ("Authentication failed for "
             ++ connection_name c ++ ". Session may have expired.")))
        else if Z.eqb status 403 then
          ((k, w), Raise (Exception ("Permission denied for "
             ++ connection_name c ++ ". User may lack read permissions.")))
        else
          ((k, w), Raise (Exception ("HTTP " ++ Py.str_int status ++ ": " ++ body)))
    | TimeoutException _ =>
        ((k, w), Raise (Exception ("Request timed out after "
           ++ Py.str_int (timeout c) ++ " seconds")))
    | _ => ((k, w), Raise (Exception ("Request failed: " ++ exn_str e)))
    end.

(** [_get] *)
Definition _get (endpoint : string) (params : list (string * json)) : M json :=
  session_token <- reload_session_token ;;
  cookies_set session_token ;;
  try_except
    (response <- client_send GET ("/api" ++ endpoint) params None ;;
     raise_for_status response ;;
     _check_and_update_session_cookie response ;;
     lift (parsed response))
    translate_error.

(** [m], with its outcome as a value: the [try] of a [try]/[except
    Exception] whose two continuations differ. *)
Definition attempt {A : Type} (m : M A) : M (Result A) :=
  fun st => let '(st', r) := m st in (st', Ok r).

(** *** The read operations *)

(** [get_health] *)
Definition get_health : M json :=
  health_data <- _get "/health" [] ;;
  try_except
    (settings <- _get "/frontend/settings" [] ;;
     lift (let? build_info := Py.get settings "buildInfo" (JDict []) in
           let? version := Py.get build_info "version" (JStr "unknown") in
           Py.setitem health_data "version" version))
    (fun _ => lift (Py.setitem health_data "version" (JStr "unknown"))).

Definition shape_each (fields : list (string * string * json)) (o : json)
  : Result json :=
  let? l := Py.iter o in
  let? r := mapR (fun x => let? d := pick x fields in Ok (JDict d)) l in
  Ok (JList r).

(** [search_dashboards] *)
Definition search_dashboards (query tag : option string) : M json :=
  let params := ([("type", JStr "dash-db")]
                 ++ opt_param "query" query ++ opt_param "tag" tag)%list in
  results <- _get "/search" params ;;
  lift (shape_each
    [("uid", "uid", JNull); ("title", "title", JNull); ("url", "url", JNull);
     ("type", "type", JNull); ("tags", "tags", JList []);
     ("folder_title", "folderTitle", JStr "General");
     ("folder_uid", "folderUid", JNull)] results).

(** [get_dashboard] *)
Definition get_dashboard (dashboard_uid : string) : M json :=
  result <- _get ("/dashboards/uid/" ++ dashboard_uid) [] ;;
  lift (let? dashboard := Py.get result "dashboard" (JDict []) in
        let? meta := Py.get result "meta" (JDict []) in
        let? d := pick dashboard
          [("uid", "uid", JNull); ("title", "title", JNull);
           ("description", "description", JNull); ("tags", "tags", JList []);
           ("timezone", "timezone", JNull); ("panels", "panels", JList []);
           ("templating", "templating", JDict []);
           ("annotations", "annotations", JDict []);
           ("links", "links", JList []); ("time", "time", JDict []);
           ("refresh", "refresh", JNull);
           ("schema_version", "schemaVersion", JNull);
           ("version", "version", JNull)] in
        let? m := pick meta
          [("folder_id", "folderId", JNull);
           ("folder_title", "folderTitle", JNull);
           ("folder_uid", "folderUid", JNull); ("created", "created", JNull);
           ("created_by", "createdBy", JNull); ("updated", "updated", JNull);
           ("updated_by", "updatedBy", JNull)] in
        Ok (JDict (d ++ m)%list)).

(** [list_folders] *)
Definition list_folders : M json :=
  folders <- _get "/folders" [] ;;
  lift (shape_each
    [("uid", "uid", JNull); ("title", "title", JNull); ("id", "id", JNull);
     ("url", "url", JNull); ("can_admin", "canAdmin", JBool false);
     ("can_edit", "canEdit", JBool false); ("can_save", "canSave", JBool false);
     ("created", "created", JNull); ("updated", "updated", JNull)] folders).

(** [list_datasources] *)
Definition list_datasources : M json :=
  datasources <- _get "/datasources" [] ;;
  lift (shape_each
    [("id", "id", JNull); ("uid", "uid", JNull); ("name", "name", JNull);
     ("type", "type", JNull); ("type_name", "typeName", JNull);
     ("url", "url", JStr ""); ("database", "database", JStr "");
     ("is_default", "isDefault", JBool false);
     ("read_only", "readOnly", JBool false)] datasources).

(** [get_datasource_health] *)
Definition get_datasource_health (datasource_uid : string) : M json :=
  _get ("/datasources/uid/" ++ datasource_uid ++ "/health") [].

(** [_list_legacy_alerts] *)
Definition _list_legacy_alerts : M json :=
  try_except
    (alerts <- _get "/alerts" [] ;;
     lift (shape_each
       [("id", "id", JNull); ("dashboard_id", "dashboardId", JNull);
        ("panel_id", "panelId", JNull); ("name", "name", JNull);
        ("state", "state", JNull); ("new_state_date", "newStateDate", JNull);
        ("eval_data", "evalData", JNull);
        ("dashboard_uid", "dashboardUid", JNull);
        ("dashboard_slug", "dashboardSlug", JNull);
        ("dashboard_title", "dashboardTitle", JNull);
        ("panel_title", "panelTitle", JNull)] alerts))
    (fun _ => ret (JList [])).

(** The dict built for one rule of one group of one namespace. *)
Definition format_rule (namespace : string) (group rule : json) : Result json :=
  let alert_field (key : string) : Result json :=
    let? a := Py.get rule "grafana_alert" (JDict []) in Py.get a key JNull in
  let? uid := alert_field "uid" in
  let? title := alert_field "title" in
  let? condition := alert_field "condition" in
  let? data := alert_field "data" in
  let? no_data_state := alert_field "noDataState" in
  let? exec_err_state := alert_field "execErrState" in
  let? name := Py.get group "name" JNull in
  let? interval := Py.get group "interval" JNull in
  Ok (JDict [("uid", uid); ("title", title); ("condition", condition);
             ("data", data); ("no_data_state", no_data_state);
             ("exec_err_state", exec_err_state);
             ("folder", JStr namespace); ("evaluation_group", name);
             ("evaluation_interval", interval)]).

(** [for rule in group.get("rules", []):] *)
Definition format_group (namespace : string) (group : json)
  : Result (list json) :=
  let? rules := Py.get group "rules" (JList []) in
  let? l := Py.iter rules in
  mapR (format_rule namespace group) l.

(** [for group in groups:] *)
Definition format_namespace (namespace : string) (groups : json)
  : Result (list json) :=
  let? l := Py.iter groups in
  let? r := mapR (format_group namespace) l in
  Ok (concat r).

(** The test that makes the loop [continue]:
    [folder_uid and not namespace.startswith(folder_uid)]. *)
Definition skip_namespace (folder_uid : option string) (namespace : string)
  : bool :=
  match folder_uid with
  | Some f => negb (String.eqb f "") && negb (Str.startswith namespace f)
  | None => false
  end.

(** [for namespace, groups in rules.items():] *)
Fixpoint format_rules (folder_uid : option string)
    (entries : list (string * json)) : Result (list json) :=
  match entries with
  | [] => Ok []
  | (namespace, groups) :: r =>
      if skip_namespace folder_uid namespace then format_rules folder_uid r
      else
        let? here := format_namespace namespace groups in
        let? rest := format_rules folder_uid r in
        Ok (here ++ rest)%list
  end.

Definition unified_rules_endpoint : string := "/ruler/grafana/api/v1/rules".

(** [list_alerts] *)
Definition list_alerts (folder_uid : option string) : M json :=
  outcome <- attempt (_get unified_rules_endpoint []) ;;
  match outcome with
  | Raise _ => _list_legacy_alerts
  | Ok rules =>
      lift (let? entries := Py.items rules in
            let? formatted_alerts := format_rules folder_uid entries in
            Ok (JList formatted_alerts))
  end.

(** The summary entry of one panel in [get_dashboard_info]. *)
Definition panel_minimal (panel : json) : Result json :=
  let? d := pick panel
    [("id", "id", JNull); ("title", "title", JNull); ("type", "type", JNull);
     ("gridPos", "gridPos", JNull)] in
  let? given := Py.get panel "description" JNull in
  let? description :=
    (if Py.truthy given
     then let? v := Py.get panel "description" (JStr "") in Py.slice_to 100 v
     else Ok (JStr "")) in
  Ok (JDict (d ++ [("description", description)])%list).

(** [get_dashboard_info] *)
Definition get_dashboard_info (dashboard_uid : string) : M json :=
  result <- _get ("/dashboards/uid/" ++ dashboard_uid) [] ;;
  lift (let? dashboard := Py.get result "dashboard" (JDict []) in
        let? meta := Py.get result "meta" (JDict []) in
        let? panels := Py.get dashboard "panels" (JList []) in
        let? l := Py.iter panels in
        let? panels_minimal := mapR panel_minimal l in
        let? d1 := pick dashboard
          [("uid", "uid", JNull); ("title", "title", JNull);
           ("description", "description", JNull); ("tags", "tags", JList []);
           ("timezone", "timezone", JNull); ("version", "version", JNull)] in
        let? m := pick meta
          [("folder_id", "folderId", JNull);
           ("folder_title", "folderTitle", JNull);
           ("folder_uid", "folderUid", JNull); ("created", "created", JNull);
           ("created_by", "createdBy", JNull); ("updated", "updated", JNull);
           ("updated_by", "updatedBy", JNull)] in
        let? d2 := pick dashboard
          [("time", "time", JDict []); ("refresh", "refresh", JNull);
           ("templating", "templating", JDict []);
           ("annotations", "annotations", JDict []);
           ("links", "links", JList [])] in
        Ok (JDict (d1 ++ m ++ d2 ++
              [("panels_summary",
                JDict [("total_count", JInt (Z.of_nat (length panels_minimal)));
                       ("panels", JList panels_minimal)])])%list)).

(** The scan of [get_dashboard_panel] for the panel with the given id. *)
Fixpoint find_panel (panel_id : Z) (panels : list json) : Result (option json) :=
  match panels with
  | [] => Ok None
  | panel :: r =>
      let? id := Py.get panel "id" JNull in
      if Py.eq_int id panel_id then Ok (Some panel) else find_panel panel_id r
  end.

(** [get_dashboard_panel] *)
Definition get_dashboard_panel (dashboard_uid : string) (panel_id : Z) : M json :=
  result <- _get ("/dashboards/uid/" ++ dashboard_uid) [] ;;
  lift (let? dashboard := Py.get result "dashboard" (JDict []) in
        let? panels := Py.get dashboard "panels" (JList []) in
        let? l := Py.iter panels in
        let? found := find_panel panel_id l in
        match found with
        | Some panel => Ok panel
        | None => Raise (Exception ("Panel with id " ++ Py.str_int panel_id
                    ++ " not found in dashboard " ++ dashboard_uid))
        end).

(** [get_dashboard_panels] *)
Definition get_dashboard_panels (dashboard_uid : string) : M json :=
  dashboard <- get_dashboard dashboard_uid ;;
  lift (let? panels := Py.get dashboard "panels" (JList []) in
        shape_each
          [("id", "id", JNull); ("title", "title", JNull);
           ("type", "type", JNull); ("datasource", "datasource", JNull);
           ("targets", "targets", JList []); ("grid_pos", "gridPos", JNull);
           ("description", "description", JNull)] panels).

(** [query_prometheus] *)
Definition query_prometheus (datasource_uid query : string)
    (time_from time_to step : option string) : M json :=
  let params := ([("query", JStr query)] ++ opt_param "from" time_from
                 ++ opt_param "to" time_to ++ opt_param "step" step)%list in
  let endpoint :=
    if opt_truthy step
    then "/datasources/proxy/uid/" ++ datasource_uid ++ "/api/v1/query_range"
    else "/datasources/proxy/uid/" ++ datasource_uid ++ "/api/v1/query" in
  _get endpoint params.

(** [query_loki] *)
Definition query_loki (datasource_uid query : string)
    (time_from time_to : option string) (limit : option Z) : M json :=
  let params := ([("query", JStr query);
                  ("limit", match limit with Some n => JInt n | None => JNull end)]
                 ++ opt_param "start" time_from ++ opt_param "end" time_to)%list in
  _get ("/datasources/proxy/uid/" ++ datasource_uid ++ "/loki/api/v1/query_range")
       params.

(** [get_current_org] *)
Definition get_current_org : M json := _get "/org" [].

(** [list_users] *)
Definition list_users : M json :=
  users <- _get "/org/users" [] ;;
  lift (shape_each
    [("user_id", "userId", JNull); ("email", "email", JNull);
     ("name", "name", JNull); ("login", "login", JNull);
     ("role", "role", JNull); ("last_seen_at", "lastSeenAt", JNull);
     ("last_seen_at_age", "lastSeenAtAge", JNull)] users).

(** [list_teams] *)
Definition list_teams : M json :=
  result <- _get "/teams/search" [] ;;
  lift (let? teams := Py.get result "teams" (JList []) in
        shape_each
          [("id", "id", JNull); ("uid", "uid", JNull); ("name", "name", JNull);
           ("email", "email", JNull); ("member_count", "memberCount", JInt 0)]
          teams).

(** [get_alert_rule_by_uid] *)
Definition get_alert_rule_by_uid (alert_uid : string) : M json :=
  _get ("/ruler/grafana/api/v1/rules/" ++ alert_uid) [].

(** [list_folder_dashboards] *)
Definition list_folder_dashboards (folder_uid : string) : M json :=
  results <- _get "/search"
               [("type", JStr "dash-db"); ("folderUids", JStr folder_uid)] ;;
  lift (shape_each
    [("uid", "uid", JNull); ("title", "title", JNull); ("url", "url", JNull);
     ("tags", "tags", JList [])] results).

(** [list_annotations] *)
Definition list_annotations (time_from time_to : option string)
    (dashboard_id : option Z) (tags : option (list string)) : M json :=
  let params :=
    (opt_param "from" time_from ++ opt_param "to" time_to
     ++ match dashboard_id with
        | Some n => if Z.eqb n 0 then [] else [("dashboardId", JInt n)]
        | None => []
        end
     ++ match tags with
        | Some (t :: ts) => [("tags", JList (map JStr (t :: ts)))]
        | _ => []
        end)%list in
  annotations <- _get "/annotations" params ;;
  lift (shape_each
    [("id", "id", JNull); ("dashboard_id", "dashboardId", JNull);
     ("panel_id", "panelId", JNull); ("time", "time", JNull);
     ("time_end", "timeEnd", JNull); ("text", "text", JNull);
     ("tags", "tags", JList []); ("created", "created", JNull);
     ("updated", "updated", JNull)] annotations).

(** [get_dashboard_versions] *)
Definition get_dashboard_versions (dashboard_uid : string) : M json :=
  versions <- _get ("/dashboards/uid/" ++ dashboard_uid ++ "/versions") [] ;;
  lift (shape_each
    [("id", "id", JNull); ("version", "version", JNull);
     ("created", "created", JNull); ("created_by", "createdBy", JNull);
     ("message", "message", JNull)] versions).

(** *** Explore queries *)

(** Modelled from the spec: the request primitive for a request with a JSON
    body, which [explore_query] needs and [src/grafana_connector.py] does
    not contain.  It is the pipeline of [_get] (section 4.2 of the
    specification) with a POST in place of the GET. *)
Definition _post (endpoint : string) (body : json) : M json :=
  session_token <- reload_session_token ;;
  cookies_set session_token ;;
  try_except
    (response <- client_send POST ("/api" ++ endpoint) [] (Some body) ;;
     raise_for_status response ;;
     _check_and_update_session_cookie response ;;
     lift (parsed response))
    translate_error.

Definition reserved_keys : list string :=
  ["queries"; "from"; "to"; "maxDataPoints"; "intervalMs"].

(** Modelled from the spec: [explore_query], which the tests call and
    [src/grafana_connector.py] does not contain.  The body combines the
    query list, the time bounds, [maxDataPoints], [intervalMs] and the
    caller's additional top-level options; an additional option named like
    a reserved key is refused before anything is sent.  The refusal is a
    [ValueError], as [test_explore_query_rejects_conflicting_option]
    expects. *)
Definition explore_query (queries : list json)
    (range_from range_to : option string)
    (max_data_points interval_ms : option Z)
    (additional_options : list (string * json)) : M json :=
  if existsb (fun k => dict_mem k additional_options) reserved_keys then
    raise (ValueError "additional_options must not override reserved keys")
  else
    let opt_int (k : string) (v : option Z) : list (string * json) :=
      match v with Some n => [(k, JInt n)] | None => [] end in
    let opt_str (k : string) (v : option string) : list (string * json) :=
      match v with Some s => [(k, JStr s)] | None => [] end in
    _post "/ds/query"
      (JDict ([("queries", JList queries)] ++ opt_str "from" range_from
              ++ opt_str "to" range_to
              ++ opt_int "maxDataPoints" max_data_points
              ++ opt_int "intervalMs" interval_ms
              ++ additional_options)%list).

End Connector.

(** ** [src/server.py]: the registry and the tools *)

(** [self.connectors], in insertion order.  [self.connections] holds, under
    the same names and in the same order, the very connection objects the
    connectors own, so it is read off the connectors. *)
Definition Registry : Type := list (string * GrafanaConnector).

Definition connections (reg : Registry) : list (string * GrafanaConnection) :=
  map (fun e => (fst e, connection (snd e))) reg.

(** The loop of [_load_connections] over the parsed configuration. *)
Fixpoint _load_connections (conns : list GrafanaConnection) (reg : Registry)
  : Registry :=
  match conns with
  | [] => reg
  | conn :: r =>
      _load_connections r
        (dict_set (connection_name conn) (GrafanaConnector_new conn) reg)
  end.

Definition Server : Type := (Registry * World)%type.

(** A tool invocation: the tool and its validated arguments. *)
Inductive ToolCall : Type :=
| call_list_connections
| call_get_health (connection_name : string)
| call_search_dashboards (connection_name : string) (query tag : option string)
| call_get_dashboard_info (connection_name dashboard_uid : string)
| call_get_dashboard_panel (connection_name dashboard_uid : string) (panel_id : Z)
| call_get_dashboard (connection_name dashboard_uid : string)
| call_get_dashboard_panels (connection_name dashboard_uid : string)
| call_list_folders (connection_name : string)
| call_list_datasources (connection_name : string)
| call_query_prometheus (connection_name datasource_uid query : string)
    (time_from time_to step : option string)
| call_query_loki (connection_name datasource_uid query : string)
    (time_from time_to : option string) (limit : option Z)
| call_get_current_org (connection_name : string)
| call_list_users (connection_name : string)
| call_list_teams (connection_name : string)
| call_get_alert_rule_by_uid (connection_name alert_uid : string)
| call_list_folder_dashboards (connection_name folder_uid : string)
| call_list_annotations (connection_name : string)
    (time_from time_to : option string) (dashboard_id : option Z)
    (tags : option (list string))
| call_get_dashboard_versions (connection_name dashboard_uid : string)
| call_list_alerts (connection_name : string) (folder_uid : option string).

(** The name a call is addressed to; [list_connections] takes none. *)
Definition call_connection_name (c : ToolCall) : option string :=
  match c with
  | call_list_connections => None
  | call_get_health n | call_search_dashboards n _ _
  | call_get_dashboard_info n _ | call_get_dashboard_panel n _ _
  | call_get_dashboard n _ | call_get_dashboard_panels n _
  | call_list_folders n | call_list_datasources n
  | call_query_prometheus n _ _ _ _ _ | call_query_loki n _ _ _ _ _
  | call_get_current_org n | call_list_users n | call_list_teams n
  | call_get_alert_rule_by_uid n _ | call_list_folder_dashboards n _
  | call_list_annotations n _ _ _ _ | call_get_dashboard_versions n _
  | call_list_alerts n _ => Some n
  end.

Definition not_found_message (connection_name : string) (reg : Registry)
  : string :=
  "Connection '" ++ connection_name ++ "' not found. Available connections: "
  ++ Str.join ", " (dict_keys reg).

(** The tool [list_connections]. *)
Definition list_connections (reg : Registry) : json :=
  match connections reg with
  | [] => JDict [("message", JStr "No connections configured")]
  | conns =>
      JList (map (fun e =>
                    let name := fst e in
                    let conn := snd e in
                    JDict [("name", JStr name);
                           ("url", JStr (url conn));
                           ("description", JStr (description conn));
                           ("timeout", JInt (timeout conn));
                           ("verify_ssl", JBool (verify_ssl conn))])
                 conns)
  end.

Section Tools.

Variable unquote : string -> string.
Variable load_dotenv : option string -> Env -> Env.
Variable net : list Request -> Request -> Outcome.

(** The opening of every tool that takes [connection_name]: the membership
    test and its [ValueError], then the lookup; the connector method runs on
    the connector found and leaves it changed in the registry. *)
Definition with_connector (connection_name : string) (method : M json)
  : Server -> Server * Result json :=
  fun '(reg, w) =>
    match dict_get connection_name reg with
    | None => ((reg, w), Raise (ValueError (not_found_message connection_name reg)))
    | Some connector =>
        let '((connector', w'), r) := method (connector, w) in
        ((dict_set connection_name connector' reg, w'), r)
    end.

(** The tools registered by [_setup_tools].  A tool returns the value it
    hands to [json.dumps]. *)
Definition call_tool (c : ToolCall) : Server -> Server * Result json :=
  match c with
  | call_list_connections => fun s => (s, Ok (list_connections (fst s)))
  | call_get_health n =>
      with_connector n (get_health unquote load_dotenv net)
  | call_search_dashboards n query tag =>
      with_connector n (search_dashboards unquote load_dotenv net query tag)
  | call_get_dashboard_info n uid =>
      with_connector n (get_dashboard_info unquote load_dotenv net uid)
  | call_get_dashboard_panel n uid panel_id =>
      with_connector n (get_dashboard_panel unquote load_dotenv net uid panel_id)
  | call_get_dashboard n uid =>
      with_connector n (get_dashboard unquote load_dotenv net uid)
  | call_get_dashboard_panels n uid =>
      with_connector n (get_dashboard_panels unquote load_dotenv net uid)
  | call_list_folders n =>
      with_connector n (list_folders unquote load_dotenv net)
  | call_list_datasources n =>
      with_connector n (list_datasources unquote load_dotenv net)
  | call_query_prometheus n ds query time_from time_to step =>
      with_connector n
        (query_prometheus unquote load_dotenv net ds query time_from time_to step)
  | call_query_loki n ds query time_from time_to limit =>
      with_connector n
        (query_loki unquote load_dotenv net ds query time_from time_to limit)
  | call_get_current_org n =>
      with_connector n (get_current_org unquote load_dotenv net)
  | call_list_users n =>
      with_connector n (list_users unquote load_dotenv net)
  | call_list_teams n =>
      with_connector n (list_teams unquote load_dotenv net)
  | call_get_alert_rule_by_uid n uid =>
      with_connector n (get_alert_rule_by_uid unquote load_dotenv net uid)
  | call_list_folder_dashboards n uid =>
      with_connector n (list_folder_dashboards unquote load_dotenv net uid)
  | call_list_annotations n time_from time_to dashboard_id tags =>
      with_connector n
        (list_annotations unquote load_dotenv net time_from time_to dashboard_id tags)
  | call_get_dashboard_versions n uid =>
      with_connector n (get_dashboard_versions unquote load_dotenv net uid)
  | call_list_alerts n folder_uid =>
      with_connector n (list_alerts unquote load_dotenv net folder_uid)
  end.

End Tools.

(** A [load_dotenv] for examples: every line [KEY=VALUE] of the file sets
    [KEY], later lines and the file winning over what was there. *)
Definition load_dotenv_plain (file : option string) (e : Env) : Env :=
  match file with
  | None => e
  | Some content =>
      fold_left (fun acc line =>
                   match Str.split1 "=" line with
                   | (k, Some v) => dict_set k v acc
                   | (_, None) => acc
                   end)
                (Str.splitlines content) e
  end.

(** ** Vocabulary of the properties *)

(** The character set [A-Za-z0-9_-] of connection names. *)
Definition name_char (c : ascii) : bool :=
  Str.is_ascii_alnum c || Ascii.eqb c "_" || Ascii.eqb c "-".

Fixpoint any_char (p : ascii -> bool) (s : string) : bool :=
  match s with
  | EmptyString => false
  | String c r => p c || any_char p r
  end.

Definition is_ascii (c : ascii) : bool := N.ltb (Str.code c) 128.

(** The line does not start with the prefix. *)
Definition no_match (prefix : string) (l : string) : Prop :=
  Str.startswith l prefix = false.

(** A line as [splitlines] yields them: free of line boundaries. *)
Definition one_line (s : string) : bool :=
  Str.all_chars (fun c => negb (Str.is_linebreak c)) s.

(** The part of a [Set-Cookie] header that the scan of
    [_check_and_update_session_cookie] stops at, if any. *)
Definition session_part (cookie_header : string) : option string :=
  if Str.contains "grafana_session=" cookie_header
  then find (fun p => Str.startswith p "grafana_session=")
            (map Str.strip (Str.split ";" cookie_header))
  else None.

(** The text after the first [=] of a part. *)
Definition part_value (part : string) : string :=
  match snd (Str.split1 "=" part) with
  | Some raw => raw
  | None => EmptyString
  end.

(** The session token a header carries, if it carries one. *)
Definition header_token (unquote : string -> string) (cookie_header : string)
  : option string :=
  match session_part cookie_header with
  | Some part => Some (unquote (part_value part))
  | None => None
  end.

Definition carries_token (cookie_header : string) : bool :=
  match session_part cookie_header with Some _ => true | None => false end.

(** The tokens carried by a list of headers, in order. *)
Definition header_tokens (unquote : string -> string) (hs : list string)
  : list string :=
  flat_map (fun h => match header_token unquote h with
                     | Some t => [t]
                     | None => []
                     end) hs.

Definition token_of (st : St) : option string :=
  session_token (connection (fst st)).

(** The error of the name validator. *)
Definition name_error : exn :=
  ValueError
    "Connection name must contain only letters, numbers, underscores, and hyphens".

(** The status codes [raise_for_status] lets through. *)
Definition is_success (r : Response) : bool :=
  (Z.leb 200 (status_code r) && Z.ltb (status_code r) 300)%bool.

(** The opening of [_get], up to and including the exchange with Grafana:
    the token is reloaded, the cookie set and the request sent. *)
Definition send_get (load_dotenv : option string -> Env -> Env)
    (net : list Request -> Request -> Outcome)
    (endpoint : string) (params : list (string * json)) : M Response :=
  session_token <- reload_session_token load_dotenv ;;
  cookies_set session_token ;;
  client_send net GET ("/api" ++ endpoint) params None.

(** The registry with the session token of every connection replaced. *)
Definition retoken (f : string -> option string) (reg : Registry) : Registry :=
  map (fun e => (fst e,
                 set_connection (snd e)
                   (set_session_token (connection (snd e)) (f (fst e)))))
      reg.

(** The entry of [list_connections] for one connection. *)
Definition connection_info (name : string) (conn : GrafanaConnection) : json :=
  JDict [("name", JStr name); ("url", JStr (url conn));
         ("description", JStr (description conn));
         ("timeout", JInt (timeout conn));
         ("verify_ssl", JBool (verify_ssl conn))].

(** The requests sent so far. *)
Definition sent_of (st : St) : list Request := sent (snd st).

(** The value the credential file holds for a connection: the text after
    [KEY=] on the first line that starts with it. *)
Definition persisted_token (c : GrafanaConnection) (w : World) : option string :=
  match env_file w with
  | None => None
  | Some content =>
      match find (fun l => Str.startswith l (get_env_var_name c ++ "="))
                 (Str.splitlines content) with
      | Some l => Some (part_value l)
      | None => None
      end
  end.

(** ** Concrete connections, files and answers for the examples *)

Module Sample.

(** The connection of [tests/test_cookie_refresh.py]. *)
Definition conn : GrafanaConnection :=
  mkConnection "test" "https://grafana.example.com" "" 30 true
               (Some "old_token_123").

Definition connector : GrafanaConnector := GrafanaConnector_new conn.

Definition env_text : string :=
  "OTHER=1" ++ LF ++ "GRAFANA_SESSION_TEST=old_token_123" ++ LF
  ++ "LAST=x" ++ LF.

(** A working directory with a [.env] file that holds the token. *)
Definition world_with_file : World := mkWorld (Some env_text) [] [].

(** A working directory without [.env]; the token is in the environment. *)
Definition world_without_file : World :=
  mkWorld None [("GRAFANA_SESSION_TEST", "old_token_123")] [].

(** A response with the given status and [Set-Cookie] headers. *)
Definition answer (status : Z) (cookies : list string) (body : json) : Response :=
  mkResponse status (map (fun c => ("set-cookie", c)) cookies) "" (Ok body).

(** Grafana giving the same outcome to every request. *)
Definition always (o : Outcome) : list Request -> Request -> Outcome :=
  fun _ _ => o.

Definition rotated : string := "grafana_session=new_token_456; Path=/".

(** Unified alerting rules in three namespaces, one rule each. *)
Definition rules : json :=
  let group (title : string) : json :=
    JList [JDict [("name", JStr "g"); ("interval", JStr "1m");
                  ("rules", JList [JDict [("grafana_alert",
                                           JDict [("title", JStr title)])]])]] in
  JDict [("prod", group "a"); ("dev", group "b"); ("prod-eu", group "c")].

Definition registry : Registry := [("test", connector)].

End Sample.

(** ** [src/config.py]: the configuration loader *)

(** The keyword arguments of one entry of [connections.yaml], as they
    reach the model class: an entry that has the two required fields, with
    values of the declared types. *)
Record ConnData : Type := mkConnData {
  cd_connection_name : string;
  cd_url : string;
  cd_description : option string;
  cd_timeout : option Z;
  cd_verify_ssl : option bool;
  cd_session_token : option string
}.

Definition set_timeout (c : GrafanaConnection) (t : Z) : GrafanaConnection :=
  mkConnection (connection_name c) (url c) (description c) t
               (verify_ssl c) (session_token c).

(** The name of the variable that overrides the timeout of a connection. *)
Definition timeout_env_var (c : GrafanaConnection) : string :=
  "GRAFANA_TIMEOUT_" ++ Str.replace_char "-" "_" (Str.upper (connection_name c)).

(** What [load_config] ends with. *)
Inductive ConfigOutcome : Type :=
| ConfigLoaded (connections : list GrafanaConnection)
| ConfigFileNotFound (msg : string)
| ConfigError (e : exn).

Section ConfigParser.

(** [load_dotenv()], which keeps the variables already set: the
    environment it leaves, from the text of the [.env] file and the
    environment before. *)
Variable load_dotenv_keep : option string -> Env -> Env.

(** [int(s)]; [None] when it raises [ValueError]. *)
Variable parse_int : string -> option Z.

(** [_process_connection] *)
Definition _process_connection (conn_data : ConnData)
  : World -> World * Result GrafanaConnection :=
  fun w =>
    let w := set_environ w (load_dotenv_keep (env_file w) (environ w)) in
    match GrafanaConnection_new (cd_connection_name conn_data)
            (cd_url conn_data) (cd_description conn_data)
            (cd_timeout conn_data) (cd_verify_ssl conn_data)
            (cd_session_token conn_data) with
    | Raise e => (w, Raise e)
    | Ok connection =>
        match getenv (environ w) (get_env_var_name connection) with
        | Some tok =>
            if String.eqb tok "" then
              (w, Raise (ValueError (missing_token_message connection)))
            else
              let connection := set_session_token connection (Some tok) in
              match getenv (environ w) (timeout_env_var connection) with
              | Some timeout_override =>
                  if String.eqb timeout_override "" then (w, Ok connection)
                  else match parse_int timeout_override with
                       | Some n => (w, Ok (set_timeout connection n))
                       | None => (w, Ok connection)
                       end
              | None => (w, Ok connection)
              end
        | None => (w, Raise (ValueError (missing_token_message connection)))
        end
    end.

(** The loop of [load_config] over the entries of the file. *)
Fixpoint process_connections (raw_config : list ConnData)
  : World -> World * Result (list GrafanaConnection) :=
  fun w =>
    match raw_config with
    | [] => (w, Ok [])
    | conn_data :: r =>
        match _process_connection conn_data w with
        | (w1, Raise e) => (w1, Raise e)
        | (w1, Ok connection) =>
            match process_connections r w1 with
            | (w2, Raise e) => (w2, Raise e)
            | (w2, Ok connections) => (w2, Ok (connection :: connections))
            end
        end
    end.

(** [load_config], from the parsed content of the configuration file
    ([None] when the file does not exist; an empty file parses to no
    entries). *)
Definition load_config (config_path : string)
    (file : option (list ConnData)) : World -> World * ConfigOutcome :=
  fun w =>
    match file with
    | None =>
        (w, ConfigFileNotFound ("Configuration file not found: " ++ config_path))
    | Some raw_config =>
        match process_connections raw_config w with
        | (w', Ok connections) => (w', ConfigLoaded connections)
        | (w', Raise e) => (w', ConfigError e)
        end
    end.

(** [ReadOnlyGrafanaServer.__init__]: the registry the server starts with.
    A missing configuration file is logged and leaves the registry empty;
    any other failure of the loader is raised again. *)
Definition ReadOnlyGrafanaServer_new (config_path : string)
    (file : option (list ConnData)) : World -> World * Result Registry :=
  fun w =>
    match load_config config_path file w with
    | (w', ConfigFileNotFound _) => (w', Ok [])
    | (w', ConfigError e) => (w', Raise e)
    | (w', ConfigLoaded connections) =>
        (w', Ok (_load_connections connections []))
    end.

End ConfigParser.

(** ** Vocabulary of the further properties *)

(** A run of [n] slashes. *)
Fixpoint slashes (n : nat) : string :=
  match n with
  | O => EmptyString
  | S m => String "/" (slashes m)
  end.

(** [s.endswith(c)] for one character. *)
Fixpoint ends_with_char (c : ascii) (s : string) : bool :=
  match s with
  | EmptyString => false
  | String d EmptyString => Ascii.eqb d c
  | String _ r => ends_with_char c r
  end.

(** The characters of the names of environment variables: capital
    letters, digits and the underscore. *)
Definition env_name_char (c : ascii) : bool :=
  Str.is_ascii_upper c || Str.is_ascii_digit c || Ascii.eqb c "_".

(** What a connection is configured with, the session token apart. *)
Definition public_fields (c : GrafanaConnection)
  : string * string * string * Z * bool :=
  (connection_name c, url c, description c, timeout c, verify_ssl c).

(** The configuration of a connector: that of its connection and the
    settings of its client. *)
Definition config_of (k : GrafanaConnector)
  : (string * string * string * Z * bool) * (string * Z * bool) :=
  (public_fields (connection k),
   (client_base_url k, client_timeout k, client_verify k)).

(** A request that only reads: a GET without body below [/api/]. *)
Definition read_request (r : Request) : bool :=
  match req_method r with GET => true | POST => false end
  && Str.startswith (req_path r) "/api/"
  && match req_body r with None => true | Some _ => false end.

Definition is_dict (o : json) : bool :=
  match o with JDict _ => true | _ => false end.

(** The cookie of the client is the token of the connection. *)
Definition cookie_in_step (st : St) : Prop :=
  client_cookie (fst st) = session_token (connection (fst st)).

(** From one state to a later one: the configuration of the connector is
    the same, the cookie is still the token if it was, and at most [n]
    requests were sent in between, all of them reads. *)
Definition read_step (n : nat) (st st' : St) : Prop :=
  config_of (fst st') = config_of (fst st)
  /\ (cookie_in_step st -> cookie_in_step st')
  /\ exists more,
       sent_of st' = (sent_of st ++ more)%list
       /\ (length more <= n)%nat
       /\ forallb read_request more = true.

(** A connector method that only makes such steps. *)
Definition reads_only {A : Type} (n : nat) (m : M A) : Prop :=
  forall st, read_step n st (fst (m st)).

(** The state in which the answer to a request is handled: the token is
    the one found in the environment, the cookie is that token and the
    request is on record. *)
Definition answered_state (load_dotenv : option string -> Env -> Env)
    (k : GrafanaConnector) (w : World) (tok : string) (req : Request) : St :=
  (set_client_cookie
     (set_connection k (set_session_token (connection k) (Some tok)))
     (Some tok),
   log_request (set_environ w (load_dotenv (env_file w) (environ w))) req).


(** [panel.get("id") == panel_id], false for what is not a dict. *)
Definition panel_has_id (panel_id : Z) (panel : json) : bool :=
  match Py.get panel "id" JNull with
  | Ok id => Py.eq_int id panel_id
  | Raise _ => false
  end.

(** A panel whose description is absent, null or a string. *)
Definition plain_description (panel : list (string * json)) : bool :=
  match dict_get "description" panel with
  | None | Some JNull | Some (JStr _) => true
  | Some _ => false
  end.

(** [d.get(key, default)] on the entries of a dict. *)
Definition field (d : list (string * json)) (key : string) (default : json)
  : json :=
  match dict_get key d with Some v => v | None => default end.

(** A connector as [_load_connections] registers it: under the name of its
    connection, with a session token that is not empty, that token as
    cookie and the settings of the connection for its client. *)
Definition registered (e : string * GrafanaConnector) : Prop :=
  let k := snd e in
  fst e = connection_name (connection k)
  /\ (exists tok, session_token (connection k) = Some tok /\ tok <> ""
                  /\ client_cookie k = Some tok)
  /\ client_base_url k = url (connection k)
  /\ client_timeout k = timeout (connection k)
  /\ client_verify k = verify_ssl (connection k).

(** A connection as [load_config] returns it. *)
Definition loaded (c : GrafanaConnection) : Prop :=
  (exists tok, session_token c = Some tok /\ tok <> "")
  /\ validate_connection_name (connection_name c) = Ok (connection_name c)
  /\ ends_with_char "/" (url c) = false.

(** ** More concrete inputs for the examples *)

Module Scenario.

(** Grafana answering by the path of the request. *)
Definition by_path (routes : list (string * Outcome)) (otherwise : Outcome)
  : list Request -> Request -> Outcome :=
  fun _ req =>
    match dict_get (req_path req) routes with
    | Some o => o
    | None => otherwise
    end.

Definition ok (body : json) : Outcome := Responded (Sample.answer 200 [] body).

(** A dashboard with two panels. *)
Definition dashboard : json :=
  JDict [("dashboard",
          JDict [("uid", JStr "abc"); ("title", JStr "Service");
                 ("panels",
                  JList [JDict [("id", JInt 1); ("title", JStr "CPU");
                                ("description", JStr "load of the hosts")];
                         JDict [("id", JInt 2); ("title", JStr "Memory")]])]);
         ("meta", JDict [("folderTitle", JStr "Ops")])].

Definition grafana : list Request -> Request -> Outcome :=
  by_path
    [("/api/health", ok (JDict [("database", JStr "ok")]));
     ("/api/dashboards/uid/abc", ok dashboard);
     ("/api/search", ok (JList [JDict [("uid", JStr "abc");
                                       ("title", JStr "Service")]]));
     ("/api/ruler/grafana/api/v1/rules", ok (JList []));
     ("/api/org", Responded (Sample.answer 403 [] JNull))]
    (Failed "connection refused").

Definition start : St := (Sample.connector, Sample.world_with_file).

(** A [load_dotenv()] for examples: every line [KEY=VALUE] of the file
    sets [KEY] unless the environment has it already. *)
Definition load_dotenv_keep_plain (file : option string) (e : Env) : Env :=
  match file with
  | None => e
  | Some content =>
      fold_left (fun acc line =>
                   match Str.split1 "=" line with
                   | (k, Some v) =>
                       if dict_mem k acc then acc else dict_set k v acc
                   | (_, None) => acc
                   end)
                (Str.splitlines content) e
  end.

(** An [int] for examples: plain decimal digits. *)
Fixpoint digits (acc : Z) (s : string) : option Z :=
  match s with
  | EmptyString => Some acc
  | String c r =>
      if Str.is_ascii_digit c
      then digits (10 * acc + Z.of_N (Str.code c - 48)) r
      else None
  end.

Definition parse_digits (s : string) : option Z :=
  match s with
  | EmptyString => None
  | _ => digits 0 s
  end.

Definition entry (name u : string) : ConnData :=
  mkConnData name u None None None None.

Definition environment : Env :=
  [("GRAFANA_SESSION_PROD", "tok_prod"); ("GRAFANA_SESSION_DEV", "tok_dev");
   ("GRAFANA_TIMEOUT_DEV", "60")].

Definition bare_world : World := mkWorld None environment [].

Definition named (name token : string) : GrafanaConnection :=
  mkConnection name "https://grafana.example.com" "" 30 true (Some token).

End Scenario.

(** The text of a file made of the given lines, each closed by a line
    feed. *)
Fixpoint lines_text (ls : list string) : string :=
  match ls with
  | [] => EmptyString
  | l :: r => l ++ LF ++ lines_text r
  end.

(** * Properties *)

(** ** Strings *)

Lemma append_assoc (a b c : string) : (a ++ b) ++ c = a ++ b ++ c.
Proof. induction a as [|x a IH]; simpl; [reflexivity|now rewrite IH]. Qed.

Lemma append_nil_r (a : string) : a ++ "" = a.
Proof. induction a as [|x a IH]; simpl; [reflexivity|now rewrite IH]. Qed.

Lemma all_chars_remove (p : ascii -> bool) (c : ascii) (s : string) :
  Str.all_chars p s = true -> Str.all_chars p (Str.remove_char c s) = true.
Proof.
  induction s as [|d r IH]; simpl; [easy|].
  intros H. apply andb_true_iff in H as [Hd Hr].
  destruct (Ascii.eqb d c); simpl; [auto|].
  now rewrite Hd, IH.
Qed.

Lemma any_char_remove (p : ascii -> bool) (c : ascii) (s : string) :
  p c = false ->
  any_char p (Str.remove_char c s) = any_char p s.
Proof.
  intros Hc. induction s as [|d r IH]; simpl; [easy|].
  destruct (Ascii.eqb_spec d c) as [->|_]; simpl; rewrite IH; [|easy].
  now rewrite Hc.
Qed.

(** A string with a character that is not alphanumeric is not [isalnum]. *)
Lemma isalnum_any_false (s : string) :
  any_char (fun c => negb (Str.isalnum_char c)) s = true ->
  Str.isalnum s = false.
Proof.
  assert (H : any_char (fun c => negb (Str.isalnum_char c)) s = true ->
              Str.all_chars Str.isalnum_char s = false).
  { induction s as [|c r IH]; simpl; [discriminate|].
    destruct (Str.isalnum_char c); simpl; auto. }
  intros Hs. destruct s; [reflexivity|]. now apply H.
Qed.

Lemma ascii_alnum_char (c : ascii) :
  is_ascii c = true -> Str.isalnum_char c = Str.is_ascii_alnum c.
Proof.
  destruct c as [[] [] [] [] [] [] [] []]; vm_compute; congruence.
Qed.

Lemma any_char_weaken (p q : ascii -> bool) (s : string) :
  (forall c, p c = true -> q c = true) ->
  any_char p s = true -> any_char q s = true.
Proof.
  intros Hpq. induction s as [|c r IH]; simpl; [easy|].
  intros H. apply orb_true_iff in H as [H|H].
  - now rewrite (Hpq _ H).
  - rewrite (IH H). apply orb_true_r.
Qed.

Lemma all_chars_weaken (p q : ascii -> bool) (s : string) :
  (forall c, p c = true -> q c = true) ->
  Str.all_chars p s = true -> Str.all_chars q s = true.
Proof.
  intros Hpq. induction s as [|c r IH]; simpl; [easy|].
  intros H. apply andb_true_iff in H as [Hc Hr].
  now rewrite (Hpq _ Hc), IH.
Qed.

(** Removing the underscores and hyphens of a name over [A-Za-z0-9_-]
    leaves letters and digits only. *)
Lemma stripped_name_alnum (v : string) :
  Str.all_chars name_char v = true ->
  Str.all_chars Str.is_ascii_alnum
    (Str.remove_char "-" (Str.remove_char "_" v)) = true.
Proof.
  induction v as [|c r IH]; simpl; [easy|].
  intros H. apply andb_true_iff in H as [Hc Hr].
  destruct (Ascii.eqb_spec c "_") as [->|Hu]; [now apply IH|].
  simpl. destruct (Ascii.eqb_spec c "-") as [->|Hh]; [now apply IH|].
  simpl. rewrite (IH Hr), andb_true_r.
  unfold name_char in Hc.
  apply Ascii.eqb_neq in Hu, Hh. now rewrite Hu, Hh, !orb_false_r in Hc.
Qed.

Lemma stripped_name_nonempty (v : string) :
  any_char Str.is_ascii_alnum v = true ->
  Str.remove_char "-" (Str.remove_char "_" v) <> EmptyString.
Proof.
  intros H.
  assert (K : any_char Str.is_ascii_alnum
                (Str.remove_char "-" (Str.remove_char "_" v)) = true).
  { now rewrite !any_char_remove. }
  intros E. rewrite E in K. discriminate.
Qed.

(** ** Connection names *)

(** C7 (amended): a name that contains an ASCII character outside
    [A-Za-z0-9_-] is refused by the validator, so the connection record is
    not built; a name made of characters of that set only, with at least one
    letter or digit among them, is accepted and kept as it is. *)
Theorem connection_name_validation (v : string) :
  (any_char (fun c => is_ascii c && negb (name_char c)) v = true ->
   validate_connection_name v = Raise name_error
   /\ forall u d t s tok, GrafanaConnection_new v u d t s tok = Raise name_error)
  /\ (Str.all_chars name_char v = true ->
      any_char Str.is_ascii_alnum v = true ->
      validate_connection_name v = Ok v).
Proof.
  split.
  - intros H.
    assert (E : validate_connection_name v = Raise name_error).
    { unfold validate_connection_name.
      rewrite isalnum_any_false; [reflexivity|].
      rewrite <- (any_char_remove _ "_" v), <- (any_char_remove _ "-") in H
        by reflexivity.
      revert H. apply any_char_weaken. intros c Hc.
      apply andb_true_iff in Hc as [Ha Hn].
      rewrite (ascii_alnum_char c Ha).
      unfold name_char in Hn.
      destruct (Str.is_ascii_alnum c); [discriminate|reflexivity]. }
    split; [exact E|].
    intros. unfold GrafanaConnection_new. now rewrite E.
  - intros Hall Hany. unfold validate_connection_name.
    pose proof (stripped_name_alnum v Hall) as Ha.
    pose proof (stripped_name_nonempty v Hany) as Hn.
    assert (E : Str.isalnum (Str.remove_char "-" (Str.remove_char "_" v)) = true).
    { unfold Str.isalnum.
      destruct (Str.remove_char "-" (Str.remove_char "_" v)) eqn:Es; [easy|].
      revert Ha. apply all_chars_weaken. intros c Hc.
      unfold Str.isalnum_char. now rewrite Hc. }
    now rewrite E.
Qed.

Lemma connection_name_validation_witness :
  validate_connection_name "test grafana" = Raise name_error
  /\ validate_connection_name "grafana-ha" = Ok "grafana-ha".
Proof.
  split.
  - apply (proj1 (connection_name_validation "test grafana")). reflexivity.
  - apply (proj2 (connection_name_validation "grafana-ha")); reflexivity.
Defined.

(** C7, as stated, fails: the name ["_"] consists of characters of the set
    only and is refused. *)
Lemma connection_name_underscore_refused :
  Str.all_chars name_char "_" = true
  /\ validate_connection_name "_" = Raise name_error.
Proof. split; reflexivity. Qed.

(** A letter beyond ASCII is outside [A-Za-z0-9_-] and is accepted. *)
Example connection_name_accented_accepted :
  let v := "caf" ++ String (ascii_of_N 233) EmptyString in
  any_char (fun c => negb (name_char c)) v = true
  /\ validate_connection_name v = Ok v.
Proof. split; reflexivity. Qed.

(** ** The credential file *)

Lemma rewrite_line_none (prefix line' : string) (lines : list string) :
  Forall (no_match prefix) lines ->
  rewrite_line prefix line' lines = None.
Proof.
  induction 1 as [|l ls Hl _ IH]; simpl; [reflexivity|].
  now rewrite Hl, IH.
Qed.

Lemma rewrite_line_first (prefix line' l : string) (pre post : list string) :
  Forall (no_match prefix) pre ->
  Str.startswith l prefix = true ->
  rewrite_line prefix line' (pre ++ l :: post)%list
  = Some (pre ++ line' :: post)%list.
Proof.
  intros Hpre Hl. induction Hpre as [|p ps Hp _ IH]; simpl.
  - now rewrite Hl.
  - now rewrite Hp, IH.
Qed.

(** Either no line starts with the prefix, or the lines split around the
    first one that does. *)
Lemma first_match_split (prefix : string) (lines : list string) :
  Forall (no_match prefix) lines
  \/ exists pre l post,
       lines = (pre ++ l :: post)%list
       /\ Forall (no_match prefix) pre
       /\ Str.startswith l prefix = true.
Proof.
  induction lines as [|l ls IH]; [left; constructor|].
  destruct (Str.startswith l prefix) eqn:Hl.
  - right. exists [], l, ls. repeat split; [constructor|exact Hl].
  - destruct IH as [IH|(pre & m & post & -> & Hpre & Hm)].
    + left. now constructor.
    + right. exists (l :: pre), m, post. repeat split; [|exact Hm].
      now constructor.
Qed.

Lemma splitlines_line_lf (l rest : string) :
  one_line l = true ->
  Str.splitlines (l ++ LF ++ rest) = l :: Str.splitlines rest.
Proof.
  induction l as [|c r IH]; simpl.
  - intros _. now destruct rest.
  - intros H. apply andb_true_iff in H as [Hc Hr].
    apply negb_true_iff in Hc. rewrite Hc.
    simpl in IH. now rewrite (IH Hr).
Qed.

(** Lines joined by line feeds and closed by one are read back as they
    were. *)
Lemma splitlines_join (l : string) (ls : list string) :
  Forall (fun l => one_line l = true) (l :: ls) ->
  Str.splitlines (Str.join LF (l :: ls) ++ LF) = l :: ls.
Proof.
  revert l. induction ls as [|m ms IH]; intros l H.
  - inversion H as [|? ? Hl _]; subst. simpl.
    replace (l ++ LF) with (l ++ LF ++ "") by reflexivity.
    now rewrite splitlines_line_lf.
  - inversion H as [|? ? Hl Hms]; subst.
    change (Str.join LF (l :: m :: ms)) with (l ++ LF ++ Str.join LF (m :: ms)).
    rewrite !append_assoc.
    rewrite splitlines_line_lf by exact Hl.
    now rewrite IH.
Qed.

Lemma splitlines_one_line_aux (s : string) :
  Forall (fun l => one_line l = true) (Str.splitlines s)
  /\ forall c, Forall (fun l => one_line l = true) (Str.splitlines (String c s)).
Proof.
  induction s as [|d r [IH1 IH2]].
  - split; [constructor|]. intros c. simpl.
    destruct (Str.is_linebreak c) eqn:Hc; repeat constructor.
    unfold one_line. simpl. now rewrite Hc.
  - split; [apply IH2|]. intros c.
    change (Str.splitlines (String c (String d r))) with
      (if Str.is_linebreak c then
         if (N.eqb (Str.code c) 13 && N.eqb (Str.code d) 10)%bool
         then EmptyString :: Str.splitlines r
         else EmptyString :: Str.splitlines (String d r)
       else match Str.splitlines (String d r) with
            | [] => [String c EmptyString]
            | l :: ls => String c l :: ls
            end).
    destruct (Str.is_linebreak c) eqn:Hc.
    + destruct (N.eqb (Str.code c) 13 && N.eqb (Str.code d) 10)%bool;
        constructor; auto.
    + specialize (IH2 d). destruct (Str.splitlines (String d r)) as [|l ls].
      * repeat constructor. unfold one_line. simpl. now rewrite Hc.
      * inversion IH2 as [|? ? Hl Hls]; subst. constructor; [|exact Hls].
        unfold one_line in *. simpl. now rewrite Hc.
Qed.

Lemma splitlines_one_line (s : string) :
  Forall (fun l => one_line l = true) (Str.splitlines s).
Proof. apply splitlines_one_line_aux. Qed.

Lemma persist_no_file (k : GrafanaConnector) (w : World) (t : string) :
  env_file w = None ->
  _persist_token_to_env t (k, w) = ((k, w), Ok tt).
Proof. intros Hf. unfold _persist_token_to_env. now rewrite Hf. Qed.

Lemma persist_no_line (k : GrafanaConnector) (w : World) (t content : string) :
  env_file w = Some content ->
  Forall (no_match (get_env_var_name (connection k) ++ "="))
         (Str.splitlines content) ->
  _persist_token_to_env t (k, w) = ((k, w), Ok tt).
Proof.
  intros Hf Hnone. unfold _persist_token_to_env.
  rewrite Hf. now rewrite rewrite_line_none.
Qed.

Lemma persist_line (k : GrafanaConnector) (w : World) (t content l : string)
    (pre post : list string) :
  let key := get_env_var_name (connection k) in
  env_file w = Some content ->
  Str.splitlines content = (pre ++ l :: post)%list ->
  Forall (no_match (key ++ "=")) pre ->
  Str.startswith l (key ++ "=") = true ->
  _persist_token_to_env t (k, w)
  = ((k, set_env_file w
           (Some (Str.join LF (pre ++ (key ++ "=" ++ t)%string :: post)%list
                  ++ LF))), Ok tt).
Proof.
  intros key Hf Hsplit Hpre Hl. unfold _persist_token_to_env.
  rewrite Hf. fold key. rewrite Hsplit. now rewrite rewrite_line_first.
Qed.

(** The content written by [_persist_token_to_env] has the lines it was
    built from. *)
Lemma written_lines (content l line' : string) (pre post : list string) :
  Str.splitlines content = (pre ++ l :: post)%list ->
  one_line line' = true ->
  Str.splitlines (Str.join LF (pre ++ line' :: post)%list ++ LF)
  = (pre ++ line' :: post)%list.
Proof.
  intros Hsplit Hnew.
  pose proof (splitlines_one_line content) as Hall.
  rewrite Hsplit in Hall.
  apply Forall_app in Hall as [Hp Hrest].
  inversion Hrest as [|? ? _ Hpost]; subst.
  assert (Hall' : Forall (fun l => one_line l = true)
                    (pre ++ line' :: post)%list).
  { apply Forall_app. split; [exact Hp|]. now constructor. }
  destruct (pre ++ line' :: post)%list as [|x xs] eqn:E.
  - now destruct pre.
  - now apply splitlines_join.
Qed.

Lemma join_lines_text (l : string) (ls : list string) :
  Str.join LF (l :: ls) ++ LF = lines_text (l :: ls).
Proof.
  revert l. induction ls as [|m ms IH]; intros l; [reflexivity|].
  change (Str.join LF (l :: m :: ms)) with (l ++ LF ++ Str.join LF (m :: ms)).
  rewrite !append_assoc, IH. reflexivity.
Qed.

Lemma lines_text_app (a b : list string) :
  lines_text (a ++ b) = lines_text a ++ lines_text b.
Proof.
  induction a as [|x a IH]; [reflexivity|].
  cbn [app lines_text]. now rewrite IH, !append_assoc.
Qed.

(** The text written around the line that is replaced. *)
Lemma written_around (pre post : list string) (x : string) :
  Str.join LF (pre ++ x :: post)%list ++ LF
  = lines_text pre ++ x ++ LF ++ lines_text post.
Proof.
  destruct (pre ++ x :: post)%list as [|z zs] eqn:E; [now destruct pre|].
  rewrite join_lines_text, <- E, lines_text_app. reflexivity.
Qed.

Section ConnectorProperties.

Variable unquote : string -> string.
Variable load_dotenv : option string -> Env -> Env.
Variable net : list Request -> Request -> Outcome.

(** C8 (amended): [_persist_token_to_env] works on the lines that
    [splitlines] yields.  Without a file nothing happens, and
    [update_session_token] still leaves the new token in memory.  With a
    file, the first line that starts with the connection's [KEY=] becomes
    [KEY=new_token] and every line before and after it keeps its content
    and its place; the lines are written back joined by line feeds, with a
    line feed at the end, so any other line boundary of the file becomes a
    line feed.  In a file whose lines all end with one line feed every
    character outside the replaced line is preserved.  Read again, the file
    has the very lines written, when the new line holds no line boundary.
    With a file and no such line nothing is written.  The connector is
    never changed. *)
Theorem persist_rewrites_one_line
    (k : GrafanaConnector) (w : World) (new_token : string) :
  let key := get_env_var_name (connection k) in
  (env_file w = None ->
   _persist_token_to_env new_token (k, w) = ((k, w), Ok tt)
   /\ update_session_token new_token true (k, w)
      = ((set_connection k (set_session_token (connection k) (Some new_token)),
          w), Ok tt))
  /\ (forall content,
        env_file w = Some content ->
        Forall (no_match (key ++ "=")) (Str.splitlines content) ->
        _persist_token_to_env new_token (k, w) = ((k, w), Ok tt))
  /\ (forall content pre l post,
        env_file w = Some content ->
        Str.splitlines content = (pre ++ l :: post)%list ->
        Forall (no_match (key ++ "=")) pre ->
        Str.startswith l (key ++ "=") = true ->
        let lines' := (pre ++ (key ++ "=" ++ new_token)%string :: post)%list in
        let content' := Str.join LF lines' ++ LF in
        _persist_token_to_env new_token (k, w)
        = ((k, set_env_file w (Some content')), Ok tt)
        /\ (one_line (key ++ "=" ++ new_token) = true ->
            Str.splitlines content' = lines')
        /\ (content = Str.join LF (Str.splitlines content) ++ LF ->
            exists before after,
              content = before ++ l ++ after
              /\ content' = before ++ (key ++ "=" ++ new_token) ++ after)).
Proof.
  intros key. split; [|split].
  - intros Hf. split; [now apply persist_no_file|].
    unfold update_session_token, bind. now rewrite persist_no_file.
  - intros content Hf Hnone. now apply (persist_no_line k w new_token content).
  - intros content pre l post Hf Hsplit Hpre Hl lines' content'.
    split; [|split].
    + now apply (persist_line k w new_token content l pre post).
    + intros Hnew. now apply (written_lines content l).
    + intros Hnorm. exists (lines_text pre), (LF ++ lines_text post). split.
      * rewrite Hnorm at 1. rewrite Hsplit. apply written_around.
      * apply written_around.
Qed.

(** *** The scan of the [Set-Cookie] headers *)

Lemma prefix_app (p s : string) :
  String.prefix p s = true -> exists r, s = p ++ r.
Proof.
  revert s. induction p as [|a p IH]; intros s H.
  - now exists s.
  - destruct s as [|b s]; simpl in H; [discriminate|].
    destruct (ascii_dec a b) as [->|]; [|discriminate]. simpl.
    destruct (IH s H) as [r ->]. now exists r.
Qed.

Lemma scan_parts_find (parts : list string) :
  scan_parts unquote parts
  = match find (fun p => Str.startswith p "grafana_session=")
               (map Str.strip parts) with
    | Some part => apply_session_part unquote part
    | None => ret tt
    end.
Proof.
  induction parts as [|p ps IH]; [reflexivity|].
  cbn [scan_parts map find].
  now destruct (Str.startswith (Str.strip p) "grafana_session=").
Qed.

Lemma apply_session_part_value (part : string) :
  Str.startswith part "grafana_session=" = true ->
  apply_session_part unquote part = rotate_if_changed (unquote (part_value part)).
Proof.
  intros H. apply prefix_app in H as [r ->].
  unfold apply_session_part, part_value. simpl.
  now destruct (Str.split1 "=" r).
Qed.

(** One header is either passed over or acts through the token it
    carries. *)
Lemma scan_headers_cons (h : string) (hs : list string) :
  scan_headers unquote (h :: hs)
  = match header_token unquote h with
    | Some t => rotate_if_changed t ;; scan_headers unquote hs
    | None => scan_headers unquote hs
    end.
Proof.
  cbn [scan_headers]. unfold header_token, session_part.
  destruct (Str.contains "grafana_session=" h); [|reflexivity].
  rewrite scan_parts_find.
  destruct (find _ _) as [part|] eqn:Ef; [|reflexivity].
  apply find_some in Ef as [_ Hp].
  now rewrite apply_session_part_value.
Qed.

Lemma rotate_if_changed_token (t cur : string) (st : St) :
  token_of st = Some cur ->
  snd (rotate_if_changed t st) = Ok tt
  /\ token_of (fst (rotate_if_changed t st)) = Some t.
Proof.
  destruct st as [k w]. unfold token_of, rotate_if_changed. simpl.
  intros Hc. rewrite Hc.
  destruct (String.eqb_spec t cur) as [->|Hne]; simpl; [easy|].
  unfold bind, update_session_token, bind, cookies_set.
  destruct (_persist_token_to_env t _) as [[k' w'] r] eqn:Ep.
  unfold _persist_token_to_env in Ep. simpl in Ep.
  destruct (env_file w); [destruct (rewrite_line _ _ _)|];
    inversion Ep; subst; easy.
Qed.

Lemma last_nonempty {A : Type} (x : A) (xs : list A) (d d' : A) :
  last (x :: xs) d = last (x :: xs) d'.
Proof.
  revert x. induction xs as [|y ys IH]; intros x; [reflexivity|].
  change (last (y :: ys) d = last (y :: ys) d'). apply IH.
Qed.

Lemma header_tokens_cons (h : string) (hs : list string) :
  header_tokens unquote (h :: hs)
  = (match header_token unquote h with Some t => [t] | None => [] end
     ++ header_tokens unquote hs)%list.
Proof. reflexivity. Qed.

Lemma scan_headers_last (hs : list string) (cur : string) (st : St) :
  token_of st = Some cur ->
  snd (scan_headers unquote hs st) = Ok tt
  /\ token_of (fst (scan_headers unquote hs st))
     = Some (last (header_tokens unquote hs) cur).
Proof.
  revert cur st. induction hs as [|h hs IH]; intros cur st Hcur.
  - split; [reflexivity|exact Hcur].
  - rewrite scan_headers_cons, header_tokens_cons.
    destruct (header_token unquote h) as [t|]; [|now apply IH].
    destruct (rotate_if_changed_token t cur st Hcur) as [Hr Ht].
    unfold bind. destruct (rotate_if_changed t st) as [st' r]. simpl in Hr, Ht.
    subst r. destruct (IH t st' Ht) as [Hr' Ht']. split; [exact Hr'|].
    rewrite Ht'. f_equal. simpl.
    destruct (header_tokens unquote hs) as [|x xs]; [reflexivity|].
    apply last_nonempty.
Qed.

Lemma scan_headers_filter (hs : list string) (st : St) :
  scan_headers unquote hs st
  = scan_headers unquote (filter carries_token hs) st.
Proof.
  revert st. induction hs as [|h hs IH]; intros st; [reflexivity|].
  cbn [filter]. unfold carries_token at 1.
  destruct (session_part h) as [part|] eqn:Ep.
  - rewrite !scan_headers_cons. unfold header_token. rewrite Ep.
    unfold bind. destruct (rotate_if_changed _ st) as [st' [[]|e]]; [apply IH|easy].
  - rewrite scan_headers_cons. unfold header_token. rewrite Ep. apply IH.
Qed.

(** C3 (amended): every header with a part that, trimmed, begins with
    [grafana_session=] is applied in turn, so the token left in memory is
    the one carried by the last such header, not the first; headers without
    such a part have no effect at all on the connector or the world. *)
Theorem last_session_header_wins (response : Response) (st : St) (cur : string) :
  let hs := get_list "set-cookie" (headers response) in
  token_of st = Some cur ->
  _check_and_update_session_cookie unquote response st
  = scan_headers unquote (filter carries_token hs) st
  /\ snd (_check_and_update_session_cookie unquote response st) = Ok tt
  /\ token_of (fst (_check_and_update_session_cookie unquote response st))
     = Some (last (header_tokens unquote hs) cur).
Proof.
  intros hs Hcur. unfold _check_and_update_session_cookie. fold hs.
  split; [apply scan_headers_filter|].
  now apply scan_headers_last.
Qed.

(** *** One header of the form [grafana_session=NEW; Path=/] *)

Lemma prefix_self_app (p r : string) : String.prefix p (p ++ r) = true.
Proof.
  induction p as [|a p IH]; simpl; [now destruct r|].
  now destruct (ascii_dec a a).
Qed.

Lemma contains_prefix (p s : string) :
  String.prefix p s = true -> Str.contains p s = true.
Proof. intros H. destruct s; cbn [Str.contains]; now rewrite H. Qed.

Lemma contains_char_cons (c d : ascii) (s : string) :
  Str.contains (String c EmptyString) (String d s) = false ->
  Ascii.eqb d c = false /\ Str.contains (String c EmptyString) s = false.
Proof.
  simpl. intros H. apply orb_false_iff in H as [Hp Hs]. split; [|exact Hs].
  destruct (ascii_dec c d) as [->|Hne].
  - now destruct s.
  - apply Ascii.eqb_neq. congruence.
Qed.

Lemma split_app_sep (c : ascii) (a b : string) :
  Str.contains (String c EmptyString) a = false ->
  Str.split c (a ++ String c b) = a :: Str.split c b.
Proof.
  induction a as [|d a IH]; intros H.
  - simpl. now rewrite Ascii.eqb_refl.
  - apply contains_char_cons in H as [Hd Ha].
    simpl. rewrite Hd. now rewrite (IH Ha).
Qed.

Lemma rstrip_cons_nonspace (c : ascii) (s : string) :
  Str.isspace c = false -> Str.rstrip (String c s) = String c (Str.rstrip s).
Proof. intros H. simpl. rewrite H. now destruct (Str.rstrip s). Qed.

Lemma strip_session_part (v : string) :
  Str.strip ("grafana_session=" ++ v) = "grafana_session=" ++ Str.rstrip v.
Proof.
  unfold Str.strip.
  change (Str.lstrip ("grafana_session=" ++ v)) with ("grafana_session=" ++ v).
  cbn [String.append].
  now rewrite !rstrip_cons_nonspace by reflexivity.
Qed.

Lemma header_token_plain (v : string) :
  Str.contains ";" v = false ->
  Str.rstrip v = v ->
  header_token unquote ("grafana_session=" ++ v ++ "; Path=/")
  = Some (unquote v).
Proof.
  intros Hsemi Hstrip. unfold header_token, session_part.
  rewrite contains_prefix by apply prefix_self_app.
  replace ("grafana_session=" ++ v ++ "; Path=/")
    with (("grafana_session=" ++ v) ++ String ";" " Path=/")
    by (now rewrite append_assoc).
  rewrite split_app_sep by exact Hsemi.
  cbn [map find]. rewrite strip_session_part, Hstrip.
  unfold Str.startswith at 1. rewrite prefix_self_app.
  reflexivity.
Qed.

Lemma rotate_unchanged (t : string) (st : St) :
  token_of st = Some t -> rotate_if_changed t st = (st, Ok tt).
Proof.
  intros H. unfold rotate_if_changed. unfold token_of in H. rewrite H.
  now rewrite String.eqb_refl.
Qed.

Lemma rotate_changed (t cur : string) (k : GrafanaConnector) (w : World) :
  session_token (connection k) = Some cur ->
  t <> cur ->
  let k1 := set_connection k (set_session_token (connection k) (Some t)) in
  rotate_if_changed t (k, w)
  = ((set_client_cookie k1 (Some t),
      snd (fst (_persist_token_to_env t (k1, w)))), Ok tt).
Proof.
  intros Hcur Hne k1. unfold rotate_if_changed. simpl. rewrite Hcur.
  apply String.eqb_neq in Hne. rewrite Hne. simpl.
  unfold bind, update_session_token, bind, cookies_set. fold k1.
  unfold _persist_token_to_env.
  destruct (env_file w); [destruct (rewrite_line _ _ _)|]; reflexivity.
Qed.

(** C1 (amended): after a response whose only [Set-Cookie] header is
    [grafana_session=NEW; Path=/], with [NEW] free of semicolons, trailing
    blanks and percent escapes.  When [NEW] differs from the current token,
    the token in memory and the client's cookie are [NEW]; if the credential
    file exists and has a line that starts with the connection's [KEY=], the
    first such line becomes [KEY=NEW] and the other lines are kept; if the
    file is missing, or has no such line, nothing is persisted.  When [NEW]
    is the current token nothing changes and nothing is written. *)
Theorem session_cookie_round_trip
    (response : Response) (k : GrafanaConnector) (w : World) (cur NEW : string) :
  let key := get_env_var_name (connection k) in
  let out := _check_and_update_session_cookie unquote response (k, w) in
  get_list "set-cookie" (headers response)
    = ["grafana_session=" ++ NEW ++ "; Path=/"] ->
  session_token (connection k) = Some cur ->
  Str.contains ";" NEW = false ->
  Str.rstrip NEW = NEW ->
  unquote NEW = NEW ->
  snd out = Ok tt
  /\ (NEW <> cur ->
      token_of (fst out) = Some NEW
      /\ client_cookie (fst (fst out)) = Some NEW
      /\ (forall content pre l post,
            env_file w = Some content ->
            Str.splitlines content = (pre ++ l :: post)%list ->
            Forall (no_match (key ++ "=")) pre ->
            Str.startswith l (key ++ "=") = true ->
            snd (fst out)
            = set_env_file w
                (Some (Str.join LF
                         (pre ++ (key ++ "=" ++ NEW)%string :: post)%list
                       ++ LF)))
      /\ (forall content,
            env_file w = Some content ->
            Forall (no_match (key ++ "=")) (Str.splitlines content) ->
            snd (fst out) = w)
      /\ (env_file w = None -> snd (fst out) = w))
  /\ (NEW = cur -> fst out = (k, w)).
Proof.
  intros key out Hh Hcur Hsemi Hstrip Hunq.
  assert (E : out = rotate_if_changed NEW (k, w)).
  { unfold out, _check_and_update_session_cookie. rewrite Hh.
    rewrite scan_headers_cons, header_token_plain, Hunq by assumption.
    cbn [scan_headers]. unfold bind.
    now destruct (rotate_if_changed NEW (k, w)) as [st' [[]|e]]. }
  rewrite E. clear E out.
  destruct (String.eqb_spec NEW cur) as [->|Hne].
  - rewrite rotate_unchanged by exact Hcur. repeat split; intros; congruence.
  - rewrite (rotate_changed NEW cur k w Hcur Hne). cbn [fst snd].
    split; [reflexivity|]. split; [|congruence]. intros _.
    repeat split.
    + intros content pre l post Hf Hsplit Hpre Hl.
      now rewrite (persist_line _ w NEW content l pre post).
    + intros content Hf Hnone.
      now rewrite (persist_no_line _ w NEW content).
    + intros Hf. now rewrite persist_no_file.
Qed.

(** *** The request primitive *)

Lemma translate_error_keeps_state {A : Type} (e : exn) (st : St) :
  fst (translate_error (A := A) e st) = st
  /\ exists msg, snd (translate_error (A := A) e st) = Raise (Exception msg).
Proof.
  destruct st as [k w]. unfold translate_error.
  destruct e; try (split; [reflexivity|eexists; reflexivity]).
  destruct (Z.eqb status 401); [|destruct (Z.eqb status 403)];
    (split; [reflexivity|eexists; reflexivity]).
Qed.

Lemma get_after_send (endpoint : string) (params : list (string * json))
    (st st1 : St) (r : Response) :
  send_get load_dotenv net endpoint params st = (st1, Ok r) ->
  _get unquote load_dotenv net endpoint params st
  = try_except
      (raise_for_status r ;;
       _check_and_update_session_cookie unquote r ;;
       lift (parsed r))
      translate_error st1.
Proof.
  unfold send_get, _get, bind, try_except.
  destruct (reload_session_token load_dotenv st) as [st0 [tok|e]]; [|discriminate].
  destruct (cookies_set tok st0) as [st0' [[]|e]]; [|discriminate].
  destruct (client_send net GET _ params None st0') as [st1' [r'|e]];
    [|discriminate].
  intros H. inversion H; subst. reflexivity.
Qed.

(** C2 (amended): once the request went out and Grafana answered, the
    [Set-Cookie] headers are looked at only if the status is in 200..299:
    the state [_get] leaves is then the one
    [_check_and_update_session_cookie] leaves.  For any other status the
    headers are ignored: [_get] raises and leaves the state as it was when
    the response came in, with the reloaded token and the credential file
    untouched. *)
Theorem rotation_checked_on_success_only
    (endpoint : string) (params : list (string * json))
    (st st1 : St) (r : Response) :
  let out := _get unquote load_dotenv net endpoint params st in
  send_get load_dotenv net endpoint params st = (st1, Ok r) ->
  (is_success r = true ->
   fst out = fst (_check_and_update_session_cookie unquote r st1))
  /\ (is_success r = false ->
      fst out = st1
      /\ env_file (snd (fst out)) = env_file (snd st)
      /\ exists msg, snd out = Raise (Exception msg)).
Proof.
  intros out Hsend. unfold out. rewrite (get_after_send _ _ _ _ _ Hsend).
  unfold try_except, bind, raise_for_status. fold (is_success r). split.
  - intros ->. unfold ret.
    destruct (_check_and_update_session_cookie unquote r st1) as [st2 [[]|e]];
      cbn [fst].
    + unfold lift. destruct (parsed r) as [j|e]; [reflexivity|].
      apply translate_error_keeps_state.
    + apply translate_error_keeps_state.
  - intros ->. unfold raise.
    destruct (translate_error_keeps_state (A := json)
                (HTTPStatusError (status_code r) (text r) "HTTP status error")
                st1) as [Hst Hmsg].
    rewrite Hst. repeat split; [|exact Hmsg].
    revert Hsend. unfold send_get, bind, reload_session_token, cookies_set,
      client_send.
    destruct st as [k w]. cbn [snd].
    destruct (getenv _ _) as [tok|]; [|discriminate].
    destruct (String.eqb tok ""); [discriminate|].
    destruct (net _ _); intros H; inversion H; subst; reflexivity.
Qed.

(** *** The requests sent *)

Lemma reload_keeps_sent (st st0 : St) (r : Result string) :
  reload_session_token load_dotenv st = (st0, r) -> sent_of st0 = sent_of st.
Proof.
  destruct st as [k w]. unfold reload_session_token.
  destruct (getenv _ _) as [tok|]; [destruct (String.eqb tok "")|];
    intros H; inversion H; reflexivity.
Qed.

Lemma rotate_keeps_sent (t : string) (st : St) :
  sent_of (fst (rotate_if_changed t st)) = sent_of st.
Proof.
  destruct st as [k w]. unfold rotate_if_changed. cbn [fst].
  destruct (session_token (connection k)) as [cur|]; [|reflexivity].
  destruct (negb (String.eqb t cur)); [|reflexivity].
  unfold bind, update_session_token, bind, cookies_set, _persist_token_to_env.
  cbn. destruct (env_file w); [destruct (rewrite_line _ _ _)|]; reflexivity.
Qed.

Lemma scan_headers_keeps_sent (hs : list string) (st : St) :
  sent_of (fst (scan_headers unquote hs st)) = sent_of st.
Proof.
  revert st. induction hs as [|h hs IH]; intros st; [reflexivity|].
  rewrite scan_headers_cons.
  destruct (header_token unquote h) as [t|]; [|apply IH].
  unfold bind. pose proof (rotate_keeps_sent t st) as Hr.
  destruct (rotate_if_changed t st) as [st' [[]|e]]; cbn [fst] in *.
  - now rewrite IH.
  - exact Hr.
Qed.

Lemma answer_keeps_sent (r : Response) (st1 : St) :
  sent_of (fst (try_except
                  (raise_for_status r ;;
                   _check_and_update_session_cookie unquote r ;;
                   lift (parsed r))
                  translate_error st1)) = sent_of st1.
Proof.
  unfold try_except, bind, raise_for_status.
  destruct (Z.leb 200 (status_code r) && Z.ltb (status_code r) 300)%bool.
  - unfold ret.
    pose proof (scan_headers_keeps_sent
                  (get_list "set-cookie" (headers r)) st1) as Hs.
    fold (_check_and_update_session_cookie unquote r) in Hs.
    destruct (_check_and_update_session_cookie unquote r st1) as [st2 [[]|e]];
      cbn [fst] in Hs.
    + unfold lift. destruct (parsed r) as [j|e]; [exact Hs|].
      now rewrite (proj1 (translate_error_keeps_state e st2)).
    + now rewrite (proj1 (translate_error_keeps_state e st2)).
  - unfold raise. now rewrite (proj1 (translate_error_keeps_state _ st1)).
Qed.

(** A [_get] whose token reload succeeds sends exactly one request, the GET
    of the endpoint under [/api], with the reloaded token as cookie. *)
Lemma get_sends_one (endpoint : string) (params : list (string * json))
    (st st0 : St) (tok : string) :
  reload_session_token load_dotenv st = (st0, Ok tok) ->
  sent_of (fst (_get unquote load_dotenv net endpoint params st))
  = (sent_of st
     ++ [mkRequest GET ("/api" ++ endpoint) params None (Some tok)])%list.
Proof.
  intros Hr. pose proof (reload_keeps_sent _ _ _ Hr) as Hs.
  unfold _get, bind. rewrite Hr. destruct st0 as [k0 w0].
  unfold cookies_set. unfold sent_of in *. cbn [snd] in Hs. rewrite <- Hs.
  pose proof (answer_keeps_sent) as Ha.
  unfold try_except, bind, client_send in *. cbn.
  destruct (net _ _) as [msg|msg|r].
  - now rewrite (proj1 (translate_error_keeps_state _ _)).
  - now rewrite (proj1 (translate_error_keeps_state _ _)).
  - specialize (Ha r (set_client_cookie k0 (Some tok),
                      log_request w0
                        (mkRequest GET ("/api" ++ endpoint) params None
                                   (Some tok)))).
    cbn in Ha. exact Ha.
Qed.

(** A [_get] whose token reload fails raises at once and sends nothing. *)
Lemma get_without_token (endpoint : string) (params : list (string * json))
    (st st0 : St) (e : exn) :
  reload_session_token load_dotenv st = (st0, Raise e) ->
  _get unquote load_dotenv net endpoint params st = (st0, Raise e).
Proof. intros Hr. unfold _get, bind. now rewrite Hr. Qed.

Lemma get_extends_sent (endpoint : string) (params : list (string * json))
    (st : St) :
  exists more,
    sent_of (fst (_get unquote load_dotenv net endpoint params st))
    = (sent_of st ++ more)%list.
Proof.
  destruct (reload_session_token load_dotenv st) as [st0 [tok|e]] eqn:Hr.
  - eexists. now apply (get_sends_one _ _ _ st0 tok).
  - exists []. rewrite (get_without_token _ _ _ _ _ Hr), app_nil_r.
    now apply (reload_keeps_sent _ _ _ Hr).
Qed.

(** *** Alerts *)

Lemma legacy_alerts_returns (st : St) :
  exists st' v, _list_legacy_alerts unquote load_dotenv net st = (st', Ok v).
Proof.
  unfold _list_legacy_alerts, try_except, bind.
  destruct (_get unquote load_dotenv net "/alerts" [] st) as [st1 [alerts|e]].
  - unfold lift. destruct (shape_each _ alerts) as [v|e].
    + now exists st1, v.
    + now exists st1, (JList []).
  - now exists st1, (JList []).
Qed.

Lemma legacy_alerts_empty_on_failure (st st1 : St) (e : exn) :
  _get unquote load_dotenv net "/alerts" [] st = (st1, Raise e) ->
  _list_legacy_alerts unquote load_dotenv net st = (st1, Ok (JList [])).
Proof.
  intros H. unfold _list_legacy_alerts, try_except, bind. now rewrite H.
Qed.

Lemma legacy_alerts_extends_sent (st : St) :
  exists more,
    sent_of (fst (_list_legacy_alerts unquote load_dotenv net st))
    = (sent_of st ++ more)%list.
Proof.
  destruct (get_extends_sent "/alerts" [] st) as [more Hm]. exists more.
  unfold _list_legacy_alerts, try_except, bind.
  destruct (_get unquote load_dotenv net "/alerts" [] st) as [st1 [alerts|e]];
    cbn [fst] in *; [|exact Hm].
  unfold lift. now destruct (shape_each _ alerts).
Qed.

(** C5: [list_alerts] begins with the unified-alerting rules endpoint: with
    a session token at hand, the first request it sends is the GET of
    [/api/ruler/grafana/api/v1/rules].  Whatever the failure of that call,
    the result is that of [_list_legacy_alerts], run from the state the
    failed call left; [_list_legacy_alerts] never raises, and when its own
    call fails too the result is the empty list. *)
Theorem list_alerts_degrades (folder_uid : option string) (st : St) :
  let run := list_alerts unquote load_dotenv net folder_uid st in
  (forall st0 tok,
     reload_session_token load_dotenv st = (st0, Ok tok) ->
     exists more,
       sent_of (fst run)
       = (sent_of st
          ++ mkRequest GET "/api/ruler/grafana/api/v1/rules" [] None (Some tok)
          :: more)%list)
  /\ (forall st1 e,
        _get unquote load_dotenv net unified_rules_endpoint [] st
        = (st1, Raise e) ->
        run = _list_legacy_alerts unquote load_dotenv net st1
        /\ exists st2 v, run = (st2, Ok v))
  /\ (forall st1 st2 e e',
        _get unquote load_dotenv net unified_rules_endpoint [] st
        = (st1, Raise e) ->
        _get unquote load_dotenv net "/alerts" [] st1 = (st2, Raise e') ->
        run = (st2, Ok (JList []))).
Proof.
  intros run.
  assert (Hfall : forall st1 e,
            _get unquote load_dotenv net unified_rules_endpoint [] st
            = (st1, Raise e) ->
            run = _list_legacy_alerts unquote load_dotenv net st1).
  { intros st1 e H. unfold run, list_alerts, bind, attempt. now rewrite H. }
  split; [|split].
  - intros st0 tok Hr.
    pose proof (get_sends_one unified_rules_endpoint [] st st0 tok Hr) as Hg.
    unfold run, list_alerts, bind, attempt.
    destruct (_get unquote load_dotenv net unified_rules_endpoint [] st)
      as [st1 [rules|e]]; cbn [fst] in *.
    + exists []. unfold lift. cbn [fst]. exact Hg.
    + destruct (legacy_alerts_extends_sent st1) as [more Hm].
      exists more. rewrite Hm, Hg. now rewrite <- app_assoc.
  - intros st1 e H. split; [now apply (Hfall st1 e)|].
    rewrite (Hfall st1 e H). apply legacy_alerts_returns.
  - intros st1 st2 e e' H1 H2. rewrite (Hfall st1 e H1).
    now apply (legacy_alerts_empty_on_failure st1 st2 e').
Qed.








(** *** Explore queries *)

(** C6: an additional option named [queries], [from], [to],
    [maxDataPoints] or [intervalMs] makes [explore_query] raise its
    argument error at once: the connector and the world, and with them the
    list of requests sent, are as before. *)
Theorem explore_query_reserved_key
    (queries : list json) (range_from range_to : option string)
    (max_data_points interval_ms : option Z)
    (additional_options : list (string * json)) (key : string) (st : St) :
  In key reserved_keys ->
  dict_mem key additional_options = true ->
  exists msg,
    explore_query unquote load_dotenv net queries range_from range_to
      max_data_points interval_ms additional_options st
    = (st, Raise (ValueError msg)).
Proof.
  intros Hin Hmem. unfold explore_query.
  assert (E : existsb (fun k => dict_mem k additional_options) reserved_keys
              = true).
  { apply existsb_exists. now exists key. }
  rewrite E. eexists. reflexivity.
Qed.

(** *** Unknown connections *)

Lemma dict_get_absent {A : Type} (k : string) (d : list (string * A)) :
  ~ In k (dict_keys d) -> dict_get k d = None.
Proof.
  induction d as [|[k' v] d IH]; [reflexivity|].
  cbn. intros H. destruct (String.eqb_spec k k') as [->|_].
  - exfalso. apply H. now left.
  - apply IH. intros Hin. apply H. now right.
Qed.

Lemma contains_app_r (x a b : string) :
  Str.contains x b = true -> Str.contains x (a ++ b) = true.
Proof.
  intros H. induction a as [|c a IH]; [exact H|].
  cbn [String.append Str.contains]. rewrite IH. apply orb_true_r.
Qed.

Lemma contains_self_app (x b : string) : Str.contains x (x ++ b) = true.
Proof. apply contains_prefix, prefix_self_app. Qed.

Lemma contains_join (sep m : string) (ks : list string) :
  In m ks -> Str.contains m (Str.join sep ks) = true.
Proof.
  induction ks as [|k ks IH]; [easy|]. intros [->|Hin].
  - destruct ks as [|k' ks'].
    + cbn. rewrite <- (append_nil_r m) at 2. apply contains_self_app.
    + apply contains_self_app.
  - destruct ks as [|k' ks']; [destruct Hin|].
    change (Str.join sep (k :: k' :: ks'))
      with (k ++ sep ++ Str.join sep (k' :: ks')).
    apply contains_app_r, contains_app_r, IH, Hin.
Qed.

(** C4: a call of any tool that takes [connection_name], with a name that
    is not in the registry, raises the error whose message names the
    connection asked for and lists every configured name; the registry and
    the world are left as they were, so nothing was reloaded and no request
    was sent. *)
Theorem unknown_connection_rejected
    (c : ToolCall) (name : string) (reg : Registry) (w : World) :
  call_connection_name c = Some name ->
  ~ In name (dict_keys reg) ->
  call_tool unquote load_dotenv net c (reg, w)
  = ((reg, w), Raise (ValueError (not_found_message name reg)))
  /\ forall configured,
       In configured (dict_keys reg) ->
       Str.contains configured (not_found_message name reg) = true.
Proof.
  intros Hc Habs. apply dict_get_absent in Habs. split.
  - destruct c; cbn in Hc; inversion Hc; subst;
      cbn [call_tool]; unfold with_connector; now rewrite Habs.
  - intros m Hm. unfold not_found_message.
    do 3 apply contains_app_r. now apply contains_join.
Qed.

End ConnectorProperties.

(** ** Listing the connections *)

Lemma connections_retoken (f : string -> option string) (reg : Registry) :
  map (fun e => connection_info (fst e) (snd e)) (connections (retoken f reg))
  = map (fun e => connection_info (fst e) (snd e)) (connections reg).
Proof.
  unfold connections, retoken. rewrite !map_map. apply map_ext.
  intros [n k]. reflexivity.
Qed.

Lemma list_connections_entries (reg : Registry) :
  reg <> [] ->
  list_connections reg
  = JList (map (fun e => connection_info (fst e) (snd e)) (connections reg)).
Proof. destruct reg as [|e reg]; [congruence|reflexivity]. Qed.

(** C9: [list_connections] gives one entry per configured connection, in
    registry order, made of exactly the five fields [name], [url],
    [description], [timeout] and [verify_ssl] of that connection; and its
    output does not depend on the session tokens: replacing the token of
    every connection by any other value leaves the output the same. *)
Theorem list_connections_public_fields (reg : Registry) :
  (forall e rest,
     reg = e :: rest ->
     exists entries,
       list_connections reg = JList entries
       /\ length entries = length reg
       /\ forall i name connector,
            nth_error reg i = Some (name, connector) ->
            let conn := connection connector in
            nth_error entries i
            = Some (JDict [("name", JStr name); ("url", JStr (url conn));
                           ("description", JStr (description conn));
                           ("timeout", JInt (timeout conn));
                           ("verify_ssl", JBool (verify_ssl conn))]))
  /\ forall f g : string -> option string,
       list_connections (retoken f reg) = list_connections (retoken g reg)
       /\ list_connections (retoken f reg) = list_connections reg.
Proof.
  split.
  - intros e rest Hreg.
    exists (map (fun e => connection_info (fst e) (snd e)) (connections reg)).
    split; [apply list_connections_entries; congruence|]. split.
    + unfold connections. now rewrite !length_map.
    + intros i name connector Hi conn. unfold connections.
      rewrite map_map, nth_error_map, Hi. reflexivity.
  - assert (H : forall f, list_connections (retoken f reg) = list_connections reg).
    { intros f. destruct reg as [|e reg]; [reflexivity|].
      rewrite !list_connections_entries by (cbn; congruence).
      now rewrite connections_retoken. }
    intros f g. split; [now rewrite !H|apply H].
Qed.

(** * The properties at concrete inputs *)

(** ** Session cookies *)

Lemma session_cookie_round_trip_witness :
  let out := _check_and_update_session_cookie Str.percent_decode
               (Sample.answer 200 [Sample.rotated] (JDict []))
               (Sample.connector, Sample.world_with_file) in
  token_of (fst out) = Some "new_token_456"
  /\ persisted_token Sample.conn (snd (fst out)) = Some "new_token_456"
  /\ Str.splitlines Sample.env_text
     = ["OTHER=1"; "GRAFANA_SESSION_TEST=old_token_123"; "LAST=x"]
  /\ env_file (snd (fst out))
     = Some ("OTHER=1" ++ LF ++ "GRAFANA_SESSION_TEST=new_token_456" ++ LF
             ++ "LAST=x" ++ LF).
Proof.
  intros out.
  destruct (session_cookie_round_trip Str.percent_decode
              (Sample.answer 200 [Sample.rotated] (JDict []))
              Sample.connector Sample.world_with_file
              "old_token_123" "new_token_456"
              eq_refl eq_refl eq_refl eq_refl eq_refl) as (_ & Hnew & _).
  destruct (Hnew ltac:(discriminate)) as (Ht & _ & Hfile & _).
  assert (Hpre : Forall (no_match "GRAFANA_SESSION_TEST=") ["OTHER=1"])
    by (repeat constructor).
  specialize (Hfile Sample.env_text ["OTHER=1"]
                "GRAFANA_SESSION_TEST=old_token_123" ["LAST=x"]
                eq_refl eq_refl Hpre eq_refl).
  split; [exact Ht|]. fold out in Hfile.
  unfold persisted_token. rewrite Hfile. repeat split; reflexivity.
Defined.

(** C1, as stated, fails: without a [.env] file in the working directory
    the rotated token is in memory only.  Nothing is persisted, and the
    next reload of the token brings the old one back. *)
Lemma rotated_token_not_persisted :
  let out := _check_and_update_session_cookie Str.percent_decode
               (Sample.answer 200 [Sample.rotated] (JDict []))
               (Sample.connector, Sample.world_without_file) in
  token_of (fst out) = Some "new_token_456"
  /\ snd (fst out) = Sample.world_without_file
  /\ persisted_token Sample.conn (snd (fst out)) <> Some "new_token_456"
  /\ snd (reload_session_token load_dotenv_plain (fst out))
     = Ok "old_token_123".
Proof. repeat split. discriminate. Qed.

Lemma last_session_header_wins_witness :
  token_of
    (fst (_check_and_update_session_cookie Str.percent_decode
            (Sample.answer 200
               ["other_cookie=value1; Path=/";
                "grafana_session=new_token_789; Path=/";
                "grafana_session_expiry=1234567890; Path=/"] (JDict []))
            (Sample.connector, Sample.world_without_file)))
  = Some "new_token_789".
Proof.
  destruct (last_session_header_wins Str.percent_decode
              (Sample.answer 200
                 ["other_cookie=value1; Path=/";
                  "grafana_session=new_token_789; Path=/";
                  "grafana_session_expiry=1234567890; Path=/"] (JDict []))
              (Sample.connector, Sample.world_without_file)
              "old_token_123" eq_refl) as (_ & _ & H).
  exact H.
Defined.

(** C3, as stated, fails: of two headers that carry the session cookie the
    second one decides the token. *)
Lemma first_session_header_overridden :
  token_of
    (fst (_check_and_update_session_cookie Str.percent_decode
            (Sample.answer 200
               ["grafana_session=first; Path=/";
                "grafana_session=second; Path=/"] (JDict []))
            (Sample.connector, Sample.world_without_file)))
  = Some "second".
Proof. reflexivity. Qed.

(** A header that sets another cookie still changes the token when one of
    its attributes is named like the session cookie. *)
Example attribute_named_like_session_cookie :
  token_of
    (fst (_check_and_update_session_cookie Str.percent_decode
            (Sample.answer 200 ["other=1; grafana_session=x"] (JDict []))
            (Sample.connector, Sample.world_without_file)))
  = Some "x".
Proof. reflexivity. Qed.

(** The cases of [tests/test_cookie_refresh.py]. *)
Example test_parse_url_encoded_cookie :
  token_of
    (fst (_check_and_update_session_cookie Str.percent_decode
            (Sample.answer 200 ["grafana_session=abc%2B123%3Dtest; Path=/"]
               (JDict []))
            (Sample.connector, Sample.world_without_file)))
  = Some "abc+123=test".
Proof. reflexivity. Qed.

Example test_no_set_cookie_header :
  _check_and_update_session_cookie Str.percent_decode
    (Sample.answer 200 [] (JDict []))
    (Sample.connector, Sample.world_with_file)
  = ((Sample.connector, Sample.world_with_file), Ok tt).
Proof. reflexivity. Qed.

Example test_same_token_not_updated :
  _check_and_update_session_cookie Str.percent_decode
    (Sample.answer 200 ["grafana_session=old_token_123; Path=/"] (JDict []))
    (Sample.connector, Sample.world_with_file)
  = ((Sample.connector, Sample.world_with_file), Ok tt).
Proof. reflexivity. Qed.

(** ** The request primitive *)

(** C2, as stated, fails: a 401 answer that carries a rotated session
    cookie leaves the token and the credential file as they were; the same
    answer with status 200 rotates both. *)
Lemma rotation_ignored_on_error_status :
  let get (status : Z) :=
    _get Str.percent_decode load_dotenv_plain
      (Sample.always (Responded (Sample.answer status [Sample.rotated] (JDict []))))
      "/health" [] (Sample.connector, Sample.world_with_file) in
  snd (get 401%Z)
  = Raise (Exception "Authentication failed for test. Session may have expired.")
  /\ token_of (fst (get 401%Z)) = Some "old_token_123"
  /\ persisted_token Sample.conn (snd (fst (get 401%Z))) = Some "old_token_123"
  /\ token_of (fst (get 200%Z)) = Some "new_token_456"
  /\ persisted_token Sample.conn (snd (fst (get 200%Z))) = Some "new_token_456".
Proof. repeat split. Qed.

Lemma rotation_checked_on_success_only_witness :
  let net := Sample.always
               (Responded (Sample.answer 500 [Sample.rotated] (JDict []))) in
  let st := (Sample.connector, Sample.world_with_file) in
  let out := _get Str.percent_decode load_dotenv_plain net "/health" [] st in
  fst out = fst (send_get load_dotenv_plain net "/health" [] st)
  /\ env_file (snd (fst out)) = Some Sample.env_text.
Proof.
  intros net st out.
  destruct (rotation_checked_on_success_only Str.percent_decode
              load_dotenv_plain net "/health" [] st
              (fst (send_get load_dotenv_plain net "/health" [] st))
              (Sample.answer 500 [Sample.rotated] (JDict []))
              eq_refl) as [_ H].
  destruct (H eq_refl) as (H1 & H2 & _). split; [exact H1|exact H2].
Defined.

(** ** The credential file *)

Lemma persist_rewrites_one_line_witness :
  _persist_token_to_env "new_token_456"
    (Sample.connector, Sample.world_with_file)
  = ((Sample.connector,
      set_env_file Sample.world_with_file
        (Some ("OTHER=1" ++ LF ++ "GRAFANA_SESSION_TEST=new_token_456" ++ LF
               ++ "LAST=x" ++ LF))), Ok tt)
  /\ _persist_token_to_env "new_token_456"
       (Sample.connector, Sample.world_without_file)
     = ((Sample.connector, Sample.world_without_file), Ok tt)
  /\ exists before after,
       Sample.env_text
       = before ++ "GRAFANA_SESSION_TEST=old_token_123" ++ after
       /\ "OTHER=1" ++ LF ++ "GRAFANA_SESSION_TEST=new_token_456" ++ LF
          ++ "LAST=x" ++ LF
          = before ++ "GRAFANA_SESSION_TEST=new_token_456" ++ after.
Proof.
  assert (Hpre : Forall (no_match "GRAFANA_SESSION_TEST=") ["OTHER=1"])
    by (repeat constructor).
  destruct (persist_rewrites_one_line Sample.connector
              Sample.world_with_file "new_token_456") as (_ & _ & H).
  destruct (H Sample.env_text ["OTHER=1"]
              "GRAFANA_SESSION_TEST=old_token_123" ["LAST=x"]
              eq_refl eq_refl Hpre eq_refl) as (E & _ & Hbytes).
  split; [exact E|]. split.
  - destruct (persist_rewrites_one_line Sample.connector
                Sample.world_without_file "new_token_456") as (Hnone & _).
    exact (proj1 (Hnone eq_refl)).
  - exact (Hbytes eq_refl).
Defined.

(** C8, as stated, fails: a form feed is a line boundary for
    [splitlines], so the entry of another key that holds one is written
    back cut in two, with a line feed in place of the form feed. *)
Lemma persist_rewrites_line_boundaries :
  let form_feed := String (ascii_of_N 12) EmptyString in
  let other := "OTHER=a" ++ form_feed ++ "b" in
  let content := other ++ LF ++ "GRAFANA_SESSION_TEST=old_token_123" ++ LF in
  let w := mkWorld (Some content) [] [] in
  env_file (snd (fst (_persist_token_to_env "new_token_456"
                        (Sample.connector, w))))
  = Some ("OTHER=a" ++ LF ++ "b" ++ LF
          ++ "GRAFANA_SESSION_TEST=new_token_456" ++ LF)
  /\ env_file (snd (fst (_persist_token_to_env "new_token_456"
                           (Sample.connector, w))))
     <> Some (other ++ LF ++ "GRAFANA_SESSION_TEST=new_token_456" ++ LF).
Proof. split; [reflexivity|discriminate]. Qed.

(** ** Alerts *)

Lemma list_alerts_degrades_witness :
  let net := Sample.always (Failed "connection refused") in
  let st := (Sample.connector, Sample.world_with_file) in
  snd (list_alerts Str.percent_decode load_dotenv_plain net None st)
  = Ok (JList [])
  /\ map req_path
       (sent_of (fst (list_alerts Str.percent_decode load_dotenv_plain net
                        None st)))
     = ["/api/ruler/grafana/api/v1/rules"; "/api/alerts"].
Proof.
  intros net st.
  destruct (list_alerts_degrades Str.percent_decode load_dotenv_plain net
              None st) as (_ & _ & H).
  rewrite (H (fst (_get Str.percent_decode load_dotenv_plain net
                     unified_rules_endpoint [] st))
             (fst (_get Str.percent_decode load_dotenv_plain net "/alerts" []
                     (fst (_get Str.percent_decode load_dotenv_plain net
                             unified_rules_endpoint [] st))))
             (Exception "Request failed: connection refused")
             (Exception "Request failed: connection refused")
             eq_refl eq_refl).
  split; reflexivity.
Defined.


(** ** Explore queries *)

Lemma explore_query_reserved_key_witness :
  exists msg,
    explore_query Str.percent_decode load_dotenv_plain
      (Sample.always (Failed "unreachable"))
      [JDict [("refId", JStr "A")]] None None None None
      [("queries", JList [])]
      (Sample.connector, Sample.world_with_file)
    = ((Sample.connector, Sample.world_with_file), Raise (ValueError msg)).
Proof.
  apply (explore_query_reserved_key Str.percent_decode load_dotenv_plain
           (Sample.always (Failed "unreachable"))
           [JDict [("refId", JStr "A")]] None None None None
           [("queries", JList [])] "queries"
           (Sample.connector, Sample.world_with_file)).
  - now left.
  - reflexivity.
Defined.

(** ** Tools *)

Lemma unknown_connection_rejected_witness :
  call_tool Str.percent_decode load_dotenv_plain
    (Sample.always (Failed "unreachable"))
    (call_list_alerts "prod" None) (Sample.registry, Sample.world_with_file)
  = ((Sample.registry, Sample.world_with_file),
     Raise (ValueError
              "Connection 'prod' not found. Available connections: test")).
Proof.
  apply (unknown_connection_rejected Str.percent_decode load_dotenv_plain
           (Sample.always (Failed "unreachable"))
           (call_list_alerts "prod" None) "prod"
           Sample.registry Sample.world_with_file).
  - reflexivity.
  - intros [H|[]]. discriminate.
Defined.

Lemma list_connections_public_fields_witness :
  list_connections Sample.registry
  = JList [JDict [("name", JStr "test");
                  ("url", JStr "https://grafana.example.com");
                  ("description", JStr ""); ("timeout", JInt 30);
                  ("verify_ssl", JBool true)]].
Proof.
  destruct (list_connections_public_fields Sample.registry) as [H _].
  destruct (H ("test", Sample.connector) [] eq_refl) as (entries & E & Hlen & Hn).
  rewrite E. specialize (Hn 0%nat "test" Sample.connector eq_refl).
  destruct entries as [|x [|y ys]]; [discriminate| |discriminate].
  cbn in Hn. now inversion Hn.
Defined.

(** ** Strings and names *)

Example env_var_names :
  map (fun n => get_env_var_name (mkConnection n "" "" 30 true None))
      ["production"; "prod-grafana"; "grafana-ha"; "grafana_test"]
  = ["GRAFANA_SESSION_PRODUCTION"; "GRAFANA_SESSION_PROD_GRAFANA";
     "GRAFANA_SESSION_GRAFANA_HA"; "GRAFANA_SESSION_GRAFANA_TEST"].
Proof. reflexivity. Qed.

Example percent_decode_cookie :
  Str.percent_decode "abc%2B123%3Dtest" = "abc+123=test".
Proof. reflexivity. Qed.

Example splitlines_crlf :
  Str.splitlines ("A=1" ++ String (ascii_of_N 13) LF ++ "B=2") = ["A=1"; "B=2"].
Proof. reflexivity. Qed.

Example test_connection_name_validation :
  map validate_connection_name ["prod"; "prod_grafana"; "grafana-ha"; "grafana123"]
  = map Ok ["prod"; "prod_grafana"; "grafana-ha"; "grafana123"]
  /\ map validate_connection_name ["prod@grafana"; "grafana!"; "test grafana"]
     = [Raise name_error; Raise name_error; Raise name_error].
Proof. split; reflexivity. Qed.

Example test_url_trailing_slash_removed :
  remove_trailing_slash "https://grafana.example.com/"
  = "https://grafana.example.com".
Proof. reflexivity. Qed.

(** * Further properties of the code *)

(** ** URLs and variable names *)

Lemma rstrip_char_no_end (c : ascii) (v : string) :
  ends_with_char c (Str.rstrip_char c v) = false.
Proof.
  induction v as [|d r IH]; [reflexivity|]. cbn [Str.rstrip_char].
  destruct (Str.rstrip_char c r) as [|e t].
  - destruct (Ascii.eqb d c) eqn:E; [reflexivity|]. cbn. exact E.
  - exact IH.
Qed.

Lemma rstrip_char_slashes (n : nat) : Str.rstrip_char "/" (slashes n) = "".
Proof. induction n as [|n IH]; [reflexivity|]. cbn. now rewrite IH. Qed.

Lemma rstrip_char_app_slashes (v : string) (n : nat) :
  Str.rstrip_char "/" (v ++ slashes n) = Str.rstrip_char "/" v.
Proof.
  induction v as [|d r IH]; [apply rstrip_char_slashes|].
  cbn [String.append Str.rstrip_char]. now rewrite IH.
Qed.

Lemma rstrip_char_decompose (v : string) :
  exists n, v = Str.rstrip_char "/" v ++ slashes n.
Proof.
  induction v as [|d r [n IH]]; [now exists 0%nat|].
  cbn [Str.rstrip_char]. destruct (Str.rstrip_char "/" r) as [|e t].
  - cbn in IH. subst r. destruct (Ascii.eqb_spec d "/") as [->|_].
    + now exists (S n).
    + now exists n.
  - exists n. cbn in *. now f_equal.
Qed.

Lemma rstrip_char_fixed (c : ascii) (v : string) :
  ends_with_char c v = false -> Str.rstrip_char c v = v.
Proof.
  induction v as [|d r IH]; [reflexivity|]. intros H.
  cbn [Str.rstrip_char]. destruct r as [|e r'].
  - cbn in *. now rewrite H.
  - rewrite IH by exact H. reflexivity.
Qed.

(** X1: [remove_trailing_slash] takes away the whole run of slashes at the
    end of the URL and nothing else: the result does not end with a slash,
    the URL is the result followed by slashes only, any number of slashes
    added at the end gives the same result, and a URL that does not end
    with a slash is returned as it is. *)
Theorem remove_trailing_slash_strips_all (v : string) :
  ends_with_char "/" (remove_trailing_slash v) = false
  /\ (exists n, v = remove_trailing_slash v ++ slashes n)
  /\ (forall n, remove_trailing_slash (v ++ slashes n) = remove_trailing_slash v)
  /\ (ends_with_char "/" v = false -> remove_trailing_slash v = v).
Proof.
  unfold remove_trailing_slash. repeat split.
  - apply rstrip_char_no_end.
  - apply rstrip_char_decompose.
  - apply rstrip_char_app_slashes.
  - apply rstrip_char_fixed.
Qed.

Lemma remove_trailing_slash_strips_all_witness :
  remove_trailing_slash "https://grafana.example.com" = "https://grafana.example.com".
Proof.
  apply (proj2 (proj2 (proj2
           (remove_trailing_slash_strips_all "https://grafana.example.com")))).
  reflexivity.
Defined.

Lemma all_chars_app (p : ascii -> bool) (a b : string) :
  Str.all_chars p (a ++ b) = Str.all_chars p a && Str.all_chars p b.
Proof.
  induction a as [|c a IH]; [reflexivity|]. cbn. now rewrite IH, andb_assoc.
Qed.

Lemma replace_char_app (c d : ascii) (a b : string) :
  Str.replace_char c d (a ++ b)
  = Str.replace_char c d a ++ Str.replace_char c d b.
Proof. induction a as [|e a IH]; [reflexivity|]. cbn. now rewrite IH. Qed.

Lemma all_chars_removed (p : ascii -> bool) (c : ascii) (s : string) :
  Str.all_chars p (Str.remove_char c s) = true ->
  Str.all_chars (fun d => p d || Ascii.eqb d c) s = true.
Proof.
  induction s as [|d r IH]; [reflexivity|]. cbn.
  destruct (Ascii.eqb d c) eqn:E.
  - intros H. rewrite orb_true_r. now apply IH.
  - cbn. intros H. apply andb_true_iff in H as [Hd Hr].
    now rewrite Hd, IH.
Qed.

Lemma env_name_of_char (c : ascii) :
  is_ascii c = true ->
  (Str.isalnum_char c || Ascii.eqb c "-") || Ascii.eqb c "_" = true ->
  Str.all_chars env_name_char (Str.replace_char "-" "_" (Str.upper_char c))
  = true.
Proof.
  destruct c as [[] [] [] [] [] [] [] []]; vm_compute; congruence.
Qed.

Lemma accepted_name_chars (v : string) :
  validate_connection_name v = Ok v ->
  Str.all_chars
    (fun c => (Str.isalnum_char c || Ascii.eqb c "-") || Ascii.eqb c "_") v
  = true.
Proof.
  unfold validate_connection_name.
  destruct (Str.isalnum _) eqn:E; [|discriminate]. intros _.
  unfold Str.isalnum in E.
  destruct (Str.remove_char "-" (Str.remove_char "_" v)) eqn:Er; [discriminate|].
  rewrite <- Er in E. now apply all_chars_removed, all_chars_removed in E.
Qed.

Lemma env_name_of_string (v : string) :
  Str.all_chars is_ascii v = true ->
  Str.all_chars
    (fun c => (Str.isalnum_char c || Ascii.eqb c "-") || Ascii.eqb c "_") v
  = true ->
  Str.all_chars env_name_char (Str.replace_char "-" "_" (Str.upper v)) = true.
Proof.
  induction v as [|c r IH]; [reflexivity|]. cbn [Str.all_chars Str.upper].
  intros Ha Hn. apply andb_true_iff in Ha as [Hac Har].
  apply andb_true_iff in Hn as [Hnc Hnr].
  rewrite replace_char_app, all_chars_app.
  now rewrite env_name_of_char, IH.
Qed.

(** X2: for a connection whose name passed the validator and is ASCII,
    the names of its two environment variables, [GRAFANA_SESSION_...] and
    [GRAFANA_TIMEOUT_...], consist of capital letters, digits and
    underscores only. *)
Theorem env_var_names_well_formed (c : GrafanaConnection) :
  validate_connection_name (connection_name c) = Ok (connection_name c) ->
  Str.all_chars is_ascii (connection_name c) = true ->
  Str.all_chars env_name_char (get_env_var_name c) = true
  /\ Str.all_chars env_name_char (timeout_env_var c) = true.
Proof.
  intros Hv Ha. unfold get_env_var_name, timeout_env_var.
  rewrite !all_chars_app.
  rewrite (env_name_of_string _ Ha (accepted_name_chars _ Hv)).
  split; reflexivity.
Qed.

Lemma env_var_names_well_formed_witness :
  Str.all_chars env_name_char
    (get_env_var_name (mkConnection "grafana-ha" "" "" 30 true None)) = true.
Proof.
  apply (env_var_names_well_formed
           (mkConnection "grafana-ha" "" "" 30 true None)); reflexivity.
Defined.

Lemma upper_hyphens (n : string) :
  Str.replace_char "-" "_" (Str.upper (Str.replace_char "-" "_" n))
  = Str.replace_char "-" "_" (Str.upper n).
Proof.
  induction n as [|c r IH]; [reflexivity|].
  cbn [Str.replace_char Str.upper]. rewrite !replace_char_app, IH. f_equal.
  destruct (Ascii.eqb_spec c "-") as [->|_]; reflexivity.
Qed.

(** X3: the name of the session variable does not tell hyphens from
    underscores: a connection and the connection named alike with every
    hyphen turned into an underscore have the same variable, hence the same
    line of the credential file. *)
Theorem env_var_name_merges_hyphens (c : GrafanaConnection) :
  get_env_var_name
    (mkConnection (Str.replace_char "-" "_" (connection_name c)) (url c)
       (description c) (timeout c) (verify_ssl c) (session_token c))
  = get_env_var_name c.
Proof. unfold get_env_var_name. cbn. now rewrite upper_hyphens. Qed.

(** ** More on the credential file *)

Lemma startswith_own_line (key t : string) :
  Str.startswith (key ++ "=" ++ t) (key ++ "=") = true.
Proof.
  unfold Str.startswith. rewrite <- append_assoc. apply prefix_self_app.
Qed.

(** X4: persisting the same token a second time changes nothing, as long
    as the line written holds no line boundary. *)
Theorem persist_twice (k : GrafanaConnector) (w : World) (t : string) :
  one_line (get_env_var_name (connection k) ++ "=" ++ t) = true ->
  let st1 := fst (_persist_token_to_env t (k, w)) in
  _persist_token_to_env t st1 = (st1, Ok tt).
Proof.
  intros Hline st1. subst st1.
  destruct (env_file w) as [content|] eqn:Hf.
  - destruct (first_match_split (get_env_var_name (connection k) ++ "=")
                (Str.splitlines content))
      as [Hnone|(pre & l & post & Hs & Hpre & Hl)].
    + rewrite (persist_no_line k w t content Hf Hnone). cbn [fst].
      now apply (persist_no_line k w t content).
    + rewrite (persist_line k w t content l pre post Hf Hs Hpre Hl). cbn [fst].
      set (line' := (get_env_var_name (connection k) ++ "=" ++ t)%string) in *.
      set (content' := Str.join LF (pre ++ line' :: post)%list ++ LF).
      rewrite (persist_line k (set_env_file w (Some content')) t content'
                 line' pre post eq_refl
                 (written_lines content l line' pre post Hs Hline) Hpre
                 (startswith_own_line _ t)).
      reflexivity.
  - rewrite (persist_no_file k w t Hf). cbn [fst]. now apply persist_no_file.
Qed.

Lemma persist_twice_witness :
  let st1 := fst (_persist_token_to_env "new_token_456"
                    (Sample.connector, Sample.world_with_file)) in
  _persist_token_to_env "new_token_456" st1 = (st1, Ok tt).
Proof.
  apply (persist_twice Sample.connector Sample.world_with_file "new_token_456").
  reflexivity.
Defined.

Lemma prefix_cons (a b : ascii) (s1 s2 : string) :
  String.prefix (String a s1) (String b s2)
  = Ascii.eqb a b && String.prefix s1 s2.
Proof.
  change (String.prefix (String a s1) (String b s2))
    with (if ascii_dec a b then String.prefix s1 s2 else false).
  destruct (ascii_dec a b) as [->|Hne].
  - now rewrite Ascii.eqb_refl.
  - apply Ascii.eqb_neq in Hne. now rewrite Hne.
Qed.

Lemma keys_apart (k1 k2 l : string) :
  Str.contains "=" k1 = false ->
  Str.contains "=" k2 = false ->
  k2 <> k1 ->
  Str.startswith l (k1 ++ "=") = true ->
  Str.startswith l (k2 ++ "=") = false.
Proof.
  unfold Str.startswith. revert k2 l.
  induction k1 as [|a k1 IH]; intros k2 l H1 H2 Hne Hl.
  - destruct k2 as [|b k2]; [congruence|].
    apply contains_char_cons in H2 as [Hb _].
    destruct l as [|c l]; [reflexivity|].
    cbn [String.append] in *. rewrite prefix_cons in Hl |- *.
    apply andb_true_iff in Hl as [Hc _]. apply Ascii.eqb_eq in Hc. subst c.
    now rewrite Hb.
  - apply contains_char_cons in H1 as [Ha H1].
    destruct l as [|c l]; [discriminate|].
    cbn [String.append] in Hl. rewrite prefix_cons in Hl.
    apply andb_true_iff in Hl as [Hc Hl]. apply Ascii.eqb_eq in Hc. subst c.
    destruct k2 as [|b k2]; cbn [String.append]; rewrite prefix_cons.
    + rewrite Ascii.eqb_sym. now rewrite Ha.
    + destruct (Ascii.eqb_spec b a) as [->|_]; [|reflexivity].
      apply contains_char_cons in H2 as [_ H2]. cbn [andb].
      apply IH; [exact H1|exact H2|congruence|exact Hl].
Qed.

Lemma find_replaced {A : Type} (p : A -> bool) (pre post : list A) (x y : A) :
  p x = false -> p y = false ->
  find p (pre ++ y :: post) = find p (pre ++ x :: post).
Proof.
  intros Hx Hy. induction pre as [|z pre IH]; cbn.
  - now rewrite Hx, Hy.
  - now rewrite IH.
Qed.

(** X5: persisting the token of one connection leaves the entry of any
    other key of the credential file in place: the file has as many lines
    as before and the first line of the other key is the same.  The keys
    are taken free of [=], as variable names are. *)
Theorem persist_keeps_other_keys
    (k : GrafanaConnector) (w : World) (t key' content : string) :
  let key := get_env_var_name (connection k) in
  env_file w = Some content ->
  one_line (key ++ "=" ++ t) = true ->
  Str.contains "=" key = false ->
  Str.contains "=" key' = false ->
  key' <> key ->
  exists content',
    env_file (snd (fst (_persist_token_to_env t (k, w)))) = Some content'
    /\ length (Str.splitlines content') = length (Str.splitlines content)
    /\ find (fun l => Str.startswith l (key' ++ "=")) (Str.splitlines content')
       = find (fun l => Str.startswith l (key' ++ "=")) (Str.splitlines content).
Proof.
  intros key Hf Hline Hk Hk' Hne.
  destruct (first_match_split (key ++ "=") (Str.splitlines content))
    as [Hnone|(pre & l & post & Hs & Hpre & Hl)].
  - exists content. rewrite (persist_no_line k w t content Hf Hnone).
    repeat split. exact Hf.
  - rewrite (persist_line k w t content l pre post Hf Hs Hpre Hl). fold key.
    eexists. split; [reflexivity|].
    rewrite (written_lines content l _ pre post Hs Hline), Hs. split.
    + now rewrite !length_app.
    + apply find_replaced.
      * now apply (keys_apart key key').
      * apply (keys_apart key key'); try assumption.
        apply startswith_own_line.
Qed.

Lemma persist_keeps_other_keys_witness :
  exists content',
    env_file (snd (fst (_persist_token_to_env "new_token_456"
                          (Sample.connector, Sample.world_with_file))))
    = Some content'
    /\ length (Str.splitlines content') = 3%nat
    /\ find (fun l => Str.startswith l "OTHER=") (Str.splitlines content')
       = Some "OTHER=1".
Proof.
  destruct (persist_keeps_other_keys Sample.connector Sample.world_with_file
              "new_token_456" "OTHER" Sample.env_text
              eq_refl eq_refl eq_refl eq_refl ltac:(discriminate))
    as (content' & Hf & Hlen & Hfind).
  exists content'. split; [exact Hf|]. split; [exact Hlen|exact Hfind].
Defined.

(** ** What a connector method may do *)

Lemma read_step_refl (st : St) : read_step 0 st st.
Proof.
  split; [reflexivity|]. split; [easy|].
  exists []. now rewrite app_nil_r.
Qed.

Lemma read_step_trans (n1 n2 : nat) (a b c : St) :
  read_step n1 a b -> read_step n2 b c -> read_step (n1 + n2) a c.
Proof.
  intros (Hc1 & Hk1 & m1 & Hs1 & Hl1 & Hr1) (Hc2 & Hk2 & m2 & Hs2 & Hl2 & Hr2).
  split; [congruence|]. split; [auto|].
  exists (m1 ++ m2)%list. split; [|split].
  - now rewrite Hs2, Hs1, app_assoc.
  - rewrite length_app. lia.
  - now rewrite forallb_app, Hr1, Hr2.
Qed.

Lemma read_step_weaken (n n' : nat) (a b : St) :
  (n <= n')%nat -> read_step n a b -> read_step n' a b.
Proof.
  intros Hn (Hc & Hk & m & Hs & Hl & Hr).
  split; [exact Hc|]. split; [exact Hk|].
  exists m. split; [exact Hs|]. split; [lia|exact Hr].
Qed.

Lemma reads_only_ret {A : Type} (a : A) : reads_only 0 (ret a).
Proof. intros st. apply read_step_refl. Qed.

Lemma reads_only_lift {A : Type} (r : Result A) : reads_only 0 (lift r).
Proof. intros st. apply read_step_refl. Qed.

Lemma reads_only_raise {A : Type} (e : exn) : reads_only 0 (raise (A := A) e).
Proof. intros st. apply read_step_refl. Qed.

Lemma reads_only_bind {A B : Type} (n1 n2 : nat) (m : M A) (f : A -> M B) :
  reads_only n1 m -> (forall a, reads_only n2 (f a)) ->
  reads_only (n1 + n2) (bind m f).
Proof.
  intros Hm Hf st. specialize (Hm st). unfold bind.
  destruct (m st) as [st1 [a|e]]; cbn [fst] in *.
  - apply (read_step_trans _ _ _ st1); [exact Hm|apply Hf].
  - apply (read_step_weaken n1); [lia|exact Hm].
Qed.

Lemma reads_only_try {A : Type} (n1 n2 : nat) (m : M A) (h : exn -> M A) :
  reads_only n1 m -> (forall e, reads_only n2 (h e)) ->
  reads_only (n1 + n2) (try_except m h).
Proof.
  intros Hm Hh st. specialize (Hm st). unfold try_except.
  destruct (m st) as [st1 [a|e]]; cbn [fst] in *.
  - apply (read_step_weaken n1); [lia|exact Hm].
  - apply (read_step_trans _ _ _ st1); [exact Hm|apply Hh].
Qed.

Lemma reads_only_attempt {A : Type} (n : nat) (m : M A) :
  reads_only n m -> reads_only n (attempt m).
Proof.
  intros Hm st. specialize (Hm st). unfold attempt.
  now destruct (m st) as [st1 r].
Qed.

Lemma reads_only_weaken {A : Type} (n n' : nat) (m : M A) :
  (n <= n')%nat -> reads_only n m -> reads_only n' m.
Proof. intros Hn Hm st. now apply (read_step_weaken n). Qed.

Section RequestProperties.

Variable unquote : string -> string.
Variable load_dotenv : option string -> Env -> Env.
Variable net : list Request -> Request -> Outcome.

(** The two ends of [reload_session_token]. *)
Lemma reload_found (k : GrafanaConnector) (w : World) (tok : string) :
  let env := load_dotenv (env_file w) (environ w) in
  getenv env (get_env_var_name (connection k)) = Some tok ->
  tok <> "" ->
  reload_session_token load_dotenv (k, w)
  = ((set_connection k (set_session_token (connection k) (Some tok)),
      set_environ w env), Ok tok).
Proof.
  intros env Hg Hne. unfold reload_session_token. cbn [environ set_environ].
  fold env. rewrite Hg. apply String.eqb_neq in Hne. now rewrite Hne.
Qed.

Lemma reload_missing (k : GrafanaConnector) (w : World) :
  let env := load_dotenv (env_file w) (environ w) in
  getenv env (get_env_var_name (connection k)) = None
  \/ getenv env (get_env_var_name (connection k)) = Some "" ->
  reload_session_token load_dotenv (k, w)
  = ((k, set_environ w env),
     Raise (ValueError (missing_token_message (connection k)))).
Proof.
  intros env [Hg|Hg]; unfold reload_session_token; cbn [environ set_environ];
    fold env; now rewrite Hg.
Qed.

Lemma reload_cases (st : St) :
  (exists tok,
     tok <> ""
     /\ reload_session_token load_dotenv st
        = ((set_connection (fst st)
              (set_session_token (connection (fst st)) (Some tok)),
            set_environ (snd st)
              (load_dotenv (env_file (snd st)) (environ (snd st)))), Ok tok))
  \/ reload_session_token load_dotenv st
     = ((fst st,
         set_environ (snd st)
           (load_dotenv (env_file (snd st)) (environ (snd st)))),
        Raise (ValueError (missing_token_message (connection (fst st))))).
Proof.
  destruct st as [k w]. cbn [fst snd].
  destruct (getenv (load_dotenv (env_file w) (environ w))
              (get_env_var_name (connection k))) as [tok|] eqn:Hg.
  - destruct (String.eqb_spec tok "") as [->|Hne].
    + right. apply reload_missing. now right.
    + left. exists tok. split; [exact Hne|]. now apply reload_found.
  - right. apply reload_missing. now left.
Qed.

(** X6: [_get] sends nothing without a session token.  When the
    environment, as [load_dotenv] leaves it, has no value or an empty one
    for the connection's variable, [_get] raises the missing-token
    [ValueError], the connector is untouched and no request goes out; with
    a value, exactly one request is sent: the GET of the endpoint below
    [/api], with that value as its cookie. *)
Theorem get_needs_token
    (endpoint : string) (params : list (string * json))
    (k : GrafanaConnector) (w : World) :
  let env := load_dotenv (env_file w) (environ w) in
  let key := get_env_var_name (connection k) in
  let out := _get unquote load_dotenv net endpoint params (k, w) in
  (getenv env key = None \/ getenv env key = Some "" ->
   out = ((k, set_environ w env),
          Raise (ValueError (missing_token_message (connection k)))))
  /\ (forall tok,
        getenv env key = Some tok -> tok <> "" ->
        sent_of (fst out)
        = (sent w
           ++ [mkRequest GET ("/api" ++ endpoint) params None (Some tok)])%list).
Proof.
  intros env key out. split.
  - intros H. unfold out.
    now rewrite (get_without_token unquote load_dotenv net endpoint params _ _ _
                   (reload_missing k w H)).
  - intros tok Hg Hne. unfold out.
    now rewrite (get_sends_one unquote load_dotenv net endpoint params _ _ _
                   (reload_found k w tok Hg Hne)).
Qed.

Lemma get_found (endpoint : string) (params : list (string * json))
    (k : GrafanaConnector) (w : World) (tok : string) :
  let env := load_dotenv (env_file w) (environ w) in
  let req := mkRequest GET ("/api" ++ endpoint) params None (Some tok) in
  let st1 := answered_state load_dotenv k w tok req in
  getenv env (get_env_var_name (connection k)) = Some tok ->
  tok <> "" ->
  _get unquote load_dotenv net endpoint params (k, w)
  = match net (sent w) req with
    | TimedOut msg => translate_error (TimeoutException msg) st1
    | Failed msg => translate_error (LibraryError msg) st1
    | Responded r =>
        try_except
          (raise_for_status r ;;
           _check_and_update_session_cookie unquote r ;;
           lift (parsed r))
          translate_error st1
    end.
Proof.
  intros env req st1 Hg Hne. unfold _get, bind at 1 2.
  rewrite (reload_found k w tok Hg Hne). unfold cookies_set.
  unfold try_except at 1. unfold bind at 1. unfold client_send.
  cbn [client_cookie set_client_cookie sent set_environ]. fold req.
  destruct (net (sent w) req) as [msg|msg|r]; reflexivity.
Qed.

Lemma rotate_step (t : string) (st : St) :
  read_step 0 st (fst (rotate_if_changed t st)).
Proof.
  destruct st as [k w].
  destruct (session_token (connection k)) as [cur|] eqn:Hcur.
  - destruct (String.eqb_spec t cur) as [->|Hne].
    + rewrite rotate_unchanged by exact Hcur. apply read_step_refl.
    + pose proof (rotate_keeps_sent t (k, w)) as Hs.
      rewrite (rotate_changed t cur k w Hcur Hne) in *. cbn [fst] in *.
      split; [reflexivity|]. split; [reflexivity|].
      exists []. now rewrite app_nil_r.
  - unfold rotate_if_changed. cbn [fst]. rewrite Hcur. apply read_step_refl.
Qed.

Lemma scan_headers_step (hs : list string) (st : St) :
  read_step 0 st (fst (scan_headers unquote hs st)).
Proof.
  revert st. induction hs as [|h hs IH]; intros st; [apply read_step_refl|].
  rewrite scan_headers_cons.
  destruct (header_token unquote h) as [t|]; [|apply IH].
  unfold bind. pose proof (rotate_step t st) as Hr.
  destruct (rotate_if_changed t st) as [st' [[]|e]]; cbn [fst] in *.
  - apply (read_step_trans 0 0 _ st'); [exact Hr|apply IH].
  - exact Hr.
Qed.

Lemma answer_step (r : Response) (st1 : St) :
  read_step 0 st1
    (fst (try_except
            (raise_for_status r ;;
             _check_and_update_session_cookie unquote r ;;
             lift (parsed r))
            translate_error st1)).
Proof.
  unfold try_except, bind, raise_for_status.
  destruct (Z.leb 200 (status_code r) && Z.ltb (status_code r) 300)%bool.
  - unfold ret.
    pose proof (scan_headers_step (get_list "set-cookie" (headers r)) st1) as Hs.
    fold (_check_and_update_session_cookie unquote r) in Hs.
    destruct (_check_and_update_session_cookie unquote r st1) as [st2 [[]|e]];
      cbn [fst] in Hs.
    + unfold lift. destruct (parsed r) as [j|e]; [exact Hs|].
      now rewrite (proj1 (translate_error_keeps_state e st2)).
    + now rewrite (proj1 (translate_error_keeps_state e st2)).
  - unfold raise. rewrite (proj1 (translate_error_keeps_state _ st1)).
    apply read_step_refl.
Qed.

Lemma startswith_api (r : string) :
  Str.startswith ("/api" ++ String "/" r) "/api/" = true.
Proof. apply (prefix_self_app "/api/" r). Qed.

(** A [_get] of an endpoint that begins with a slash sends at most one
    request, a read, keeps the configuration, and leaves the cookie equal
    to the token. *)
Lemma reads_only_get (endpoint : string) (params : list (string * json)) :
  (exists r, endpoint = String "/" r) ->
  reads_only 1 (_get unquote load_dotenv net endpoint params).
Proof.
  intros [rest ->] [k w].
  destruct (getenv (load_dotenv (env_file w) (environ w))
              (get_env_var_name (connection k))) as [tok|] eqn:Hg.
  - destruct (String.eqb_spec tok "") as [->|Hne].
    + rewrite (get_without_token unquote load_dotenv net _ _ _ _ _
                 (reload_missing k w (or_intror Hg))).
      apply (read_step_weaken 0); [lia|]. cbn [fst].
      split; [reflexivity|]. split; [easy|]. exists []. now rewrite app_nil_r.
    + rewrite (get_found _ params k w tok Hg Hne).
      set (req := mkRequest GET ("/api" ++ String "/" rest) params None (Some tok)).
      assert (H1 : read_step 1 (k, w) (answered_state load_dotenv k w tok req)).
      { split; [reflexivity|]. split; [reflexivity|].
        exists [req]. split; [reflexivity|]. split; [cbn; lia|].
        cbn [forallb]. unfold read_request. cbn [req_method req_path req_body req].
        now rewrite startswith_api. }
      destruct (net (sent w) req) as [msg|msg|r].
      * now rewrite (proj1 (translate_error_keeps_state _ _)).
      * now rewrite (proj1 (translate_error_keeps_state _ _)).
      * apply (read_step_trans 1 0 _ (answered_state load_dotenv k w tok req));
          [exact H1|apply answer_step].
  - rewrite (get_without_token unquote load_dotenv net _ _ _ _ _
               (reload_missing k w (or_introl Hg))).
    apply (read_step_weaken 0); [lia|]. cbn [fst].
    split; [reflexivity|]. split; [easy|]. exists []. now rewrite app_nil_r.
Qed.


End RequestProperties.

(** ** The tools only read *)

Lemma dict_set_keys {A : Type} (k : string) (v v' : A) (d : list (string * A)) :
  dict_get k d = Some v -> dict_keys (dict_set k v' d) = dict_keys d.
Proof.
  induction d as [|[k0 v0] d IH]; [discriminate|]. cbn.
  destruct (String.eqb k k0); [reflexivity|].
  intros H. cbn. f_equal. now apply IH.
Qed.

Lemma dict_get_set_other {A : Type} (k k' : string) (v : A)
    (d : list (string * A)) :
  k' <> k -> dict_get k' (dict_set k v d) = dict_get k' d.
Proof.
  intros Hne. induction d as [|[k0 v0] d IH]; cbn.
  - apply String.eqb_neq in Hne. now rewrite Hne.
  - destruct (String.eqb_spec k k0) as [->|Hk]; cbn.
    + apply String.eqb_neq in Hne. now rewrite Hne.
    + now rewrite IH.
Qed.

Lemma dict_set_map {A B : Type} (f : A -> B) (k : string) (v v' : A)
    (d : list (string * A)) :
  dict_get k d = Some v -> f v' = f v ->
  map (fun e => (fst e, f (snd e))) (dict_set k v' d)
  = map (fun e => (fst e, f (snd e))) d.
Proof.
  intros Hg Hf. induction d as [|[k0 v0] d IH]; [discriminate|]. cbn in *.
  destruct (String.eqb k k0); cbn.
  - inversion Hg; subst. now rewrite Hf.
  - now rewrite IH.
Qed.



Lemma list_connections_by_config (reg reg' : Registry) :
  map (fun e => (fst e, config_of (snd e))) reg'
  = map (fun e => (fst e, config_of (snd e))) reg ->
  list_connections reg' = list_connections reg.
Proof.
  intros H.
  assert (E : map (fun e => connection_info (fst e) (snd e)) (connections reg')
              = map (fun e => connection_info (fst e) (snd e)) (connections reg)).
  { unfold connections. rewrite !map_map. cbn [fst snd].
    revert reg' H. induction reg as [|[n k] reg IH]; intros [|[n' k'] reg'] H;
      try discriminate; [reflexivity|].
    cbn in H. inversion H as [[Hn Hc Hcl Hrest]]. cbn. f_equal.
    - unfold connection_info. unfold public_fields in Hc.
      inversion Hc. congruence.
    - now apply IH. }
  destruct reg as [|e reg], reg' as [|e' reg']; try discriminate; [reflexivity|].
  rewrite !list_connections_entries by congruence. now rewrite E.
Qed.

Section ToolProperties.

Variable unquote : string -> string.
Variable load_dotenv : option string -> Env -> Env.
Variable net : list Request -> Request -> Outcome.

Ltac reads :=
  repeat first
    [ apply reads_only_ret
    | apply reads_only_lift
    | apply reads_only_raise
    | apply reads_only_get; eexists; reflexivity
    | apply reads_only_attempt
    | eapply reads_only_bind; [|intros ?]
    | eapply reads_only_try; [|intros ?] ].

Ltac reads_at_most := eapply reads_only_weaken; [|reads]; cbn; lia.

Lemma reads_only_legacy_alerts :
  reads_only 1 (_list_legacy_alerts unquote load_dotenv net).
Proof. unfold _list_legacy_alerts. reads_at_most. Qed.

Lemma reads_only_list_alerts (folder_uid : option string) :
  reads_only 2 (list_alerts unquote load_dotenv net folder_uid).
Proof.
  unfold list_alerts. apply (reads_only_bind 1 1).
  - apply reads_only_attempt, reads_only_get. eexists. reflexivity.
  - intros [rules|e]; [|apply reads_only_legacy_alerts].
    apply (reads_only_weaken 0); [lia|apply reads_only_lift].
Qed.

Lemma reads_only_get_dashboard (uid : string) :
  reads_only 1 (get_dashboard unquote load_dotenv net uid).
Proof. unfold get_dashboard. reads_at_most. Qed.

Lemma reads_only_query_prometheus
    (ds query : string) (time_from time_to step : option string) :
  reads_only 1
    (query_prometheus unquote load_dotenv net ds query time_from time_to step).
Proof.
  unfold query_prometheus. cbv zeta. apply reads_only_get.
  destruct (opt_truthy step); eexists; reflexivity.
Qed.

(** Every tool that takes a connection name runs, on the connector of
    that name, a method that only reads and sends at most two requests. *)
Lemma call_tool_method (c : ToolCall) (name : string) :
  call_connection_name c = Some name ->
  exists method : M json,
    reads_only 2 method
    /\ forall s, call_tool unquote load_dotenv net c s
                 = with_connector name method s.
Proof.
  intros Hc.
  destruct c; cbn in Hc; inversion Hc; subst; cbn [call_tool];
    eexists; (split; [|reflexivity]);
    try apply reads_only_list_alerts;
    try (apply (reads_only_weaken 1); [lia|apply reads_only_query_prometheus]);
    try (unfold get_health, search_dashboards, get_dashboard_info,
           get_dashboard_panel, get_dashboard, get_dashboard_panels,
           list_folders, list_datasources, query_loki, get_current_org,
           list_users, list_teams, get_alert_rule_by_uid,
           list_folder_dashboards, list_annotations, get_dashboard_versions;
         cbv zeta; reads_at_most).
Qed.

(** The step a tool call makes on the connector it is addressed to. *)
Lemma with_connector_step (name : string) (method : M json)
    (reg : Registry) (w : World) (k : GrafanaConnector) :
  reads_only 2 method ->
  dict_get name reg = Some k ->
  exists k' w' r,
    with_connector name method (reg, w) = ((dict_set name k' reg, w'), r)
    /\ read_step 2 (k, w) (k', w').
Proof.
  intros Hm Hg. unfold with_connector. rewrite Hg.
  specialize (Hm (k, w)).
  destruct (method (k, w)) as [[k' w'] r]. now exists k', w', r.
Qed.

Lemma with_connector_unknown (name : string) (method : M json)
    (reg : Registry) (w : World) :
  dict_get name reg = None ->
  fst (with_connector name method (reg, w)) = (reg, w).
Proof. intros Hg. unfold with_connector. now rewrite Hg. Qed.

(** X8: no tool call changes what the connections are configured with.
    After any call the registry has the same names in the same order, every
    connector has the same name, URL, description, timeout, TLS flag and
    client settings, the connectors other than the one addressed are
    untouched, and [list_connections] answers as before. *)
Theorem tool_call_keeps_configuration
    (c : ToolCall) (reg : Registry) (w : World) :
  let reg' := fst (fst (call_tool unquote load_dotenv net c (reg, w))) in
  dict_keys reg' = dict_keys reg
  /\ map (fun e => (fst e, config_of (snd e))) reg'
     = map (fun e => (fst e, config_of (snd e))) reg
  /\ list_connections reg' = list_connections reg
  /\ forall other,
       call_connection_name c <> Some other ->
       dict_get other reg' = dict_get other reg.
Proof.
  intros reg'.
  assert (H : dict_keys reg' = dict_keys reg
              /\ map (fun e => (fst e, config_of (snd e))) reg'
                 = map (fun e => (fst e, config_of (snd e))) reg
              /\ forall other,
                   call_connection_name c <> Some other ->
                   dict_get other reg' = dict_get other reg).
  { subst reg'. destruct (call_connection_name c) as [name|] eqn:Hc.
    - destruct (call_tool_method c name Hc) as (method & Hm & ->).
      destruct (dict_get name reg) as [k|] eqn:Hg.
      + destruct (with_connector_step name method reg w k Hm Hg)
          as (k' & w' & r & -> & Hcfg & _).
        cbn [fst] in *. repeat split.
        * now apply (dict_set_keys name k).
        * now apply (dict_set_map config_of name k).
        * intros other Hne. apply dict_get_set_other. congruence.
      + now rewrite (with_connector_unknown name method reg w Hg).
    - destruct c; try discriminate. now cbn. }
  destruct H as (Hk & Hc & Ho). repeat split; try assumption.
  now apply list_connections_by_config.
Qed.




End ToolProperties.

(** ** Single operations *)

Lemma find_panel_none (panel_id : Z) (panels : list json) :
  Forall (fun p => is_dict p = true) panels ->
  forallb (fun p => negb (panel_has_id panel_id p)) panels = true ->
  find_panel panel_id panels = Ok None.
Proof.
  induction 1 as [|p ps Hp _ IH]; [reflexivity|]. cbn [forallb find_panel].
  intros H. apply andb_true_iff in H as [Hn Hr].
  destruct p; try discriminate. unfold panel_has_id in Hn. cbn in Hn |- *.
  apply negb_true_iff in Hn. rewrite Hn. now apply IH.
Qed.

Lemma find_panel_first (panel_id : Z) (pre post : list json) (p : json) :
  Forall (fun p => is_dict p = true) pre ->
  forallb (fun p => negb (panel_has_id panel_id p)) pre = true ->
  panel_has_id panel_id p = true ->
  find_panel panel_id (pre ++ p :: post) = Ok (Some p).
Proof.
  intros Hpre Hno Hp. induction Hpre as [|q qs Hq _ IH].
  - cbn. unfold panel_has_id in Hp.
    destruct (Py.get p "id" JNull) as [id|e]; [|discriminate].
    cbn. now rewrite Hp.
  - cbn [forallb] in Hno. apply andb_true_iff in Hno as [Hn Hr].
    destruct q; try discriminate. unfold panel_has_id in Hn.
    cbn in Hn |- *. apply negb_true_iff in Hn. rewrite Hn. now apply IH.
Qed.

Section OperationProperties.

Variable unquote : string -> string.
Variable load_dotenv : option string -> Env -> Env.
Variable net : list Request -> Request -> Outcome.

(** X11: [get_dashboard_panel] on a dashboard whose panels are objects.
    It returns the first panel whose [id] equals the one asked for, whole
    and unchanged; when no panel has that id it raises the error that names
    the panel id and the dashboard uid. *)
Theorem get_dashboard_panel_first_match
    (uid : string) (panel_id : Z) (st st1 : St)
    (result dashboard : json) (panels : list json) :
  _get unquote load_dotenv net ("/dashboards/uid/" ++ uid) [] st
  = (st1, Ok result) ->
  Py.get result "dashboard" (JDict []) = Ok dashboard ->
  Py.get dashboard "panels" (JList []) = Ok (JList panels) ->
  Forall (fun p => is_dict p = true) panels ->
  (forallb (fun p => negb (panel_has_id panel_id p)) panels = true ->
   get_dashboard_panel unquote load_dotenv net uid panel_id st
   = (st1, Raise (Exception ("Panel with id " ++ Py.str_int panel_id
                    ++ " not found in dashboard " ++ uid))))
  /\ (forall pre p post,
        panels = (pre ++ p :: post)%list ->
        forallb (fun p => negb (panel_has_id panel_id p)) pre = true ->
        panel_has_id panel_id p = true ->
        get_dashboard_panel unquote load_dotenv net uid panel_id st
        = (st1, Ok p)).
Proof.
  intros Hget Hd Hp Hall.
  assert (E : get_dashboard_panel unquote load_dotenv net uid panel_id st
              = (st1, let? found := find_panel panel_id panels in
                      match found with
                      | Some panel => Ok panel
                      | None => Raise (Exception
                          ("Panel with id " ++ Py.str_int panel_id
                           ++ " not found in dashboard " ++ uid))
                      end)).
  { unfold get_dashboard_panel, bind. rewrite Hget. unfold lift.
    rewrite Hd. cbn [rbind]. rewrite Hp. reflexivity. }
  rewrite E. split.
  - intros Hno. now rewrite find_panel_none.
  - intros pre p post -> Hno Hhas.
    apply Forall_app in Hall as [Hpre _].
    now rewrite find_panel_first.
Qed.

(** X12: [get_health] once [/health] answered with an object: it never
    raises and returns that object with the key [version] set.  The version
    is ['unknown'] when the settings call fails, and the [version] of
    [buildInfo] when the settings have one.  When [/health] answers with
    anything but an object, [get_health] raises a [TypeError], whatever the
    settings call gives. *)
Theorem get_health_version (st st1 : St) (health : json) :
  _get unquote load_dotenv net "/health" [] st = (st1, Ok health) ->
  (forall d, health = JDict d ->
     (exists st2 v,
        get_health unquote load_dotenv net st
        = (st2, Ok (JDict (dict_set "version" v d))))
     /\ (forall st2 e,
           _get unquote load_dotenv net "/frontend/settings" [] st1
           = (st2, Raise e) ->
           get_health unquote load_dotenv net st
           = (st2, Ok (JDict (dict_set "version" (JStr "unknown") d))))
     /\ (forall st2 settings build_info v,
           _get unquote load_dotenv net "/frontend/settings" [] st1
           = (st2, Ok (JDict settings)) ->
           dict_get "buildInfo" settings = Some (JDict build_info) ->
           dict_get "version" build_info = Some v ->
           get_health unquote load_dotenv net st
           = (st2, Ok (JDict (dict_set "version" v d)))))
  /\ (is_dict health = false ->
      exists st2 msg,
        get_health unquote load_dotenv net st = (st2, Raise (TypeError msg))).
Proof.
  intros Hget.
  assert (E : get_health unquote load_dotenv net st
              = try_except
                  (settings <- _get unquote load_dotenv net
                                 "/frontend/settings" [] ;;
                   lift (let? build_info :=
                           Py.get settings "buildInfo" (JDict []) in
                         let? version :=
                           Py.get build_info "version" (JStr "unknown") in
                         Py.setitem health "version" version))
                  (fun _ => lift (Py.setitem health "version" (JStr "unknown")))
                  st1).
  { unfold get_health. unfold bind at 1. now rewrite Hget. }
  rewrite E. clear E. unfold try_except, bind, lift. split.
  - intros d ->. split; [|split].
    + destruct (_get unquote load_dotenv net "/frontend/settings" [] st1)
        as [st2 [settings|e]].
      * destruct (Py.get settings "buildInfo" (JDict [])) as [b|e]; cbn [rbind].
        -- destruct (Py.get b "version" (JStr "unknown")) as [v|e]; cbn.
           ++ now exists st2, v.
           ++ now exists st2, (JStr "unknown").
        -- now exists st2, (JStr "unknown").
      * now exists st2, (JStr "unknown").
    + intros st2 e H. now rewrite H.
    + intros st2 settings b v H Hb Hv. rewrite H. cbn. rewrite Hb. cbn.
      now rewrite Hv.
  - intros Hnd.
    destruct (_get unquote load_dotenv net "/frontend/settings" [] st1)
      as [st2 [settings|e]].
    + destruct (Py.get settings "buildInfo" (JDict [])) as [b|e]; cbn [rbind].
      * destruct (Py.get b "version" (JStr "unknown")) as [v|e]; cbn [rbind];
          destruct health; try discriminate; eexists; eexists; reflexivity.
      * destruct health; try discriminate; eexists; eexists; reflexivity.
    + destruct health; try discriminate; eexists; eexists; reflexivity.
Qed.

(** X13: the fallback of [list_alerts] covers the request only.  When the
    rules endpoint answers with JSON that is not an object, [list_alerts]
    raises an [AttributeError] from the state the one request left: the
    legacy endpoint is not tried and no empty list is returned. *)
Theorem list_alerts_needs_object
    (folder_uid : option string) (st st1 : St) (rules : json) :
  _get unquote load_dotenv net unified_rules_endpoint [] st = (st1, Ok rules) ->
  is_dict rules = false ->
  exists msg,
    list_alerts unquote load_dotenv net folder_uid st
    = (st1, Raise (AttributeError msg)).
Proof.
  intros Hget Hnd. unfold list_alerts, bind, attempt. rewrite Hget.
  unfold lift. destruct rules; try discriminate; eexists; reflexivity.
Qed.

End OperationProperties.

(** ** Shaped results *)

Lemma pick_dict (d : list (string * json)) (fields : list (string * string * json)) :
  pick (JDict d) fields
  = Ok (map (fun f => (fst (fst f), field d (snd (fst f)) (snd f))) fields).
Proof.
  unfold pick. induction fields as [|[[out key] default] r IH]; [reflexivity|].
  cbn in IH |- *. now rewrite IH.
Qed.

Lemma shape_each_dicts (fields : list (string * string * json))
    (ds : list (list (string * json))) :
  shape_each fields (JList (map JDict ds))
  = Ok (JList (map (fun d =>
                      JDict (map (fun f => (fst (fst f),
                                            field d (snd (fst f)) (snd f)))
                                 fields)) ds)).
Proof.
  unfold shape_each. cbn [Py.iter rbind].
  assert (E : mapR (fun x => let? d := pick x fields in Ok (JDict d))
                (map JDict ds)
              = Ok (map (fun d =>
                           JDict (map (fun f => (fst (fst f),
                                                 field d (snd (fst f)) (snd f)))
                                      fields)) ds)).
  { induction ds as [|d ds IH]; [reflexivity|].
    cbn [map mapR]. rewrite pick_dict. cbn [rbind]. now rewrite IH. }
  now rewrite E.
Qed.

Lemma shape_each_not_dict (fields : list (string * string * json))
    (f : string * string * json)
    (pre : list (list (string * json))) (x : json) (post : list json) :
  is_dict x = false ->
  exists msg,
    shape_each (f :: fields) (JList (map JDict pre ++ x :: post))
    = Raise (AttributeError msg).
Proof.
  intros Hx. unfold shape_each. cbn [Py.iter rbind].
  induction pre as [|d pre [msg IH]].
  - cbn [map app mapR]. unfold pick. destruct f as [[out key] default].
    cbn [mapR]. destruct x; try discriminate; eexists; reflexivity.
  - exists msg. cbn [map app mapR]. rewrite pick_dict. cbn [rbind].
    destruct (mapR _ (map JDict pre ++ x :: post)%list) as [r|e];
      cbn [rbind] in *; [discriminate|]. now inversion IH.
Qed.

Section ShapeProperties.

Variable unquote : string -> string.
Variable load_dotenv : option string -> Env -> Env.
Variable net : list Request -> Request -> Outcome.

(** X14: [search_dashboards] on an answer that lists objects: it returns
    one entry per object, in the same order, each with exactly the seven
    keys of the documented shape; a key absent upstream gives [None], an
    empty tag list for [tags] and ["General"] for the folder title.  An
    element of the answer that is not an object makes the whole call raise
    an [AttributeError]. *)
Theorem search_dashboards_entries
    (query tag : option string) (st st1 : St) (answer : json) :
  let params := ([("type", JStr "dash-db")]
                 ++ opt_param "query" query ++ opt_param "tag" tag)%list in
  _get unquote load_dotenv net "/search" params st = (st1, Ok answer) ->
  (forall ds,
     answer = JList (map JDict ds) ->
     exists entries,
       search_dashboards unquote load_dotenv net query tag st
       = (st1, Ok (JList entries))
       /\ length entries = length ds
       /\ forall i d,
            nth_error ds i = Some d ->
            nth_error entries i
            = Some (JDict [("uid", field d "uid" JNull);
                           ("title", field d "title" JNull);
                           ("url", field d "url" JNull);
                           ("type", field d "type" JNull);
                           ("tags", field d "tags" (JList []));
                           ("folder_title",
                            field d "folderTitle" (JStr "General"));
                           ("folder_uid", field d "folderUid" JNull)]))
  /\ (forall pre x post,
        answer = JList (map JDict pre ++ x :: post) ->
        is_dict x = false ->
        exists msg,
          search_dashboards unquote load_dotenv net query tag st
          = (st1, Raise (AttributeError msg))).
Proof.
  intros params Hget. split.
  - intros ds ->. eexists. split; [|split].
    + unfold search_dashboards, bind. fold params. rewrite Hget. unfold lift.
      now rewrite shape_each_dicts.
    + now rewrite length_map.
    + intros i d Hi. rewrite nth_error_map, Hi. reflexivity.
  - intros pre x post -> Hx.
    destruct (shape_each_not_dict
                [("title", "title", JNull); ("url", "url", JNull);
                 ("type", "type", JNull); ("tags", "tags", JList []);
                 ("folder_title", "folderTitle", JStr "General");
                 ("folder_uid", "folderUid", JNull)]
                ("uid", "uid", JNull) pre x post Hx) as [msg Hm].
    exists msg. unfold search_dashboards, bind. fold params. rewrite Hget.
    unfold lift. now rewrite Hm.
Qed.

Lemma take_length (n : nat) (s : string) :
  (String.length (Py.take n s) <= n)%nat.
Proof.
  revert s. induction n as [|n IH]; intros [|c s]; cbn; try lia.
  specialize (IH s). lia.
Qed.

Lemma panel_minimal_plain (d : list (string * json)) :
  plain_description d = true ->
  exists t,
    panel_minimal (JDict d)
    = Ok (JDict [("id", field d "id" JNull); ("title", field d "title" JNull);
                 ("type", field d "type" JNull);
                 ("gridPos", field d "gridPos" JNull);
                 ("description", JStr t)])
    /\ (String.length t <= 100)%nat.
Proof.
  unfold plain_description, panel_minimal. rewrite pick_dict.
  cbn [rbind map fst snd Py.get app].
  destruct (dict_get "description" d) as [[| | | |s| |]|]; try discriminate;
    intros _.
  - exists "". split; [reflexivity|cbn; lia].
  - destruct s as [|c s].
    + exists "". split; [reflexivity|cbn; lia].
    + exists (Py.take 100 (String c s)). split; [reflexivity|apply take_length].
  - exists "". split; [reflexivity|cbn; lia].
Qed.

Lemma panels_minimal_plain (ps : list (list (string * json))) :
  forallb plain_description ps = true ->
  exists summaries,
    mapR panel_minimal (map JDict ps) = Ok summaries
    /\ length summaries = length ps
    /\ Forall (fun s => exists t, Py.get s "description" JNull = Ok (JStr t)
                                  /\ (String.length t <= 100)%nat) summaries.
Proof.
  induction ps as [|d ps IH]; cbn [forallb].
  - intros _. exists []. repeat split. constructor.
  - intros H. apply andb_true_iff in H as [Hd Hps].
    destruct (IH Hps) as (summaries & Hm & Hl & Hall).
    destruct (panel_minimal_plain d Hd) as (t & Hp & Ht).
    eexists. cbn [map mapR]. rewrite Hp. cbn [rbind]. rewrite Hm. cbn [rbind].
    split; [reflexivity|]. split; [cbn; now rewrite Hl|].
    constructor; [|exact Hall]. exists t. split; [reflexivity|exact Ht].
Qed.

(** X15: [get_dashboard_info] on a dashboard whose panels are objects with
    a textual (or no) description: the summary counts all the panels, has
    one entry per panel, and every description in it is a string of at most
    100 characters. *)
Theorem get_dashboard_info_summary
    (uid : string) (st st1 : St) (result : json)
    (dashboard meta : list (string * json))
    (ps : list (list (string * json))) :
  _get unquote load_dotenv net ("/dashboards/uid/" ++ uid) [] st
  = (st1, Ok result) ->
  Py.get result "dashboard" (JDict []) = Ok (JDict dashboard) ->
  Py.get result "meta" (JDict []) = Ok (JDict meta) ->
  field dashboard "panels" (JList []) = JList (map JDict ps) ->
  forallb plain_description ps = true ->
  exists info summaries,
    get_dashboard_info unquote load_dotenv net uid st = (st1, Ok (JDict info))
    /\ dict_get "panels_summary" info
       = Some (JDict [("total_count", JInt (Z.of_nat (length ps)));
                      ("panels", JList summaries)])
    /\ length summaries = length ps
    /\ Forall (fun s => exists t, Py.get s "description" JNull = Ok (JStr t)
                                  /\ (String.length t <= 100)%nat) summaries.
Proof.
  intros Hget Hd Hm Hp Hplain.
  destruct (panels_minimal_plain ps Hplain) as (summaries & Hs & Hl & Hall).
  eexists. exists summaries. split; [|split; [|split; [exact Hl|exact Hall]]].
  - unfold get_dashboard_info, bind. rewrite Hget. unfold lift.
    rewrite Hd. cbn [rbind]. rewrite Hm. cbn [rbind].
    cbn [Py.get]. fold (field dashboard "panels" (JList [])). rewrite Hp.
    cbn [rbind Py.iter]. rewrite Hs. cbn [rbind].
    rewrite !pick_dict. cbn [rbind]. reflexivity.
  - rewrite Hl. reflexivity.
Qed.

End ShapeProperties.

(** ** The registry and the configuration loader *)

Lemma dict_set_in_keys {A : Type} (n k : string) (v : A)
    (d : list (string * A)) :
  In n (dict_keys (dict_set k v d)) <-> n = k \/ In n (dict_keys d).
Proof.
  induction d as [|[k0 v0] d IH]; cbn.
  - intuition congruence.
  - destruct (String.eqb_spec k k0) as [->|Hne]; cbn.
    + intuition congruence.
    + rewrite IH. intuition congruence.
Qed.

Lemma dict_set_nodup {A : Type} (k : string) (v : A) (d : list (string * A)) :
  NoDup (dict_keys d) -> NoDup (dict_keys (dict_set k v d)).
Proof.
  induction d as [|[k0 v0] d IH]; cbn; intros H.
  - constructor; [easy|constructor].
  - inversion H as [|? ? Hnin Hd]; subst.
    destruct (String.eqb_spec k k0) as [->|Hne]; cbn.
    + now constructor.
    + constructor; [|now apply IH].
      fold (dict_keys (dict_set k v d)). rewrite dict_set_in_keys.
      intros [->|Hin]; [congruence|]. now apply Hnin.
Qed.

Lemma dict_get_set_same {A : Type} (k : string) (v : A) (d : list (string * A)) :
  dict_get k (dict_set k v d) = Some v.
Proof.
  induction d as [|[k0 v0] d IH]; cbn.
  - now rewrite String.eqb_refl.
  - destruct (String.eqb_spec k k0) as [->|Hne]; cbn.
    + now rewrite String.eqb_refl.
    + apply String.eqb_neq in Hne. now rewrite Hne.
Qed.

Lemma dict_set_Forall_entries {A : Type} (Q : string * A -> Prop)
    (k : string) (v : A) (d : list (string * A)) :
  Forall Q d -> Q (k, v) -> Forall Q (dict_set k v d).
Proof.
  intros Hall Hv. induction Hall as [|[k0 v0] d H0 Hd IH]; cbn.
  - now repeat constructor.
  - destruct (String.eqb_spec k k0) as [->|_]; constructor; auto.
Qed.

Lemma load_connections_keys (conns : list GrafanaConnection) (reg : Registry)
    (n : string) :
  In n (dict_keys (_load_connections conns reg))
  <-> In n (dict_keys reg) \/ In n (map connection_name conns).
Proof.
  revert reg. induction conns as [|c conns IH]; intros reg;
    cbn [_load_connections map In].
  - intuition.
  - rewrite IH, dict_set_in_keys. intuition congruence.
Qed.

Lemma load_connections_nodup (conns : list GrafanaConnection) (reg : Registry) :
  NoDup (dict_keys reg) -> NoDup (dict_keys (_load_connections conns reg)).
Proof.
  revert reg. induction conns as [|c conns IH]; intros reg H; [exact H|].
  cbn. now apply IH, dict_set_nodup.
Qed.

Lemma load_connections_other (conns : list GrafanaConnection) (reg : Registry)
    (n : string) :
  (forall c, In c conns -> connection_name c <> n) ->
  dict_get n (_load_connections conns reg) = dict_get n reg.
Proof.
  revert reg. induction conns as [|c conns IH]; intros reg H; [reflexivity|].
  cbn. rewrite IH by (intros c' Hc'; apply H; now right).
  apply dict_get_set_other. intros ->. now apply (H c); [left|].
Qed.

Lemma load_connections_last (pre post : list GrafanaConnection)
    (c : GrafanaConnection) (reg : Registry) :
  (forall c', In c' post -> connection_name c' <> connection_name c) ->
  dict_get (connection_name c) (_load_connections (pre ++ c :: post) reg)
  = Some (GrafanaConnector_new c).
Proof.
  intros Hpost. revert reg. induction pre as [|p pre IH]; intros reg.
  - cbn. rewrite load_connections_other by exact Hpost.
    apply dict_get_set_same.
  - cbn. apply IH.
Qed.

Lemma load_connections_entries
    (Q : string * GrafanaConnector -> Prop)
    (conns : list GrafanaConnection) (reg : Registry) :
  Forall Q reg ->
  (forall c, In c conns -> Q (connection_name c, GrafanaConnector_new c)) ->
  Forall Q (_load_connections conns reg).
Proof.
  revert reg. induction conns as [|c conns IH]; intros reg Hreg Hc; [exact Hreg|].
  cbn. apply IH.
  - apply dict_set_Forall_entries; [exact Hreg|]. apply Hc. now left.
  - intros c' Hin. apply Hc. now right.
Qed.

(** X16: the registry [_load_connections] builds from a list of
    connections has every name once, has exactly the names of the list,
    holds each connector under the name of its own connection, and, where
    several connections share a name, keeps the connector of the last
    one. *)
Theorem load_connections_registry (conns : list GrafanaConnection) :
  let reg := _load_connections conns [] in
  NoDup (dict_keys reg)
  /\ (forall n, In n (dict_keys reg) <-> In n (map connection_name conns))
  /\ Forall (fun e => fst e = connection_name (connection (snd e))) reg
  /\ (forall pre c post,
        conns = (pre ++ c :: post)%list ->
        (forall c', In c' post -> connection_name c' <> connection_name c) ->
        dict_get (connection_name c) reg = Some (GrafanaConnector_new c)).
Proof.
  intros reg. subst reg. split; [|split; [|split]].
  - apply load_connections_nodup. constructor.
  - intros n. rewrite load_connections_keys. cbn. intuition.
  - apply (load_connections_entries
             (fun e => fst e = connection_name (connection (snd e))));
      [constructor|reflexivity].
  - intros pre c post -> Hpost. now apply load_connections_last.
Qed.

Section LoaderProperties.

Variable load_dotenv_keep : option string -> Env -> Env.
Variable parse_int : string -> option Z.

Lemma new_connection_ok (name u : string) (descr : option string)
    (tmo : option Z) (verify : option bool) (token : option string)
    (c : GrafanaConnection) :
  GrafanaConnection_new name u descr tmo verify token = Ok c ->
  connection_name c = name
  /\ validate_connection_name name = Ok name
  /\ url c = remove_trailing_slash u.
Proof.
  unfold GrafanaConnection_new.
  destruct (validate_connection_name name) as [n|e] eqn:Hv; [|discriminate].
  assert (n = name) as ->.
  { unfold validate_connection_name in Hv.
    destruct (negb _); [discriminate|]. now inversion Hv. }
  intros H. inversion H; subst. now cbn.
Qed.

Lemma process_connection_loaded (conn_data : ConnData) (w w' : World)
    (c : GrafanaConnection) :
  _process_connection load_dotenv_keep parse_int conn_data w = (w', Ok c) ->
  connection_name c = cd_connection_name conn_data /\ loaded c.
Proof.
  unfold _process_connection.
  destruct (GrafanaConnection_new _ _ _ _ _ _) as [c0|e] eqn:Hn; [|discriminate].
  apply new_connection_ok in Hn as (Hname & Hvalid & Hurl).
  destruct (getenv _ (get_env_var_name c0)) as [tok|]; [|discriminate].
  destruct (String.eqb_spec tok "") as [->|Hne]; [discriminate|].
  assert (Hc0 : forall t, loaded (set_session_token c0 (Some tok))
                         /\ loaded (set_timeout
                                      (set_session_token c0 (Some tok)) t)).
  { intros t. unfold loaded. cbn. rewrite Hname, Hurl.
    repeat split; try (now exists tok); try exact Hvalid;
      apply rstrip_char_no_end. }
  destruct (getenv _ (timeout_env_var _)) as [o|].
  - destruct (String.eqb o "").
    + intros H. inversion H; subst. split; [exact Hname|apply (Hc0 0%Z)].
    + destruct (parse_int o) as [n|]; intros H; inversion H; subst;
        (split; [exact Hname|apply (Hc0 n) || apply (Hc0 0%Z)]).
  - intros H. inversion H; subst. split; [exact Hname|apply (Hc0 0%Z)].
Qed.

Lemma process_connections_loaded (raw : list ConnData) (w w' : World)
    (conns : list GrafanaConnection) :
  process_connections load_dotenv_keep parse_int raw w = (w', Ok conns) ->
  map connection_name conns = map cd_connection_name raw
  /\ Forall loaded conns.
Proof.
  revert w conns. induction raw as [|d raw IH]; intros w conns; cbn.
  - intros H. inversion H; subst. split; [reflexivity|constructor].
  - destruct (_process_connection load_dotenv_keep parse_int d w)
      as [w1 [c|e]] eqn:Hp; [|discriminate].
    destruct (process_connections load_dotenv_keep parse_int raw w1)
      as [w2 [cs|e]] eqn:Hr; [|discriminate].
    intros H. inversion H; subst.
    destruct (process_connection_loaded d w w1 c Hp) as [Hn Hl].
    destruct (IH w1 cs Hr) as [Hns Hls].
    split; [cbn; now rewrite Hn, Hns|now constructor].
Qed.

(** X17: what [load_config] returns, when it returns: one connection per
    entry of the file, in order and under the names of the entries, each
    with a session token that is not empty, a name the validator accepts
    and a URL that does not end with a slash.  A list is never returned in
    part. *)
Theorem load_config_connections
    (config_path : string) (raw : list ConnData) (w w' : World)
    (conns : list GrafanaConnection) :
  load_config load_dotenv_keep parse_int config_path (Some raw) w
  = (w', ConfigLoaded conns) ->
  length conns = length raw
  /\ map connection_name conns = map cd_connection_name raw
  /\ Forall loaded conns.
Proof.
  unfold load_config.
  destruct (process_connections load_dotenv_keep parse_int raw w)
    as [w1 [cs|e]] eqn:Hp; [|discriminate].
  intros H. inversion H; subst.
  destruct (process_connections_loaded raw w w' conns Hp) as [Hn Hl].
  split; [|split; [exact Hn|exact Hl]].
  rewrite <- (length_map connection_name), Hn. apply length_map.
Qed.

(** X18: the registry a server starts with.  Without a configuration file
    it is empty; otherwise it has exactly the names of the entries of the
    file.  Every connector in it is registered under the name of its
    connection, has a session token that is not empty and that token as its
    cookie, and a client set up with the URL, timeout and TLS flag of the
    connection. *)
Theorem server_registry
    (config_path : string) (file : option (list ConnData)) (w w' : World)
    (reg : Registry) :
  ReadOnlyGrafanaServer_new load_dotenv_keep parse_int config_path file w
  = (w', Ok reg) ->
  Forall registered reg
  /\ NoDup (dict_keys reg)
  /\ match file with
     | None => reg = []
     | Some raw =>
         forall n, In n (dict_keys reg) <-> In n (map cd_connection_name raw)
     end.
Proof.
  unfold ReadOnlyGrafanaServer_new.
  destruct file as [raw|]; cbn [load_config].
  - destruct (process_connections load_dotenv_keep parse_int raw w)
      as [w1 [cs|e]] eqn:Hp; [|discriminate].
    intros H. inversion H; subst.
    destruct (process_connections_loaded raw w w' cs Hp) as [Hn Hl].
    split; [|split].
    + apply load_connections_entries; [constructor|].
      intros c Hc. rewrite Forall_forall in Hl.
      destruct (Hl c Hc) as ((tok & Ht & Hne) & _ & _).
      unfold registered. cbn. repeat split. exists tok. now rewrite Ht.
    + apply load_connections_nodup. constructor.
    + intros n. rewrite load_connections_keys, Hn. cbn. intuition.
  - intros H. inversion H; subst. repeat split; constructor.
Qed.

End LoaderProperties.

(** ** Edge cases of single operations *)

Section EdgeProperties.

Variable unquote : string -> string.
Variable load_dotenv : option string -> Env -> Env.
Variable net : list Request -> Request -> Outcome.

Lemma rotate_without_token (t : string) (st : St) :
  token_of st = None ->
  rotate_if_changed t st
  = (st, Raise (TypeError "'NoneType' object is not subscriptable")).
Proof. intros H. unfold rotate_if_changed. unfold token_of in H. now rewrite H. Qed.

(** X19: [_check_and_update_session_cookie] on a connection that has no
    token in memory.  Headers that carry no session token pass; as soon as
    one carries a token the method raises a [TypeError] and nothing is
    updated: not the token, not the cookie, not the credential file. *)
Theorem check_cookie_without_token (response : Response) (st : St) :
  let hs := get_list "set-cookie" (headers response) in
  token_of st = None ->
  (header_tokens unquote hs = [] ->
   _check_and_update_session_cookie unquote response st = (st, Ok tt))
  /\ (header_tokens unquote hs <> [] ->
      _check_and_update_session_cookie unquote response st
      = (st, Raise (TypeError "'NoneType' object is not subscriptable"))).
Proof.
  intros hs Hnone. unfold _check_and_update_session_cookie. fold hs.
  clearbody hs. induction hs as [|h hs [IH1 IH2]]; [easy|].
  rewrite scan_headers_cons, header_tokens_cons.
  destruct (header_token unquote h) as [t|].
  - split; [discriminate|]. intros _. unfold bind.
    now rewrite rotate_without_token.
  - split; assumption.
Qed.

(** X20: [list_teams] reads the teams under the key [teams] of the
    answer.  An answer without that key gives the empty list; a list of
    objects gives one entry per team, in order, with [member_count] zero
    where upstream has none; an answer that is not an object raises an
    [AttributeError]. *)
Theorem list_teams_entries (st st1 : St) (answer : json) :
  _get unquote load_dotenv net "/teams/search" [] st = (st1, Ok answer) ->
  (forall d,
     answer = JDict d -> dict_get "teams" d = None ->
     list_teams unquote load_dotenv net st = (st1, Ok (JList [])))
  /\ (forall d teams,
        answer = JDict d -> dict_get "teams" d = Some (JList (map JDict teams)) ->
        list_teams unquote load_dotenv net st
        = (st1, Ok (JList (map (fun t =>
                     JDict [("id", field t "id" JNull);
                            ("uid", field t "uid" JNull);
                            ("name", field t "name" JNull);
                            ("email", field t "email" JNull);
                            ("member_count", field t "memberCount" (JInt 0))])
                   teams))))
  /\ (is_dict answer = false ->
      exists msg,
        list_teams unquote load_dotenv net st
        = (st1, Raise (AttributeError msg))).
Proof.
  intros Hget.
  assert (E : forall r, list_teams unquote load_dotenv net st
                        = (st1, r) <->
                        (let? teams := Py.get answer "teams" (JList []) in
                         shape_each
                           [("id", "id", JNull); ("uid", "uid", JNull);
                            ("name", "name", JNull); ("email", "email", JNull);
                            ("member_count", "memberCount", JInt 0)] teams)
                        = r).
  { intros r. unfold list_teams, bind. rewrite Hget. unfold lift.
    split; [now inversion 1|now intros ->]. }
  split; [|split].
  - intros d -> Hd. apply E. cbn [Py.get rbind]. now rewrite Hd.
  - intros d teams -> Hd. apply E. cbn [Py.get rbind]. rewrite Hd.
    now rewrite shape_each_dicts.
  - intros Hnd. destruct answer; try discriminate;
      eexists; apply E; reflexivity.
Qed.

End EdgeProperties.

(** * The further properties at concrete inputs *)

Lemma get_needs_token_witness :
  sent_of (fst (_get Str.percent_decode load_dotenv_plain Scenario.grafana
                  "/org" [] Scenario.start))
  = [mkRequest GET "/api/org" [] None (Some "old_token_123")].
Proof.
  exact (proj2 (get_needs_token Str.percent_decode load_dotenv_plain
                  Scenario.grafana "/org" []
                  Sample.connector Sample.world_with_file)
               "old_token_123" eq_refl ltac:(discriminate)).
Defined.


Lemma tool_call_keeps_configuration_witness :
  list_connections
    (fst (fst (call_tool Str.percent_decode load_dotenv_plain Scenario.grafana
                 (call_get_health "test")
                 (Sample.registry, Sample.world_with_file))))
  = list_connections Sample.registry
  /\ dict_get "other"
       (fst (fst (call_tool Str.percent_decode load_dotenv_plain
                    Scenario.grafana (call_get_health "test")
                    (Sample.registry, Sample.world_with_file))))
     = None.
Proof.
  destruct (tool_call_keeps_configuration Str.percent_decode load_dotenv_plain
              Scenario.grafana (call_get_health "test")
              Sample.registry Sample.world_with_file) as (_ & _ & Hl & Ho).
  split; [exact Hl|]. rewrite (Ho "other"); [reflexivity|discriminate].
Defined.


Lemma get_dashboard_panel_first_match_witness :
  snd (get_dashboard_panel Str.percent_decode load_dotenv_plain
         Scenario.grafana "abc" 2 Scenario.start)
  = Ok (JDict [("id", JInt 2); ("title", JStr "Memory")])
  /\ snd (get_dashboard_panel Str.percent_decode load_dotenv_plain
            Scenario.grafana "abc" 7 Scenario.start)
     = Raise (Exception "Panel with id 7 not found in dashboard abc").
Proof.
  assert (Hall : Forall (fun p => is_dict p = true)
                   [JDict [("id", JInt 1); ("title", JStr "CPU");
                           ("description", JStr "load of the hosts")];
                    JDict [("id", JInt 2); ("title", JStr "Memory")]])
    by (repeat constructor).
  split.
  - destruct (get_dashboard_panel_first_match Str.percent_decode
                load_dotenv_plain Scenario.grafana "abc" 2 Scenario.start
                (fst (_get Str.percent_decode load_dotenv_plain
                        Scenario.grafana "/dashboards/uid/abc" []
                        Scenario.start))
                Scenario.dashboard _ _ eq_refl eq_refl eq_refl Hall)
      as [_ H].
    now rewrite (H [JDict [("id", JInt 1); ("title", JStr "CPU");
                           ("description", JStr "load of the hosts")]]
                   (JDict [("id", JInt 2); ("title", JStr "Memory")]) []
                   eq_refl eq_refl eq_refl).
  - destruct (get_dashboard_panel_first_match Str.percent_decode
                load_dotenv_plain Scenario.grafana "abc" 7 Scenario.start
                (fst (_get Str.percent_decode load_dotenv_plain
                        Scenario.grafana "/dashboards/uid/abc" []
                        Scenario.start))
                Scenario.dashboard _ _ eq_refl eq_refl eq_refl Hall)
      as [H _].
    now rewrite (H eq_refl).
Defined.

Lemma get_health_version_witness :
  snd (get_health Str.percent_decode load_dotenv_plain Scenario.grafana
         Scenario.start)
  = Ok (JDict [("database", JStr "ok"); ("version", JStr "unknown")]).
Proof.
  destruct (get_health_version Str.percent_decode load_dotenv_plain
              Scenario.grafana Scenario.start
              (fst (_get Str.percent_decode load_dotenv_plain Scenario.grafana
                      "/health" [] Scenario.start))
              (JDict [("database", JStr "ok")]) eq_refl) as [H _].
  destruct (H [("database", JStr "ok")] eq_refl) as (_ & Hfail & _).
  now rewrite (Hfail _ (Exception "Request failed: connection refused") eq_refl).
Defined.

Lemma list_alerts_needs_object_witness :
  exists msg,
    snd (list_alerts Str.percent_decode load_dotenv_plain Scenario.grafana
           None Scenario.start)
    = Raise (AttributeError msg).
Proof.
  destruct (list_alerts_needs_object Str.percent_decode load_dotenv_plain
              Scenario.grafana None Scenario.start
              (fst (_get Str.percent_decode load_dotenv_plain Scenario.grafana
                      unified_rules_endpoint [] Scenario.start))
              (JList []) eq_refl eq_refl) as [msg H].
  exists msg. now rewrite H.
Defined.

Lemma search_dashboards_entries_witness :
  exists entries,
    snd (search_dashboards Str.percent_decode load_dotenv_plain
           Scenario.grafana None None Scenario.start)
    = Ok (JList entries)
    /\ length entries = 1%nat.
Proof.
  destruct (search_dashboards_entries Str.percent_decode load_dotenv_plain
              Scenario.grafana None None Scenario.start
              (fst (_get Str.percent_decode load_dotenv_plain Scenario.grafana
                      "/search" [("type", JStr "dash-db")] Scenario.start))
              (JList [JDict [("uid", JStr "abc"); ("title", JStr "Service")]])
              eq_refl) as [H _].
  destruct (H [[("uid", JStr "abc"); ("title", JStr "Service")]] eq_refl)
    as (entries & He & Hl & _).
  exists entries. rewrite He. split; [reflexivity|exact Hl].
Defined.

Lemma get_dashboard_info_summary_witness :
  exists info summaries,
    snd (get_dashboard_info Str.percent_decode load_dotenv_plain
           Scenario.grafana "abc" Scenario.start)
    = Ok (JDict info)
    /\ dict_get "panels_summary" info
       = Some (JDict [("total_count", JInt 2); ("panels", JList summaries)]).
Proof.
  destruct (get_dashboard_info_summary Str.percent_decode load_dotenv_plain
              Scenario.grafana "abc" Scenario.start
              (fst (_get Str.percent_decode load_dotenv_plain Scenario.grafana
                      "/dashboards/uid/abc" [] Scenario.start))
              Scenario.dashboard
              [("uid", JStr "abc"); ("title", JStr "Service");
               ("panels",
                JList [JDict [("id", JInt 1); ("title", JStr "CPU");
                              ("description", JStr "load of the hosts")];
                       JDict [("id", JInt 2); ("title", JStr "Memory")]])]
              [("folderTitle", JStr "Ops")]
              [[("id", JInt 1); ("title", JStr "CPU");
                ("description", JStr "load of the hosts")];
               [("id", JInt 2); ("title", JStr "Memory")]]
              eq_refl eq_refl eq_refl eq_refl eq_refl)
    as (info & summaries & He & Hs & _).
  exists info, summaries. rewrite He. split; [reflexivity|exact Hs].
Defined.

Lemma load_connections_registry_witness :
  dict_get "prod"
    (_load_connections
       [Scenario.named "prod" "first"; Scenario.named "dev" "x";
        Scenario.named "prod" "second"] [])
  = Some (GrafanaConnector_new (Scenario.named "prod" "second")).
Proof.
  destruct (load_connections_registry
              [Scenario.named "prod" "first"; Scenario.named "dev" "x";
               Scenario.named "prod" "second"]) as (_ & _ & _ & H).
  apply (H [Scenario.named "prod" "first"; Scenario.named "dev" "x"]
           (Scenario.named "prod" "second") [] eq_refl).
  intros c' [].
Defined.

Lemma load_config_connections_witness :
  exists conns,
    snd (load_config Scenario.load_dotenv_keep_plain Scenario.parse_digits
           "connections.yaml"
           (Some [Scenario.entry "prod" "https://a.example.com/";
                  Scenario.entry "dev" "https://b.example.com"])
           Scenario.bare_world)
    = ConfigLoaded conns
    /\ map connection_name conns = ["prod"; "dev"]
    /\ map timeout conns = [30%Z; 60%Z].
Proof.
  eexists. split; [reflexivity|].
  split; [|reflexivity].
  apply (load_config_connections Scenario.load_dotenv_keep_plain
           Scenario.parse_digits "connections.yaml"
           [Scenario.entry "prod" "https://a.example.com/";
            Scenario.entry "dev" "https://b.example.com"]
           Scenario.bare_world Scenario.bare_world _ eq_refl).
Defined.

Lemma server_registry_witness :
  exists reg,
    snd (ReadOnlyGrafanaServer_new Scenario.load_dotenv_keep_plain
           Scenario.parse_digits "connections.yaml"
           (Some [Scenario.entry "prod" "https://a.example.com/";
                  Scenario.entry "dev" "https://b.example.com"])
           Scenario.bare_world)
    = Ok reg
    /\ Forall registered reg.
Proof.
  eexists. split; [reflexivity|].
  apply (server_registry Scenario.load_dotenv_keep_plain
           Scenario.parse_digits "connections.yaml"
           (Some [Scenario.entry "prod" "https://a.example.com/";
                  Scenario.entry "dev" "https://b.example.com"])
           Scenario.bare_world Scenario.bare_world _ eq_refl).
Defined.

Lemma check_cookie_without_token_witness :
  _check_and_update_session_cookie Str.percent_decode
    (Sample.answer 200 [Sample.rotated] (JDict []))
    (GrafanaConnector_new
       (mkConnection "test" "https://example.com" "" 30 true None),
     Sample.world_with_file)
  = ((GrafanaConnector_new
        (mkConnection "test" "https://example.com" "" 30 true None),
      Sample.world_with_file),
     Raise (TypeError "'NoneType' object is not subscriptable")).
Proof.
  apply (proj2 (check_cookie_without_token Str.percent_decode
                  (Sample.answer 200 [Sample.rotated] (JDict []))
                  (GrafanaConnector_new
                     (mkConnection "test" "https://example.com" "" 30 true None),
                   Sample.world_with_file) eq_refl)).
  discriminate.
Defined.

Lemma list_teams_entries_witness :
  snd (list_teams Str.percent_decode load_dotenv_plain
         (Scenario.by_path [("/api/teams/search", Scenario.ok (JDict []))]
            (Failed "connection refused"))
         Scenario.start)
  = Ok (JList []).
Proof.
  destruct (list_teams_entries Str.percent_decode load_dotenv_plain
              (Scenario.by_path [("/api/teams/search", Scenario.ok (JDict []))]
                 (Failed "connection refused"))
              Scenario.start
              (fst (_get Str.percent_decode load_dotenv_plain
                      (Scenario.by_path
                         [("/api/teams/search", Scenario.ok (JDict []))]
                         (Failed "connection refused"))
                      "/teams/search" [] Scenario.start))
              (JDict []) eq_refl) as [H _].
  now rewrite (H [] eq_refl eq_refl).
Defined.

(** A token with a line feed in it is written as two lines, and persisting
    it again adds a line each time: the condition of [persist_twice] is
    needed. *)
Example persist_line_feed_grows :
  let st1 := fst (_persist_token_to_env ("a" ++ LF ++ "b")
                    (Sample.connector, Sample.world_with_file)) in
  let st2 := fst (_persist_token_to_env ("a" ++ LF ++ "b") st1) in
  option_map (fun c => length (Str.splitlines c)) (env_file (snd st1))
  = Some 4%nat
  /\ option_map (fun c => length (Str.splitlines c)) (env_file (snd st2))
     = Some 5%nat.
Proof. split; reflexivity. Qed.
